(** * Lagos security sentiment: bias correction, text classification,
      aggregation and alerting

    A shallow embedding of the decision logic of the repository
    (app/core/bias_corrector.py, app/core/data_collector.py,
    app/core/csv_data_loader.py, app/utils/helpers.py,
    app/core/alert_generator.py, app/database/manager.py,
    app/core/sentiment_analyzer.py, with the tables of
    app/config/settings.py) together with the properties its
    specification states about it and further properties of the code:
    its edge cases, its invariants, and how its parts compose.

    Conventions.
    - A Python [float] is an IEEE 754 binary64 number.  It is modelled by
      [spec_float] of the standard library with precision 53 and maximal
      exponent 1024, whose operations round to nearest, ties to even, as
      CPython's do.  The arithmetic is reached through the class [Number]
      so that the same translation of the code can also be read in exact
      rational arithmetic, which is the arithmetic of the worked examples
      of the specification.
    - A Python [str] is a [string]; [str.lower] is modelled on the ASCII
      letters.
    - A Python [dict] used as a lookup table is a [gmap]; a dict that is
      iterated in insertion order is an association list.
    - An [int] that meets a float in a comparison or as the result of
      [min] and [max] (the 0, 1 and -1 of [adjust_sentiment]) is read as
      the float of the same value.
    - [try ... except] is modelled by the sum type [Py.result].
    - A routine of Python or of a library whose result the code only
      passes on ([re.findall], [str.split], the means of pandas and
      SQLite, [round], [sum]) is a variable of a section: the code is
      translated over whatever the routine returns.
    - The rows committed to the database are a value of type
      [DatabaseManager.store], which the readers take.  The writers take
      and return a [Persistence.database], which also records the write
      lock that a writer leaves behind when it fails.  SQLite stores a
      NaN as [NULL].
    - A [datetime] is a number of seconds.  The start of the window of a
      query, [datetime.now() - timedelta(hours=hours)], raises
      [OverflowError] when it is not a date of the years 1 to 9999. *)

From Stdlib Require Import ZArith QArith Qabs Qpower Qfield Bool List String Ascii Lia SpecFloat.
From Stdlib Require Import DecimalString Sorted Permutation.
From stdpp Require Import gmap strings.
Import ListNotations.

Open Scope string_scope.

(* ================================================================== *)
(** * Numbers *)
(* ================================================================== *)

Module Arith.

(** The operations the code applies to scores.  [dec m k] is the numeric
    literal whose decimal expansion is [m * 10^-k], e.g. [dec (-35) 2] for
    [-0.35]. *)
Class Number (F : Type) := {
  dec : Z -> nat -> F;
  fadd : F -> F -> F;
  fsub : F -> F -> F;
  fmul : F -> F -> F;
  fdiv : F -> F -> F;
  flt : F -> F -> bool;
  fle : F -> F -> bool
}.

Declare Scope num_scope.
Delimit Scope num_scope with num.
Infix ".+" := fadd (at level 50, left associativity) : num_scope.
Infix ".-" := fsub (at level 50, left associativity) : num_scope.
Infix ".*" := fmul (at level 40, left associativity) : num_scope.
Infix "./" := fdiv (at level 40, left associativity) : num_scope.
Infix ".<" := flt (at level 70, no associativity) : num_scope.
Infix ".<=" := fle (at level 70, no associativity) : num_scope.

(** ** IEEE 754 binary64 *)

Definition prec : Z := 53.
Definition emax : Z := 1024.

Definition b64_of_Z (z : Z) : spec_float := binary_normalize prec emax z 0 false.

(** A decimal literal is read as the binary64 number nearest to it.  For
    the literals of this program both [m] and [10^k] are below [2^53], so
    the correctly rounded quotient of the two is that number. *)
Definition b64_dec (m : Z) (k : nat) : spec_float :=
  SFdiv prec emax (b64_of_Z m) (b64_of_Z (10 ^ Z.of_nat k)).

#[export] Instance binary64 : Number spec_float := {|
  dec := b64_dec;
  fadd := SFadd prec emax;
  fsub := SFsub prec emax;
  fmul := SFmul prec emax;
  fdiv := SFdiv prec emax;
  flt := SFltb;
  fle := SFleb
|}.

(** The rational number a finite binary64 value stands for. *)
Definition SF2Q (x : spec_float) : Q :=
  match x with
  | S754_finite s m e => (if s then -1 else 1) * inject_Z (Zpos m) * Qpower 2 e
  | _ => 0
  end.

(** ** Exact rational arithmetic *)

Definition Q_dec (m : Z) (k : nat) : Q := Qmake m (Z.to_pos (10 ^ Z.of_nat k)).

Definition Q_ltb (x y : Q) : bool :=
  match Qcompare x y with Lt => true | _ => false end.

#[export] Instance exact : Number Q := {|
  dec := Q_dec;
  fadd := Qplus;
  fsub := Qminus;
  fmul := Qmult;
  fdiv := Qdiv;
  flt := Q_ltb;
  fle := Qle_bool
|}.

(** ** Python's two-argument [min] and [max]

    [min(a, b)] keeps [a] unless [b < a]; [max(a, b)] keeps [a] unless
    [b > a].  With a NaN argument every comparison is false and the first
    argument is kept. *)
Definition py_min {F} `{Number F} (a b : F) : F := if (b .< a)%num then b else a.
Definition py_max {F} `{Number F} (a b : F) : F := if (a .< b)%num then b else a.

End Arith.

Import Arith.
Open Scope num_scope.

(* ================================================================== *)
(** * Values of binary64 numbers *)
(* ================================================================== *)

Module Binary64.

Local Open Scope Z_scope.

(** Rounding to nearest, ties to even, of [m / 2^n] from the quotient, the
    last bit shifted out and the sticky bit. *)
Definition rne_shift (m n : Z) : Z :=
  round_nearest_even (m / 2 ^ n)
    (loc_of_shr_record
       {| shr_m := m / 2 ^ n;
          shr_r := Z.odd (m / 2 ^ (n - 1));
          shr_s := negb (m mod 2 ^ (n - 1) =? 0) |}).

(** The value of a finite number, counted in units of [2^-1074]. *)
Definition units (s : bool) (m : positive) (e : Z) : Z :=
  (if s then -1 else 1) * (Zpos m * 2 ^ (e + 1074)).

(** The value of a number in units of [2^-1074]; the non-finite data
    count for nothing. *)
Definition sval (x : spec_float) : Z :=
  match x with
  | S754_finite s m e => units s m e
  | _ => 0
  end.

(** Zero, or finite and canonical. *)
Definition regular (x : spec_float) : Prop :=
  match x with
  | S754_zero _ => True
  | S754_finite _ m e => bounded 53 1024 m e = true
  | _ => False
  end.

(** The numbers 1.0 and -1.0. *)
Definition b64_one : spec_float := S754_finite false 4503599627370496 (-52).

Definition b64_mone : spec_float := S754_finite true 4503599627370496 (-52).

End Binary64.

(* ================================================================== *)
(** * app/config/settings.py and app/core/bias_corrector.py *)
(* ================================================================== *)

Module BiasCorrector.

Section WithNumber.
Context {F : Type} `{Number F}.

(** [BiasConfig]: the two calibration tables. *)
Record BiasConfig := {
  adjustment_factors : gmap string F;
  baseline_negativity : gmap string F
}.

(** The tables [BiasConfig.__post_init__] installs. *)
Definition default_config : BiasConfig := {|
  adjustment_factors :=
    <["twitter" := dec 7 1]> (<["facebook" := dec 8 1]> (<["news" := dec 6 1]>
    (<["government" := dec 12 1]> (<["community" := dec 10 1]> ∅))));
  baseline_negativity :=
    <["twitter" := dec (-35) 2]> (<["facebook" := dec (-25) 2]>
    (<["news" := dec (-45) 2]> (<["government" := dec (-5) 2]>
    (<["community" := dec (-15) 2]> ∅))))
|}.

(** [dict.get(key, fallback)]. *)
Definition dict_get (d : gmap string F) (key : string) (fallback : F) : F :=
  default fallback (d !! key).

(** The branch of [adjust_sentiment] before the clamp. *)
Definition adjusted_value (self : BiasConfig) (raw_sentiment : F) (source : string) : F :=
  let adjustment_factor := dict_get (adjustment_factors self) source (dec 10 1) in
  let baseline := dict_get (baseline_negativity self) source (dec (-2) 1) in
  let normalized := raw_sentiment .- baseline in
  if raw_sentiment .< dec 0 0
  then normalized .* adjustment_factor .+ baseline
  else normalized .* dec 11 1 .+ baseline.

(** [BiasCorrector.adjust_sentiment]. *)
Definition adjust_sentiment (self : BiasConfig) (raw_sentiment : F) (source : string) : F :=
  py_max (dec (-1) 0) (py_min (dec 1 0) (adjusted_value self raw_sentiment source)).

End WithNumber.

Arguments BiasConfig F : clear implicits.

End BiasCorrector.

(* ================================================================== *)
(** * Text: [str.lower] and the substring test [needle in haystack] *)
(* ================================================================== *)

Module Text.

Definition lower_ascii (c : ascii) : ascii :=
  let n := nat_of_ascii c in
  if (65 <=? n)%nat && (n <=? 90)%nat then ascii_of_nat (n + 32) else c.

Fixpoint lower (s : string) : string :=
  match s with
  | EmptyString => EmptyString
  | String c t => String (lower_ascii c) (lower t)
  end.

(** [contains needle haystack] is Python's [needle in haystack]. *)
Fixpoint contains (needle haystack : string) : bool :=
  String.prefix needle haystack ||
  match haystack with
  | EmptyString => false
  | String _ t => contains needle t
  end.

(** [any(word in text for word in words)]. *)
Definition any_in (words : list string) (text : string) : bool :=
  existsb (fun word => contains word text) words.

(** [sum(1 for word in words if word in text)]. *)
Definition count_in (words : list string) (text : string) : nat :=
  List.length (List.filter (fun word => contains word text) words).

End Text.

Import Text.

(* ================================================================== *)
(** * app/core/data_collector.py: the classifiers of [DataCollector] *)
(* ================================================================== *)

Module DataCollector.

(** [DataCollectionConfig.security_keywords], in insertion order. *)
Definition security_keywords : list (string * list string) :=
  [ ("english", ["security"; "crime"; "theft"; "robbery"; "traffic"; "accident";
                 "police"; "safety"; "emergency"; "incident"; "violence"]);
    ("pidgin", ["wahala"; "gbege"; "kasala"; "palaba"; "scatter"; "burst"]);
    ("yoruba", ["ija"; "ole"; "wahala"; "opolopo"; "ewu"]) ].

(** [security_keywords[key]]; every key the code asks for is present. *)
Definition keywords_of (key : string) : list string :=
  match List.find (fun kv => String.eqb (fst kv) key) security_keywords with
  | Some kv => snd kv
  | None => []
  end.

Definition traffic_words : list string := ["traffic"; "road"; "accident"; "jam"].
Definition crime_words : list string := ["crime"; "theft"; "robbery"; "steal"].
Definition law_enforcement_words : list string := ["police"; "law"; "arrest"].
Definition emergency_words : list string := ["emergency"; "fire"; "medical"].

(** [DataCollector.categorize_security_issue]. *)
Definition categorize_security_issue (text : string) : string :=
  let text_lower := lower text in
  if any_in traffic_words text_lower then "traffic"
  else if any_in crime_words text_lower then "crime"
  else if any_in law_enforcement_words text_lower then "law_enforcement"
  else if any_in emergency_words text_lower then "emergency"
  else "general".

(** The keyword sets in the order the branches consult them. *)
Definition category_table : list (string * list string) :=
  [ ("traffic", traffic_words); ("crime", crime_words);
    ("law_enforcement", law_enforcement_words); ("emergency", emergency_words) ].

(** The specification's reading of the classifier: the first set of an
    ordered table with at least one hit wins, and "general" is returned
    when no set has one. *)
Fixpoint first_hit (table : list (string * list string)) (text_lower : string) : string :=
  match table with
  | [] => "general"
  | (tag, words) :: rest =>
      if any_in words text_lower then tag else first_hit rest text_lower
  end.

(** [DataCollector.detect_language]. *)
Definition detect_language (text : string) : string :=
  let pidgin_words := keywords_of "pidgin" in
  let yoruba_words := keywords_of "yoruba" in
  let text_lower := lower text in
  if any_in pidgin_words text_lower then "pidgin"
  else if any_in yoruba_words text_lower then "yoruba"
  else "english".

(** [DataCollector.is_security_related]: the loop over the keyword lists
    returns at the first list with a hit. *)
Definition is_security_related (text : string) : bool :=
  let text_lower := lower text in
  existsb (fun kv => any_in (snd kv) text_lower) security_keywords.

End DataCollector.

(* ================================================================== *)
(** * app/utils/helpers.py *)
(* ================================================================== *)

Module Helpers.

Definition pidgin_indicators : list string :=
  ["wahala"; "gbege"; "kasala"; "palaba"; "dey"; "wetin"; "abi"; "shey";
   "abeg"; "comot"; "naija"; "naira"; "oga"; "madam"; "pikin"; "japa";
   "sabi"; "waka"; "gist"; "hammer"; "scatter"].

Definition yoruba_indicators : list string :=
  ["omo"; "oko"; "obinrin"; "awa"; "eyin"; "won"; "mi"; "tire"; "wa";
   "ile"; "oja"; "eko"; "agba"; "omo"; "baba"; "mama"; "eko"; "iya"].

(** [detect_nigerian_language]. *)
Definition detect_nigerian_language (text : string) : string :=
  let text_lower := lower text in
  let pidgin_count := count_in pidgin_indicators text_lower in
  let yoruba_count := count_in yoruba_indicators text_lower in
  if (yoruba_count <? pidgin_count)%nat && (0 <? pidgin_count)%nat then "pidgin"
  else if (0 <? yoruba_count)%nat then "yoruba"
  else "english".

(** The two counters of [detect_nigerian_language], as functions of the
    text. *)
Definition pidgin_count (text : string) : nat := count_in pidgin_indicators (lower text).
Definition yoruba_count (text : string) : nat := count_in yoruba_indicators (lower text).

(** The keyword table of [is_security_relevant], in insertion order. *)
Definition security_keywords : list (string * list string) :=
  [ ("direct", ["security"; "crime"; "theft"; "robbery"; "burglary"; "violence";
                "police"; "safety"; "dangerous"; "threat"; "attack"; "incident";
                "emergency"; "accident"; "fire"; "medical"; "ambulance"]);
    ("traffic", ["traffic"; "road"; "highway"; "bridge"; "transport"; "bus";
                 "taxi"; "okada"; "keke"; "danfo"; "jam"; "congestion"]);
    ("locations", ["street"; "road"; "avenue"; "bridge"; "market"; "park";
                   "station"; "airport"; "port"; "hospital"; "school"]);
    ("nigerian", ["naija"; "lagos"; "wahala"; "gbege"; "kasala"; "palaba"]) ].

(** The running total of the loop over the categories. *)
Definition total_matches (text_lower : string) : nat :=
  fold_left (fun total kv => (total + count_in (snd kv) text_lower)%nat)
            security_keywords 0%nat.

(** [is_security_relevant]. *)
Definition is_security_relevant (text : string) : bool :=
  let text_lower := lower text in
  (2 <=? total_matches text_lower)%nat.

(** The entries of the table, one per (category, keyword) pair. *)
Definition table_entries : list (string * string) :=
  flat_map (fun kv => map (fun w => (fst kv, w)) (snd kv)) security_keywords.

(** The number of table entries whose keyword occurs in the lower-cased
    text. *)
Definition entry_hits (text : string) : nat :=
  List.length (List.filter (fun e => contains (snd e) (lower text)) table_entries).

(** The distinct keywords of the table that occur in the lower-cased text. *)
Definition keywords_present (text : string) : list string :=
  List.filter (fun w => contains w (lower text))
              (nodup string_dec (map snd table_entries)).

End Helpers.

(* ================================================================== *)
(** * app/api/models.py *)
(* ================================================================== *)

(** Timestamps are instants on a discrete time line, counted in seconds
    from 1970-01-01 00:00:00. *)
Definition datetime : Type := Z.

(** [datetime.min] and [datetime.max]: the first second of the year 1 and
    the last second of the year 9999. *)
Definition datetime_min : datetime := (-62135596800)%Z.
Definition datetime_max : datetime := 253402300799%Z.

Module SentimentData.
Section WithNumber.
Context {F : Type}.
Record t := {
  source : string;
  text : string;
  raw_sentiment : F;
  adjusted_sentiment : F;
  location : string;
  timestamp : datetime;
  confidence : F;
  category : string;
  language : string
}.
End WithNumber.
Arguments t F : clear implicits.
End SentimentData.

Module SecurityAlert.
Section WithNumber.
Context {F : Type}.
Record t := {
  area : string;
  message : string;
  severity : string;
  confidence : F;
  alert_type : string;
  timestamp : datetime;
  resolved : bool
}.
End WithNumber.
Arguments t F : clear implicits.
End SecurityAlert.

(* ================================================================== *)
(** * The pandas operations of the alert generator *)
(* ================================================================== *)

Module Pandas.

(** [Series.unique()]: the distinct values in order of first appearance. *)
Fixpoint unique (values : list string) : list string :=
  match values with
  | [] => []
  | v :: rest => v :: List.filter (fun w => negb (String.eqb w v)) (unique rest)
  end.

Definition occurrences (v : string) (values : list string) : nat :=
  List.length (List.filter (String.eqb v) values).

(** Insertion of a (value, count) pair into a table sorted by decreasing
    count; among equal counts the pair that came first stays first. *)
Fixpoint insert_by_count (p : string * nat) (table : list (string * nat)) : list (string * nat) :=
  match table with
  | [] => [p]
  | q :: rest =>
      if (snd q <=? snd p)%nat then p :: q :: rest else q :: insert_by_count p rest
  end.

(** [Series.value_counts()]: each distinct value with its number of
    occurrences, the most frequent first, ties in order of first
    appearance. *)
Definition value_counts (values : list string) : list (string * nat) :=
  fold_right insert_by_count []
    (map (fun v => (v, occurrences v values)) (unique values)).

End Pandas.

(* ================================================================== *)
(** * app/core/alert_generator.py *)
(* ================================================================== *)

Module AlertGenerator.

(** [str(n)] for a non-negative [int]. *)
Definition str_of_nat (n : nat) : string :=
  DecimalString.NilEmpty.string_of_uint (Nat.to_uint n).

Section WithNumber.
Context {F : Type} `{Number F}.

(** [Series.mean()] of pandas, a routine outside the repository: the
    generator is translated over whatever mean it computes. *)
Variable series_mean : list F -> F.

(** [datetime.now()]: the reading of the clock when the [n]-th alert of a
    call is built. *)
Variable now : nat -> datetime.

(** The three attributes [AlertGenerator.__init__] copies from
    [settings.alerts]. *)
Record t := {
  high_threshold : F;
  medium_threshold : F;
  minimum_sources : Z
}.

(** The defaults of [AlertConfig]. *)
Definition default : t := {|
  high_threshold := dec (-5) 1;
  medium_threshold := dec (-3) 1;
  minimum_sources := 3
|}.

(** [AlertGenerator._generate_alert_message]. *)
Definition _generate_alert_message
  (self : t) (area category : string) (sentiment : F) (source_count : nat) : string :=
  let intensity :=
    if sentiment .<= high_threshold self then "significantly" else "moderately" in
  let tail := " in " ++ area ++ " (" ++ str_of_nat source_count ++ " reports)" in
  if String.eqb category "traffic" then
    "Traffic-related complaints " ++ intensity ++ " increasing" ++ tail
  else if String.eqb category "crime" then
    "Crime-related concerns " ++ intensity ++ " elevated" ++ tail
  else if String.eqb category "law_enforcement" then
    "Law enforcement issues being " ++ intensity ++ " discussed" ++ tail
  else if String.eqb category "emergency" then
    "Emergency-related incidents " ++ intensity ++ " reported" ++ tail
  else if String.eqb category "general" then
    "General security sentiment " ++ intensity ++ " negative" ++ tail
  else
    "Security concerns detected" ++ tail.

(** What one turn of the loop over the areas does: nothing, append an
    alert, or raise (the [IndexError] of [index[0]] on an empty table). *)
Inductive outcome :=
  | Skip
  | Emit (alert : SecurityAlert.t F)
  | Raise.

(** The rows [df[df['location'] == area]]. *)
Definition area_rows (df : list (SentimentData.t F)) (area : string) : list (SentimentData.t F) :=
  List.filter (fun item => String.eqb (SentimentData.location item) area) df.

(** The body of the loop, for the area [area], when [n] alerts have been
    built so far. *)
Definition examine (self : t) (df : list (SentimentData.t F)) (n : nat) (area : string) : outcome :=
  if String.eqb area "Unknown" then Skip else
  let area_data := area_rows df area in
  if (Z.of_nat (List.length area_data) <? minimum_sources self)%Z then Skip else
  let avg_sentiment := series_mean (map SentimentData.adjusted_sentiment area_data) in
  let confidence := series_mean (map SentimentData.confidence area_data) in
  let severity :=
    if avg_sentiment .<= high_threshold self then Some "high"
    else if avg_sentiment .<= medium_threshold self then Some "medium"
    else None in
  match severity with
  | None => Skip
  | Some severity =>
      let category_counts := Pandas.value_counts (map SentimentData.category area_data) in
      match category_counts with
      | [] => Raise
      | (primary_category, _) :: _ =>
          let message :=
            _generate_alert_message self area primary_category avg_sentiment
                                    (List.length area_data) in
          Emit {| SecurityAlert.area := area;
                  SecurityAlert.message := message;
                  SecurityAlert.severity := severity;
                  SecurityAlert.confidence := confidence;
                  SecurityAlert.alert_type := primary_category;
                  SecurityAlert.timestamp := now n;
                  SecurityAlert.resolved := false |}
      end
  end.

(** The loop [for area in df['location'].unique()] inside [try]: an
    exception ends the loop and the alerts appended so far are returned. *)
Fixpoint alerts_loop (self : t) (df : list (SentimentData.t F)) (areas : list string) (n : nat)
  : list (SecurityAlert.t F) :=
  match areas with
  | [] => []
  | area :: rest =>
      match examine self df n area with
      | Skip => alerts_loop self df rest n
      | Emit alert => alert :: alerts_loop self df rest (S n)
      | Raise => []
      end
  end.

(** [AlertGenerator.generate_alerts]. *)
Definition generate_alerts (self : t) (sentiment_data : list (SentimentData.t F))
  : list (SecurityAlert.t F) :=
  match sentiment_data with
  | [] => []
  | _ => alerts_loop self sentiment_data
                     (Pandas.unique (map SentimentData.location sentiment_data)) 0
  end.

(** The alerts of a batch that concern one area. *)
Definition alerts_for (area : string) (alerts : list (SecurityAlert.t F)) : list (SecurityAlert.t F) :=
  List.filter (fun alert => String.eqb (SecurityAlert.area alert) area) alerts.

End WithNumber.

Arguments t F : clear implicits.
Arguments outcome F : clear implicits.

(** A sequential mean, for running the generator on examples: the sum
    from left to right, starting at zero, over the number of values. *)
Definition sequential_mean {F : Type} `{Number F} (values : list F) : F :=
  fold_left fadd values (dec 0 0) ./ dec (Z.of_nat (List.length values)) 0.

End AlertGenerator.

(* ================================================================== *)
(** * Exceptions *)
(* ================================================================== *)

Module Py.

(** The exceptions the modelled code can meet. *)
Inductive exn :=
  | OperationalError   (* sqlite3: the database cannot be opened or read *)
  | TypeError          (* arithmetic or [round] applied to [None] *)
  | OverflowError.     (* a date outside the years 1 to 9999 *)

(** A computation that returns a value or raises. *)
Definition result (A : Type) : Type := exn + A.

Definition ret {A : Type} (a : A) : result A := inr a.
Definition raise {A : Type} (e : exn) : result A := inl e.

Definition bind {A B : Type} (c : result A) (k : A -> result B) : result B :=
  match c with
  | inl e => inl e
  | inr a => k a
  end.

(** [try: body  except Exception as e: handler(e)]. *)
Definition try_except {A : Type} (body : result A) (handler : exn -> A) : A :=
  match body with
  | inl e => handler e
  | inr a => a
  end.

(** Evaluate a list of computations from left to right; the first
    exception ends the evaluation. *)
Fixpoint sequence {A : Type} (l : list (result A)) : result (list A) :=
  match l with
  | [] => ret []
  | c :: rest => bind c (fun a => bind (sequence rest) (fun r => ret (a :: r)))
  end.

End Py.

Notation "x <- c ;; k" := (Py.bind c (fun x => k))
  (at level 100, c at next level, right associativity).

(* ================================================================== *)
(** * app/database/manager.py *)
(* ================================================================== *)

Module DatabaseManager.

(** A row of the table [sentiment_data].  The columns declared without
    [NOT NULL] are optional; [id] and [created_at], which no query
    modelled here reads, are left out. *)
Record sentiment_row := {
  source : string;
  text : string;
  raw_sentiment : spec_float;
  adjusted_sentiment : spec_float;
  location : option string;
  timestamp : datetime;
  confidence : option spec_float;
  category : option string;
  language : option string
}.

(** A row of the table [alerts]. *)
Record alert_row := {
  alert_area : string;
  alert_message : string;
  alert_severity : string;
  alert_confidence : option spec_float;
  alert_type : option string;
  alert_timestamp : datetime;
  alert_resolved : bool
}.

(** The database file behind [self.db_path]: missing or unreadable, or
    holding the two tables. *)
Inductive store :=
  | Unavailable
  | Available (sentiment_data : list sentiment_row) (alerts : list alert_row).

(** [sqlite3.connect] followed by a [SELECT] on [sentiment_data]. *)
Definition select_sentiment_data (self : store) : Py.result (list sentiment_row) :=
  match self with
  | Unavailable => Py.raise Py.OperationalError
  | Available rows _ => Py.ret rows
  end.

(** [sqlite3.connect] followed by a [SELECT] on [alerts]. *)
Definition select_alerts (self : store) : Py.result (list alert_row) :=
  match self with
  | Unavailable => Py.raise Py.OperationalError
  | Available _ rows => Py.ret rows
  end.

(** [datetime.now() - timedelta(hours=hours)], an hour having 3600
    seconds.  The subtraction raises when its result is not a date
    between [datetime.min] and [datetime.max].  [timedelta] raises the
    same exception for an interval of more than 999999999 days, which
    would lead outside that range from any date. *)
Definition hours_before (now : datetime) (hours : Z) : Py.result datetime :=
  let since := (now - 3600 * hours)%Z in
  if (datetime_min <=? since)%Z && (since <=? datetime_max)%Z then Py.ret since
  else Py.raise Py.OverflowError.

(** A stable insertion sort: [ORDER BY] with the comparison [le]. *)
Section OrderBy.
Context {A : Type} (le : A -> A -> bool).

Fixpoint insert_sorted (x : A) (l : list A) : list A :=
  match l with
  | [] => [x]
  | y :: rest => if le x y then x :: y :: rest else y :: insert_sorted x rest
  end.

Definition order_by (l : list A) : list A := fold_right insert_sorted [] l.

End OrderBy.

(** [DatabaseManager.get_recent_sentiment]. *)
Definition get_recent_sentiment (self : store) (now : datetime) (hours : Z) : list sentiment_row :=
  Py.try_except
    (rows <- select_sentiment_data self ;;
     since <- hours_before now hours ;;
     Py.ret (order_by (fun r1 r2 => (timestamp r2 <=? timestamp r1)%Z)
                      (List.filter (fun r => (since <? timestamp r)%Z) rows)))
    (fun _ => []).

(** [DatabaseManager.get_active_alerts]. *)
Definition get_active_alerts (self : store) (now : datetime) : list alert_row :=
  Py.try_except
    (rows <- select_alerts self ;;
     since <- hours_before now 24 ;;
     Py.ret (order_by (fun r1 r2 => (alert_timestamp r2 <=? alert_timestamp r1)%Z)
                      (List.filter (fun r => (since <? alert_timestamp r)%Z && negb (alert_resolved r))
                                   rows)))
    (fun _ => []).

(** ** The aggregate query of [get_area_analysis] *)

(** A [REAL] result: SQLite turns a NaN into [NULL]. *)
Definition sql_real (x : spec_float) : option spec_float :=
  match x with
  | S754_nan => None
  | _ => Some x
  end.



Section Queries.

(** The mean SQLite's [AVG] computes over a non-empty list of numbers, a
    routine of the engine; the queries are translated over whatever mean
    it computes. *)
Variable sql_avg : list spec_float -> spec_float.

(** Python's [round(x, ndigits)], a builtin. *)
Variable py_round : spec_float -> Z -> spec_float.

(** [AVG(column)]: [NULL] values are ignored, and the mean of no value is
    [NULL]. *)
Definition AVG (values : list (option spec_float)) : option spec_float :=
  match List.flat_map (fun v => match v with Some x => [x] | None => [] end) values with
  | [] => None
  | present => sql_real (sql_avg present)
  end.



(** [WHERE timestamp > ? AND location != 'Unknown']; the comparison with
    a [NULL] location is not true. *)
Definition in_scope (since : datetime) (r : sentiment_row) : bool :=
  (since <? timestamp r)%Z &&
  match location r with
  | Some l => negb (String.eqb l "Unknown")
  | None => false
  end.









(** [round(value, 3)] on a column that may hold [None]. *)
Definition round3 (value : option spec_float) : Py.result spec_float :=
  match value with
  | Some x => Py.ret (py_round x 3)
  | None => Py.raise Py.TypeError
  end.



End Queries.

End DatabaseManager.

(* ================================================================== *)
(** * app/core/sentiment_analyzer.py *)
(* ================================================================== *)

Module SentimentAnalyzer.

Section WithBuiltins.

(** Python's [sum] on a list of floats and [round(x, ndigits)], two
    builtins. *)
Variable py_sum : list spec_float -> spec_float.
Variable py_round : spec_float -> Z -> spec_float.

(** The dictionary [get_current_status] returns.  [error] is present in
    the 'error' state only. *)
Record status_dict := {
  overall_sentiment : spec_float;
  raw_sentiment : spec_float;
  confidence : spec_float;
  total_sources : nat;
  active_alerts : nat;
  last_update : option datetime;
  status : string;
  error : option Py.exn
}.

(** [sum(values)] where an entry may be [None]: adding [None] raises. *)
Definition sum_nullable (values : list (option spec_float)) : Py.result spec_float :=
  xs <- Py.sequence (map (fun v => match v with
                                   | Some x => Py.ret x
                                   | None => Py.raise Py.TypeError
                                   end) values) ;;
  Py.ret (py_sum xs).

Definition float_of_len {A : Type} (l : list A) : spec_float :=
  b64_of_Z (Z.of_nat (List.length l)).

(** [SentimentAnalyzer.get_current_status]. *)
Definition get_current_status (db : DatabaseManager.store) (now : datetime) : status_dict :=
  Py.try_except
    (let recent_data := DatabaseManager.get_recent_sentiment db now 24 in
     let active_alerts := DatabaseManager.get_active_alerts db now in
     match recent_data with
     | [] =>
         Py.ret {| overall_sentiment := dec 0 1;
                   raw_sentiment := dec 0 1;
                   confidence := dec 0 1;
                   total_sources := 0;
                   active_alerts := 0;
                   last_update := None;
                   status := "no_data";
                   error := None |}
     | first :: _ =>
         let sentiments := map DatabaseManager.adjusted_sentiment recent_data in
         let raw_sentiments := map DatabaseManager.raw_sentiment recent_data in
         let confidences := map DatabaseManager.confidence recent_data in
         let overall_sentiment := py_sum sentiments ./ float_of_len sentiments in
         let raw_sentiment := py_sum raw_sentiments ./ float_of_len raw_sentiments in
         total_confidence <- sum_nullable confidences ;;
         let avg_confidence := total_confidence ./ float_of_len confidences in
         Py.ret {| overall_sentiment := py_round overall_sentiment 3;
                   raw_sentiment := py_round raw_sentiment 3;
                   confidence := py_round avg_confidence 3;
                   total_sources := List.length recent_data;
                   active_alerts := List.length active_alerts;
                   last_update := Some (DatabaseManager.timestamp first);
                   status := "healthy";
                   error := None |}
     end)
    (fun e =>
       {| overall_sentiment := dec 0 1;
          raw_sentiment := dec 0 1;
          confidence := dec 0 1;
          total_sources := 0;
          active_alerts := 0;
          last_update := None;
          status := "error";
          error := Some e |}).

End WithBuiltins.

End SentimentAnalyzer.

(* ================================================================== *)
(** * app/core/bias_corrector.py: the correction report *)
(* ================================================================== *)

Module CorrectionInfo.

Section WithNumber.
Context {F : Type} `{Number F}.

(** The dictionary [get_correction_info] returns. *)
Record t := {
  source : string;
  adjustment_factor : F;
  baseline_negativity : F;
  description : string
}.

(** The table of [_get_bias_description]. *)
Definition descriptions : gmap string string :=
  <["twitter" := "High negative bias - reduces negative weight by 30%"]>
  (<["facebook" := "Medium negative bias - reduces negative weight by 20%"]>
  (<["news" := "High negative bias - reduces negative weight by 40%"]>
  (<["government" := "Positive bias - increases negative weight by 20%"]>
  (<["community" := "Balanced - no adjustment applied"]> ∅)))).

(** [BiasCorrector._get_bias_description]. *)
Definition _get_bias_description (source : string) : string :=
  default "Unknown bias pattern" (descriptions !! source).

(** [BiasCorrector.get_correction_info]. *)
Definition get_correction_info (self : BiasCorrector.BiasConfig F) (source : string) : t := {|
  source := source;
  adjustment_factor :=
    BiasCorrector.dict_get (BiasCorrector.adjustment_factors self) source (dec 10 1);
  baseline_negativity :=
    BiasCorrector.dict_get (BiasCorrector.baseline_negativity self) source (dec (-2) 1);
  description := _get_bias_description source
|}.

End WithNumber.

Arguments t F : clear implicits.

End CorrectionInfo.

(* ================================================================== *)
(** * app/config/settings.py and app/core/data_collector.py: locations *)
(* ================================================================== *)

Module Locations.

(** [DataCollectionConfig.lagos_areas], the list [__post_init__]
    installs. *)
Definition lagos_areas : list string :=
  ["Victoria Island"; "Ikeja"; "Surulere"; "Yaba"; "Ikoyi";
   "Lagos Island"; "Mainland"; "Apapa"; "Mushin"; "Alimosho";
   "Eti-Osa"; "Kosofe"; "Shomolu"; "Oshodi-Isolo"; "Agege"].

(** The loop [for area in areas: if area.lower() in text_lower: return
    area]; [otherwise] is what the code goes on to when the loop ends. *)
Fixpoint first_area (areas : list string) (text_lower : string) (otherwise : string) : string :=
  match areas with
  | [] => otherwise
  | area :: rest =>
      if contains (lower area) text_lower then area else first_area rest text_lower otherwise
  end.

(** [DataCollector.extract_location]. *)
Definition extract_location (text : string) : string :=
  let text_lower := lower text in
  first_area lagos_areas text_lower "Unknown".

End Locations.

(* ================================================================== *)
(** * app/core/csv_data_loader.py: the classifiers of [CSVDataLoader] *)
(* ================================================================== *)

Module CSVDataLoader.

(** [CSVDataLoader._normalize_source], on the string [str(source)]. *)
Definition _normalize_source (source : string) : string :=
  let source_lower := lower source in
  if contains "twitter" source_lower || contains "tweet" source_lower then "twitter"
  else if contains "facebook" source_lower || contains "fb" source_lower then "facebook"
  else if contains "news" source_lower then "news"
  else if contains "government" source_lower || contains "gov" source_lower then "government"
  else "community".

(** [CSVDataLoader._infer_category]. *)
Definition _infer_category (content tags : string) : string :=
  let text := lower (content ++ " " ++ tags) in
  if any_in ["traffic"; "road"; "jam"; "congestion"] text then "traffic"
  else if any_in ["crime"; "theft"; "robbery"; "steal"; "burglar"] text then "crime"
  else if any_in ["police"; "arrest"; "law"] text then "law_enforcement"
  else if any_in ["fire"; "flood"; "emergency"; "accident"] text then "emergency"
  else "general".

End CSVDataLoader.

(* ================================================================== *)
(** * app/utils/helpers.py: validation, confidence and topics *)
(* ================================================================== *)

Module PyInt.

(** [n / d] on two [int]s that count things: the float nearest to the
    quotient.  Counts are far below [2^53], so both convert exactly and
    the rounded quotient of the two floats is that float. *)
Definition int_div (n d : nat) : spec_float :=
  b64_of_Z (Z.of_nat n) ./ b64_of_Z (Z.of_nat d).

End PyInt.

Module Validation.

(** [validate_sentiment_score] on a float: [-1.0 <= score <= 1.0]. *)
Definition validate_sentiment_score (score : spec_float) : bool :=
  (dec (-10) 1 .<= score) && (score .<= dec 10 1).

(** [validate_confidence_score] on a float: [0.0 <= confidence <= 1.0]. *)
Definition validate_confidence_score (confidence : spec_float) : bool :=
  (dec 0 1 .<= confidence) && (confidence .<= dec 10 1).

End Validation.

Module SentimentUtils.

Section WithLibrary.

(** [str.split()] and [re.findall(pattern, text)], two routines of
    Python: the function is translated over whatever lists they return. *)
Variable str_split : string -> list string.
Variable re_findall : string -> string -> list string.

(** [calculate_sentiment_confidence]. *)
Definition calculate_sentiment_confidence (text : string) (sentiment_score : spec_float)
  : spec_float :=
  let text_length := List.length (str_split text) in
  let length_factor := py_min (dec 10 1) (PyInt.int_div text_length 10) in
  let magnitude_factor := SFabs sentiment_score in
  let english_ratio :=
    PyInt.int_div (List.length (re_findall "[a-zA-Z]+" text))
                  (Nat.max 1 (List.length (str_split text))) in
  let clarity_factor := py_min (dec 10 1) english_ratio in
  let confidence :=
    length_factor .* dec 4 1 .+ magnitude_factor .* dec 4 1 .+ clarity_factor .* dec 2 1 in
  py_min (dec 95 2) (py_max (dec 1 1) confidence).

End WithLibrary.

End SentimentUtils.

Module Topics.

(** The table [categories] of [categorize_sentiment_topic], in insertion
    order. *)
Definition categories : list (string * list string) :=
  [ ("traffic", ["traffic"; "road"; "highway"; "bridge"; "transport"; "bus";
                 "taxi"; "okada"; "keke"; "danfo"; "jam"; "congestion"; "accident"]);
    ("crime", ["crime"; "theft"; "robbery"; "burglary"; "steal"; "pickpocket";
               "fraud"; "scam"; "kidnap"; "violence"; "fight"; "attack"]);
    ("law_enforcement", ["police"; "officer"; "arrest"; "station"; "patrol"; "checkpoint";
                         "law"; "enforcement"; "authority"; "government"]);
    ("emergency", ["emergency"; "fire"; "medical"; "ambulance"; "hospital";
                   "accident"; "disaster"; "flood"; "rescue"]);
    ("infrastructure", ["power"; "electricity"; "water"; "light"; "network";
                        "internet"; "phone"; "service"; "facility"]) ].

(** The dictionary [category_scores], in insertion order. *)
Definition category_scores (text_lower : string) : list (string * nat) :=
  map (fun kv => (fst kv, count_in (snd kv) text_lower)) categories.

(** [max(category_scores.values())]. *)
Definition max_value (scores : list (string * nat)) : nat :=
  fold_right Nat.max 0%nat (map snd scores).

(** [max(category_scores, key=category_scores.get)] after the first item
    [best]: an item replaces the best so far when its value is strictly
    greater. *)
Fixpoint max_by_value (best : string * nat) (rest : list (string * nat)) : string * nat :=
  match rest with
  | [] => best
  | kv :: rest' =>
      if (snd best <? snd kv)%nat then max_by_value kv rest' else max_by_value best rest'
  end.

(** [categorize_sentiment_topic]. *)
Definition categorize_sentiment_topic (text : string) : string :=
  let text_lower := lower text in
  let category_scores := category_scores text_lower in
  if (0 <? max_value category_scores)%nat then
    match category_scores with
    | first :: rest => fst (max_by_value first rest)
    | [] => "general"
    end
  else "general".

End Topics.

(* ================================================================== *)
(** * app/utils/helpers.py: Lagos areas *)
(* ================================================================== *)

Module Geography.

(** [get_lagos_areas]. *)
Definition get_lagos_areas : list string :=
  ["Victoria Island"; "Ikoyi"; "Lagos Island"; "Ikeja"; "Surulere";
   "Yaba"; "Apapa"; "Mushin"; "Alimosho"; "Agege"; "Eti-Osa";
   "Kosofe"; "Shomolu"; "Oshodi-Isolo"; "Ifako-Ijaiye"; "Somolu";
   "Lagos Mainland"; "Amuwo-Odofin"; "Ojo"; "Badagry"].

(** [get_area_aliases], in insertion order. *)
Definition get_area_aliases : list (string * list string) :=
  [ ("Victoria Island", ["VI"; "V.I"; "vic island"; "victoria isl"]);
    ("Ikoyi", ["ikoyi island"]);
    ("Lagos Island", ["lagos isl"; "isale eko"]);
    ("Ikeja", ["ikeja gra"; "ikeja government"]);
    ("Surulere", ["suru lere"; "surulere lagos"]);
    ("Yaba", ["yaba college"]);
    ("Apapa", ["apapa port"]);
    ("Mushin", ["mushin lagos"]);
    ("Alimosho", ["alimosho lga"]);
    ("Agege", ["agege motor road"]);
    ("Eti-Osa", ["eti osa"]);
    ("Kosofe", ["kosofe lga"]);
    ("Shomolu", ["shomolu lga"]);
    ("Oshodi-Isolo", ["oshodi"; "isolo"]);
    ("Ifako-Ijaiye", ["ifako"; "ijaiye"]);
    ("Amuwo-Odofin", ["amuwo odofin"; "festac"]);
    ("Ojo", ["ojo cantonment"]);
    ("Badagry", ["badagry expressway"]) ].

(** The three regular expressions of [extract_lagos_location]. *)
Definition location_patterns : list string :=
  [ "\b(?:in|at|from|near|around)\s+(\w+)";
    "\b(\w+)\s+(?:area|region|district)";
    "\b(\w+)\s+(?:road|street|avenue)" ].

(** A loop that returns at the first item for which [f] has a result. *)
Fixpoint first_some {A B : Type} (f : A -> option B) (l : list A) : option B :=
  match l with
  | [] => None
  | a :: rest => match f a with Some b => Some b | None => first_some f rest end
  end.

Section WithRegex.

(** [re.findall(pattern, text)], a routine of Python's [re]: the function
    is translated over whatever list of matches it returns. *)
Variable re_findall : string -> string -> list string.

(** The loop over the aliases: the area of the first entry one of whose
    aliases, lower-cased, occurs in the text. *)
Definition alias_match (text_lower : string) : option string :=
  first_some (fun entry : string * list string =>
                let (area, area_aliases) := entry in
                if existsb (fun alias => contains (lower alias) text_lower) area_aliases
                then Some area else None)
             get_area_aliases.

(** The innermost loop: the first area a match is part of, or begins. *)
Definition area_of_match (m : string) : option string :=
  List.find (fun area => contains (lower m) (lower area) ||
                         String.prefix (lower m) (lower area))
            get_lagos_areas.

(** The loop over the patterns and their matches. *)
Definition pattern_match (text_lower : string) : option string :=
  first_some (fun pattern => first_some area_of_match (re_findall pattern text_lower))
             location_patterns.

(** [extract_lagos_location]. *)
Definition extract_lagos_location (text : string) : string :=
  let text_lower := lower text in
  Locations.first_area get_lagos_areas text_lower
    match alias_match text_lower with
    | Some area => area
    | None =>
        match pattern_match text_lower with
        | Some area => area
        | None => "Unknown"
        end
    end.

End WithRegex.

End Geography.

(* ================================================================== *)
(** * app/utils/helpers.py: timestamps and duplicates *)
(* ================================================================== *)

Module DatetimeUtils.

Local Open Scope Z_scope.

(** [str(n)] for an [int] that is not negative. *)
Definition str_of_int (n : Z) : string := AlertGenerator.str_of_nat (Z.to_nat n).

(** ['s' if n != 1 else '']. *)
Definition plural (n : Z) : string := if n =? 1 then "" else "s".

(** [validate_timestamp], the clock reading [now]; a day has 86400
    seconds. *)
Definition validate_timestamp (now timestamp : datetime) : bool :=
  let one_year_ago := now - 365 * 86400 in
  let one_day_future := now + 1 * 86400 in
  (one_year_ago <=? timestamp) && (timestamp <=? one_day_future).

(** [get_relative_time], the clock reading [now].  A [timedelta] is kept
    normalised: [days] is the floor of the difference over a day and
    [seconds] the remainder, between 0 and 86399. *)
Definition get_relative_time (now timestamp : datetime) : string :=
  let diff := now - timestamp in
  let days := diff / 86400 in
  let seconds := diff mod 86400 in
  if 0 <? days then
    str_of_int days ++ " day" ++ plural days ++ " ago"
  else if 3600 <? seconds then
    let hours := seconds / 3600 in
    str_of_int hours ++ " hour" ++ plural hours ++ " ago"
  else if 60 <? seconds then
    let minutes := seconds / 60 in
    str_of_int minutes ++ " minute" ++ plural minutes ++ " ago"
  else "Just now".

End DatetimeUtils.

Module Deduplication.

Section WithSplit.

(** [str.split()], a method of Python's [str]: the functions are
    translated over whatever list of words it returns. *)
Variable str_split : string -> list string.

(** [set(text.lower().split())]. *)
Definition words (text : string) : gset string := list_to_set (str_split (lower text)).

(** [calculate_text_similarity]. *)
Definition calculate_text_similarity (text1 text2 : string) : spec_float :=
  let words1 := words text1 in
  let words2 := words text2 in
  if bool_decide (words1 = ∅) && bool_decide (words2 = ∅) then dec 10 1
  else if bool_decide (words1 = ∅) || bool_decide (words2 = ∅) then dec 0 1
  else
    let intersection := words1 ∩ words2 in
    let union := words1 ∪ words2 in
    PyInt.int_div (size intersection) (size union).

(** [is_duplicate_content]. *)
Definition is_duplicate_content (text : string) (existing_texts : list string)
  (threshold : spec_float) : bool :=
  existsb (fun existing => threshold .<= calculate_text_similarity text existing)
          existing_texts.

End WithSplit.

End Deduplication.

(* ================================================================== *)
(** * app/database/manager.py: the writers and the breakdown by source *)
(* ================================================================== *)

Module Persistence.

(** The exceptions of [sqlite3] the two writers can meet. *)
Inductive sqlite_error :=
  | OperationalError   (* the database cannot be opened or written *)
  | IntegrityError.    (* a [NOT NULL] constraint failed *)

(** Evaluate a list of insertions from left to right; the first failure
    ends the evaluation. *)
Fixpoint collect {A : Type} (l : list (sqlite_error + A)) : sqlite_error + list A :=
  match l with
  | [] => inr []
  | inl e :: _ => inl e
  | inr a :: rest =>
      match collect rest with
      | inl e => inl e
      | inr r => inr (a :: r)
      end
  end.

(** A float written to a column of type [REAL].  A NaN is bound as
    [NULL].  A number without fractional part is kept in the file as an
    integer and turned into a float again when it is read, which leaves
    every value as it was except the negative zero, read as [0.0]. *)
Definition stored_real (x : spec_float) : option spec_float :=
  match x with
  | S754_nan => None
  | S754_zero _ => Some (S754_zero false)
  | _ => Some x
  end.

(** The row one [INSERT INTO sentiment_data] writes; the columns
    [raw_sentiment] and [adjusted_sentiment] are declared [NOT NULL]. *)
Definition sentiment_row_of (item : SentimentData.t spec_float)
  : sqlite_error + DatabaseManager.sentiment_row :=
  match stored_real (SentimentData.raw_sentiment item),
        stored_real (SentimentData.adjusted_sentiment item) with
  | Some raw, Some adjusted =>
      inr {| DatabaseManager.source := SentimentData.source item;
             DatabaseManager.text := SentimentData.text item;
             DatabaseManager.raw_sentiment := raw;
             DatabaseManager.adjusted_sentiment := adjusted;
             DatabaseManager.location := Some (SentimentData.location item);
             DatabaseManager.timestamp := SentimentData.timestamp item;
             DatabaseManager.confidence := stored_real (SentimentData.confidence item);
             DatabaseManager.category := Some (SentimentData.category item);
             DatabaseManager.language := Some (SentimentData.language item) |}
  | _, _ => inl IntegrityError
  end.

(** The row one [INSERT INTO alerts] writes. *)
Definition alert_row_of (alert : SecurityAlert.t spec_float) : DatabaseManager.alert_row :=
  {| DatabaseManager.alert_area := SecurityAlert.area alert;
     DatabaseManager.alert_message := SecurityAlert.message alert;
     DatabaseManager.alert_severity := SecurityAlert.severity alert;
     DatabaseManager.alert_confidence := stored_real (SecurityAlert.confidence alert);
     DatabaseManager.alert_type := Some (SecurityAlert.alert_type alert);
     DatabaseManager.alert_timestamp := SecurityAlert.timestamp alert;
     DatabaseManager.alert_resolved := SecurityAlert.resolved alert |}.

(** The database between two calls of the manager: the rows committed
    to the file, and whether a connection that a writer left open still
    holds the write lock on it.  A writer closes its connection after the
    commit only: when an insertion raises, the connection stays open with
    its transaction, and the transaction keeps the lock it took for the
    first insertion.  Readers are not held up by that lock, and see the
    committed rows. *)
Record database := {
  file : DatabaseManager.store;
  write_locked : bool
}.

(** The connection a writer left open is closed when Python collects it:
    its transaction is rolled back and its lock released.  No function of
    the manager does this; it happens between calls, if at all. *)
Definition collected (self : database) : database :=
  {| file := file self; write_locked := false |}.

(** What a writer does: it returns, or re-raises the exception it met. *)
Definition outcome : Type := sqlite_error + unit.

(** [DatabaseManager.save_sentiment_data]: how the call ends, and the
    database after it.  An insertion first takes the write lock, and
    fails with 'database is locked' when another connection holds it.
    The rows are committed together after the loop, so nothing is
    written when an insertion fails. *)
Definition save_sentiment_data (self : database) (data : list (SentimentData.t spec_float))
  : outcome * database :=
  match data with
  | [] => (inr tt, self)
  | _ =>
      match file self with
      | DatabaseManager.Unavailable => (inl OperationalError, self)
      | DatabaseManager.Available sentiment_data alerts =>
          if write_locked self then (inl OperationalError, self)
          else
            match collect (map sentiment_row_of data) with
            | inl e => (inl e, {| file := file self; write_locked := true |})
            | inr rows =>
                (inr tt, {| file := DatabaseManager.Available (sentiment_data ++ rows) alerts;
                            write_locked := false |})
            end
      end
  end.

(** [DatabaseManager.save_alerts]; no column of an alert that is declared
    [NOT NULL] can receive a [NULL]. *)
Definition save_alerts (self : database) (new_alerts : list (SecurityAlert.t spec_float))
  : outcome * database :=
  match new_alerts with
  | [] => (inr tt, self)
  | _ =>
      match file self with
      | DatabaseManager.Unavailable => (inl OperationalError, self)
      | DatabaseManager.Available sentiment_data alerts =>
          if write_locked self then (inl OperationalError, self)
          else
            (inr tt, {| file := DatabaseManager.Available sentiment_data
                                  (alerts ++ map alert_row_of new_alerts);
                        write_locked := false |})
      end
  end.

End Persistence.

Module SourceBreakdown.

(** [str.upper] on an ASCII letter. *)
Definition upper_ascii (c : ascii) : ascii :=
  let n := nat_of_ascii c in
  if (97 <=? n)%nat && (n <=? 122)%nat then ascii_of_nat (n - 32) else c.

(** The ASCII letters are the cased characters. *)
Definition is_cased (c : ascii) : bool :=
  let n := nat_of_ascii c in
  ((65 <=? n)%nat && (n <=? 90)%nat) || ((97 <=? n)%nat && (n <=? 122)%nat).

(** [str.title()] on the ASCII letters: a letter that follows a letter is
    lower-cased, any other letter is upper-cased. *)
Fixpoint title_from (previous_is_cased : bool) (s : string) : string :=
  match s with
  | EmptyString => EmptyString
  | String c t =>
      String (if previous_is_cased then lower_ascii c else upper_ascii c)
             (title_from (is_cased c) t)
  end.

(** [str.title()]. *)
Definition title (s : string) : string := title_from false s.

Section Queries.

(** The mean of SQLite's [AVG] and Python's [round], as in
    [get_area_analysis]. *)
Variable sql_avg : list spec_float -> spec_float.
Variable py_round : spec_float -> Z -> spec_float.

(** A row of the result of the aggregate query. *)
Record source_row := {
  row_source : string;
  row_count : nat;
  row_avg_sentiment : option spec_float;
  row_avg_raw_sentiment : option spec_float
}.

(** The rows of one group of [GROUP BY source]. *)
Definition source_group (source : string) (rows : list DatabaseManager.sentiment_row)
  : list DatabaseManager.sentiment_row :=
  List.filter (fun r => String.eqb (DatabaseManager.source r) source) rows.

(** The count and the two means of one group. *)
Definition source_aggregate (source : string) (group : list DatabaseManager.sentiment_row)
  : source_row := {|
  row_source := source;
  row_count := List.length group;
  row_avg_sentiment :=
    DatabaseManager.AVG sql_avg (map (fun r => Some (DatabaseManager.adjusted_sentiment r)) group);
  row_avg_raw_sentiment :=
    DatabaseManager.AVG sql_avg (map (fun r => Some (DatabaseManager.raw_sentiment r)) group)
|}.

(** The cursor of [get_source_breakdown]: select, group, aggregate, and
    order by the count, descending. *)
Definition source_query (rows : list DatabaseManager.sentiment_row) (since : datetime)
  : list source_row :=
  let selected := List.filter (fun r => (since <? DatabaseManager.timestamp r)%Z) rows in
  DatabaseManager.order_by (fun r1 r2 => (row_count r2 <=? row_count r1)%nat)
    (map (fun source => source_aggregate source (source_group source selected))
         (Pandas.unique (map DatabaseManager.source selected))).

(** An entry of the list [get_source_breakdown] returns; [percentage] is
    absent until the second loop fills it in. *)
Record source_entry := {
  name : string;
  count : nat;
  sentiment : spec_float;
  raw_sentiment : spec_float;
  percentage : option spec_float
}.

(** The body of the first loop. *)
Definition source_entry_of (row : source_row) : Py.result source_entry :=
  s <- DatabaseManager.round3 py_round (row_avg_sentiment row) ;;
  r <- DatabaseManager.round3 py_round (row_avg_raw_sentiment row) ;;
  Py.ret {| name := title (row_source row);
            count := row_count row;
            sentiment := s;
            raw_sentiment := r;
            percentage := None |}.

(** The running sum [total_count += count]. *)
Definition total_of (results : list source_entry) : nat :=
  fold_left (fun total_count item => (total_count + count item)%nat) results 0%nat.

(** The body of the second loop. *)
Definition with_percentage (total_count : nat) (item : source_entry) : source_entry :=
  {| name := name item;
     count := count item;
     sentiment := sentiment item;
     raw_sentiment := raw_sentiment item;
     percentage :=
       Some (if (0 <? total_count)%nat
             then py_round (PyInt.int_div (count item) total_count .* b64_of_Z 100) 1%Z
             else b64_of_Z 0) |}.

(** [DatabaseManager.get_source_breakdown]. *)
Definition get_source_breakdown (self : DatabaseManager.store) (now : datetime) (hours : Z)
  : list source_entry :=
  Py.try_except
    (rows <- DatabaseManager.select_sentiment_data self ;;
     since <- DatabaseManager.hours_before now hours ;;
     results <- Py.sequence (map source_entry_of (source_query rows since)) ;;
     let total_count := total_of results in
     Py.ret (map (with_percentage total_count) results))
    (fun _ => []).

End Queries.

End SourceBreakdown.

(* ================================================================== *)
(** * app/core/sentiment_analyzer.py: the analysis cycle *)
(* ================================================================== *)

Module AnalysisCycle.

(** [SentimentAnalyzer._get_sources_breakdown]. *)
Definition _get_sources_breakdown {F : Type} (data : list (SentimentData.t F)) : gmap string nat :=
  fold_left
    (fun breakdown item =>
       let source := SentimentData.source item in
       let breakdown :=
         if decide (breakdown !! source = None) then <[source := 0%nat]> breakdown
         else breakdown in
       <[source := (default 0%nat (breakdown !! source) + 1)%nat]> breakdown)
    data ∅.

Section WithCollaborators.

(** [Series.mean()] of pandas and the clock readings of the alerts, as in
    the alert generator; [clock] is the reading when the dictionary of
    the cycle is built. *)
Variable series_mean : list spec_float -> spec_float.
Variable now : nat -> datetime.
Variable clock : datetime.

(** The dictionary [run_analysis_cycle] returns.  [message] is present
    in the 'warning' state only, [error] in the 'error' state only and
    [sources_breakdown] in the 'success' state only. *)
Record cycle_result := {
  processed_items : nat;
  alerts_generated : nat;
  timestamp : datetime;
  status : string;
  message : option string;
  error : option Persistence.sqlite_error;
  sources_breakdown : option (gmap string nat)
}.

(** The loop over the results of [asyncio.gather(..., return_exceptions=
    True)]: a result that is an exception is logged and skipped. *)
Definition gather_data {E : Type} (results : list (E + list (SentimentData.t spec_float)))
  : list (SentimentData.t spec_float) :=
  fold_left (fun all_data result =>
               match result with
               | inl _ => all_data
               | inr items => (all_data ++ items)%list
               end)
            results [].

(** The dictionary of the handler [except Exception as e]. *)
Definition failed (e : Persistence.sqlite_error) : cycle_result :=
  {| processed_items := 0;
     alerts_generated := 0;
     timestamp := clock;
     status := "error";
     message := None;
     error := Some e;
     sources_breakdown := None |}.

(** [SentimentAnalyzer.run_analysis_cycle], from the results of the three
    collectors: the dictionary returned and the database after the
    call. *)
Definition run_analysis_cycle {E : Type} (alert_generator : AlertGenerator.t spec_float)
  (db : Persistence.database) (results : list (E + list (SentimentData.t spec_float)))
  : cycle_result * Persistence.database :=
  let all_data := gather_data results in
  match all_data with
  | [] =>
      ({| processed_items := 0;
          alerts_generated := 0;
          timestamp := clock;
          status := "warning";
          message := Some "No data collected";
          error := None;
          sources_breakdown := None |}, db)
  | _ =>
      match Persistence.save_sentiment_data db all_data with
      | (inl e, db1) => (failed e, db1)
      | (inr _, db1) =>
          let alerts := AlertGenerator.generate_alerts series_mean now alert_generator all_data in
          match (match alerts with
                 | [] => (inr tt, db1)
                 | _ => Persistence.save_alerts db1 alerts
                 end) with
          | (inl e, db2) => (failed e, db2)
          | (inr _, db2) =>
              ({| processed_items := List.length all_data;
                  alerts_generated := List.length alerts;
                  timestamp := clock;
                  status := "success";
                  message := None;
                  error := None;
                  sources_breakdown := Some (_get_sources_breakdown all_data) |}, db2)
          end
      end
  end.

End WithCollaborators.

End AnalysisCycle.

(* ================================================================== *)
(** * Data for running the model on examples *)
(* ================================================================== *)

Module Samples.

(** [round(x, ndigits)] on a finite binary64 number, for [ndigits >= 0]:
    the multiple of [10^-ndigits] nearest to the exact value of [x], ties
    to even, read back as a binary64 number. *)
Definition round_decimal (x : spec_float) (ndigits : Z) : spec_float :=
  match x with
  | S754_finite s m e =>
      let scale := (10 ^ ndigits)%Z in
      let num := (if 0 <=? e then Zpos m * scale * 2 ^ e else Zpos m * scale)%Z in
      let den := (if 0 <=? e then 1 else 2 ^ (- e))%Z in
      let q := (num / den)%Z in
      let r := (num mod den)%Z in
      let n := (if 2 * r <? den then q
                else if den <? 2 * r then q + 1
                else if Z.even q then q else q + 1)%Z in
      if (n =? 0)%Z then S754_zero s
      else SFdiv prec emax (b64_of_Z (if s then - n else n)%Z) (b64_of_Z scale)
  | _ => x
  end.

Definition report (src area cat txt : string) (raw adjusted conf : spec_float) (t : datetime)
  : SentimentData.t spec_float :=
  {| SentimentData.source := src;
     SentimentData.text := txt;
     SentimentData.raw_sentiment := raw;
     SentimentData.adjusted_sentiment := adjusted;
     SentimentData.location := area;
     SentimentData.timestamp := t;
     SentimentData.confidence := conf;
     SentimentData.category := cat;
     SentimentData.language := "english" |}.

(** Three reports from Ikeja, two from Yaba, one without an area. *)
Definition batch : list (SentimentData.t spec_float) :=
  [ report "twitter" "Ikeja" "crime" "robbery in Ikeja" (dec (-9) 1) (dec (-6) 1) (dec 8 1) 100%Z;
    report "news" "Yaba" "traffic" "traffic jam at Yaba" (dec (-10) 1) (dec (-10) 1) (dec 9 1) 110%Z;
    report "twitter" "Ikeja" "traffic" "accident in Ikeja" (dec (-8) 1) (dec (-5) 1) (dec 7 1) 120%Z;
    report "news" "Unknown" "crime" "theft reported" (dec (-10) 1) (dec (-10) 1) (dec 9 1) 130%Z;
    report "news" "Yaba" "crime" "theft at Yaba" (dec (-10) 1) (dec (-10) 1) (dec 9 1) 140%Z;
    report "government" "Ikeja" "crime" "crime wave in Ikeja" (dec (-7) 1) (dec (-7) 1) (dec 6 1) 150%Z ].

(** The same reports as rows of the table [sentiment_data]. *)
Definition row_of (d : SentimentData.t spec_float) : DatabaseManager.sentiment_row :=
  {| DatabaseManager.source := SentimentData.source d;
     DatabaseManager.text := SentimentData.text d;
     DatabaseManager.raw_sentiment := SentimentData.raw_sentiment d;
     DatabaseManager.adjusted_sentiment := SentimentData.adjusted_sentiment d;
     DatabaseManager.location := Some (SentimentData.location d);
     DatabaseManager.timestamp := SentimentData.timestamp d;
     DatabaseManager.confidence := Some (SentimentData.confidence d);
     DatabaseManager.category := Some (SentimentData.category d);
     DatabaseManager.language := Some (SentimentData.language d) |}.

Definition table : list DatabaseManager.sentiment_row := map row_of batch.

(** A batch with a report whose raw score is the negative zero. *)
Definition signed_zero_batch : list (SentimentData.t spec_float) :=
  [ report "twitter" "Ikeja" "general" "calm in Ikeja" (S754_zero true) (dec (-2) 1) (dec 8 1) 100%Z ].

(** A batch whose second report has no score: both are NaN. *)
Definition unscored_batch : list (SentimentData.t spec_float) :=
  [ report "twitter" "Ikeja" "crime" "robbery in Ikeja" (dec (-9) 1) (dec (-6) 1) (dec 8 1) 160%Z;
    report "news" "Yaba" "traffic" "gridlock at Yaba" S754_nan S754_nan (dec 9 1) 170%Z ].

(** A row whose confidence is [NULL]. *)
Definition unrated_row : DatabaseManager.sentiment_row :=
  {| DatabaseManager.source := "news";
     DatabaseManager.text := "police patrol";
     DatabaseManager.raw_sentiment := dec 1 1;
     DatabaseManager.adjusted_sentiment := dec 2 1;
     DatabaseManager.location := Some "Apapa";
     DatabaseManager.timestamp := 160%Z;
     DatabaseManager.confidence := None;
     DatabaseManager.category := Some "law_enforcement";
     DatabaseManager.language := None |}.

End Samples.

(* ================================================================== *)
(** * Properties *)
(* ================================================================== *)

(** ** Numbers *)

(** The literals of the calibration tables, as binary64 bit patterns. *)
Example b64_literals :
  b64_dec 7 1 = S754_finite false 6305039478318694 (-53) /\
  b64_dec (-35) 2 = S754_finite true 6305039478318694 (-54) /\
  b64_dec 11 1 = S754_finite false 4953959590107546 (-52) /\
  b64_dec 10 1 = S754_finite false 4503599627370496 (-52) /\
  b64_dec (-1) 0 = S754_finite true 4503599627370496 (-52) /\
  b64_dec 0 0 = S754_zero false.
Proof. vm_compute. repeat split. Qed.

Lemma SFltb_SFleb x y : SFltb x y = true -> SFleb x y = true.
Proof. unfold SFltb, SFleb. destruct (SFcompare x y) as [[]|]; congruence. Qed.

(** The clamp [max(-1, min(1, x))] lands in [-1, 1] for every binary64
    datum: finite, infinite or NaN. *)
Lemma b64_clamp_bounds (x : spec_float) :
  let r := py_max (dec (-1) 0) (py_min (dec 1 0) x) in
  SFleb (dec (-1) 0) r = true /\ SFleb r (dec 1 0) = true.
Proof.
  cbn zeta. unfold py_max, py_min. cbn [flt binary64].
  destruct (SFltb x (dec 1 0)) eqn:Hhi.
  - destruct (SFltb (dec (-1) 0) x) eqn:Hlo.
    + split; apply SFltb_SFleb; assumption.
    + split; vm_compute; reflexivity.
  - split; vm_compute; reflexivity.
Qed.

(** ** Text classification *)

Lemma any_in_true (words : list string) (text : string) :
  any_in words text = true <->
  exists word, In word words /\ contains word text = true.
Proof. unfold any_in. apply existsb_exists. Qed.

Lemma count_in_pos (words : list string) (text : string) :
  (0 < count_in words text)%nat <-> any_in words text = true.
Proof.
  unfold count_in, any_in. induction words as [|w ws IH]; simpl.
  - split; [lia | discriminate].
  - destruct (contains w text); simpl; [split; [reflexivity | lia] | exact IH].
Qed.

(** C6. [categorize_security_issue] consults the keyword sets in the order
    traffic, crime, law_enforcement, emergency and returns the tag of the
    first set with a hit, "general" when there is none; hence a text with
    both a traffic keyword and a crime keyword is "traffic", and so is
    "robbery during traffic jam". *)
Theorem categorize_priority (text : string) :
  DataCollector.categorize_security_issue text
    = DataCollector.first_hit DataCollector.category_table (lower text) /\
  ((exists t, In t DataCollector.traffic_words /\ contains t (lower text) = true) ->
   (exists c, In c DataCollector.crime_words /\ contains c (lower text) = true) ->
   DataCollector.categorize_security_issue text = "traffic") /\
  DataCollector.categorize_security_issue "robbery during traffic jam" = "traffic".
Proof.
  split; [reflexivity | split; [| reflexivity]].
  intros Ht _. apply any_in_true in Ht.
  unfold DataCollector.categorize_security_issue. cbn zeta. rewrite Ht. reflexivity.
Qed.

Lemma categorize_priority_witness :
  DataCollector.categorize_security_issue "Robbery near the Road" = "traffic".
Proof.
  destruct (categorize_priority "Robbery near the Road") as (_ & Hboth & _).
  apply Hboth.
  - exists "road". split; [simpl; tauto | reflexivity].
  - exists "robbery". split; [simpl; tauto | reflexivity].
Defined.

(** C5, as the code has it.  [detect_nigerian_language] counts the hits
    against the two indicator lists.  It answers "pidgin" when the pidgin
    count is strictly the higher one, otherwise "yoruba" as soon as the
    yoruba count is positive (a positive tie included), and "english" only
    when both counts are zero.  One pidgin hit against two yoruba hits is
    "yoruba", and so is one hit from each list.  [DataCollector.detect_language],
    which the collectors call, does not count: it answers "pidgin" when any
    pidgin keyword occurs, else "yoruba" when any yoruba keyword occurs,
    else "english". *)
Theorem detect_language_cases (text : string) :
  let p := Helpers.pidgin_count text in
  let y := Helpers.yoruba_count text in
  ((y < p)%nat -> Helpers.detect_nigerian_language text = "pidgin") /\
  ((p <= y)%nat -> (0 < y)%nat -> Helpers.detect_nigerian_language text = "yoruba") /\
  (p = 0%nat -> y = 0%nat -> Helpers.detect_nigerian_language text = "english") /\
  (p = 1%nat -> y = 2%nat -> Helpers.detect_nigerian_language text = "yoruba") /\
  (p = 1%nat -> y = 1%nat -> Helpers.detect_nigerian_language text = "yoruba") /\
  (DataCollector.detect_language text =
     if any_in (DataCollector.keywords_of "pidgin") (lower text) then "pidgin"
     else if any_in (DataCollector.keywords_of "yoruba") (lower text) then "yoruba"
     else "english").
Proof.
  cbn zeta. unfold Helpers.detect_nigerian_language, Helpers.pidgin_count, Helpers.yoruba_count.
  cbn zeta.
  set (p := count_in Helpers.pidgin_indicators (lower text)).
  set (y := count_in Helpers.yoruba_indicators (lower text)).
  assert (Hcases : forall s : string,
            ((y < p)%nat -> s = "pidgin") ->
            ((p <= y)%nat -> (0 < y)%nat -> s = "yoruba") ->
            (p = 0%nat -> y = 0%nat -> s = "english") ->
            ((y < p)%nat -> s = "pidgin") /\
            ((p <= y)%nat -> (0 < y)%nat -> s = "yoruba") /\
            (p = 0%nat -> y = 0%nat -> s = "english") /\
            (p = 1%nat -> y = 2%nat -> s = "yoruba") /\
            (p = 1%nat -> y = 1%nat -> s = "yoruba")).
  { intros s H1 H2 H3. repeat split; auto; intros; apply H2; lia. }
  split_and!; try (apply Hcases); try reflexivity.
  all: destruct (Nat.ltb_spec y p), (Nat.ltb_spec 0 p), (Nat.ltb_spec 0 y);
    simpl; intros; try reflexivity; lia.
Qed.

Lemma detect_language_cases_witness :
  Helpers.detect_nigerian_language "scatter for road" = "pidgin" /\
  Helpers.detect_nigerian_language "gbege baba mama" = "yoruba" /\
  Helpers.detect_nigerian_language "Gbege, Baba" = "yoruba" /\
  Helpers.detect_nigerian_language "all calm" = "english".
Proof.
  split; [| split; [| split]].
  - destruct (detect_language_cases "scatter for road") as (Hgt & _).
    apply Hgt. vm_compute. lia.
  - destruct (detect_language_cases "gbege baba mama") as (_ & _ & _ & H12 & _).
    apply H12; reflexivity.
  - destruct (detect_language_cases "Gbege, Baba") as (_ & _ & _ & _ & H11 & _).
    apply H11; reflexivity.
  - destruct (detect_language_cases "all calm") as (_ & _ & H00 & _).
    apply H00; reflexivity.
Defined.

(** C5 as the claim words it fails: "gbege baba" has one hit in each list
    and is classified "yoruba", not "english"; the classifier of
    [DataCollector] answers "pidgin" on it. *)
Lemma detect_language_tie_counterexample :
  Helpers.pidgin_count "gbege baba" = 1%nat /\
  Helpers.yoruba_count "gbege baba" = 1%nat /\
  Helpers.detect_nigerian_language "gbege baba" <> "english" /\
  DataCollector.detect_language "gbege baba" <> "english".
Proof. vm_compute. repeat split; discriminate. Qed.

Lemma count_in_entries (tag : string) (words : list string) (text : string) :
  List.length (List.filter (fun e : string * string => contains (snd e) text)
                           (map (fun w => (tag, w)) words))
  = count_in words text.
Proof.
  unfold count_in. induction words as [|w ws IH]; simpl; [reflexivity |].
  destruct (contains w text); simpl; rewrite IH; reflexivity.
Qed.

Lemma fold_matches_entries (table : list (string * list string)) (text : string) (start : nat) :
  fold_left (fun total kv => (total + count_in (snd kv) text)%nat) table start
  = (start + List.length (List.filter (fun e : string * string => contains (snd e) text)
        (flat_map (fun kv => map (fun w => (fst kv, w)) (snd kv)) table)))%nat.
Proof.
  revert start. induction table as [|kv rest IH]; intros start; simpl.
  - lia.
  - rewrite IH, List.filter_app, List.length_app, count_in_entries. lia.
Qed.

Lemma total_matches_entry_hits (text : string) :
  Helpers.total_matches (lower text) = Helpers.entry_hits text.
Proof.
  unfold Helpers.total_matches, Helpers.entry_hits, Helpers.table_entries.
  rewrite fold_matches_entries. reflexivity.
Qed.

(** C4, as the code has it.  [is_security_relevant] answers true exactly
    when at least two entries of its four-category table hit the
    lower-cased text, an entry being a keyword in a category; a text that
    hits exactly one entry is not relevant.  [DataCollector.is_security_related],
    the predicate the collectors call, answers true as soon as one keyword
    of its own three-language table occurs. *)
Theorem security_relevance_threshold (text : string) :
  (Helpers.is_security_relevant text = true <-> (2 <= Helpers.entry_hits text)%nat) /\
  (Helpers.entry_hits text = 1%nat -> Helpers.is_security_relevant text = false) /\
  (DataCollector.is_security_related text = true <->
   exists kv word, In kv DataCollector.security_keywords /\ In word (snd kv) /\
                   contains word (lower text) = true).
Proof.
  unfold Helpers.is_security_relevant. cbn zeta. rewrite total_matches_entry_hits.
  split; [apply Nat.leb_le | split].
  - intros ->. reflexivity.
  - unfold DataCollector.is_security_related. cbn zeta. rewrite existsb_exists. split.
    + intros (kv & Hkv & Hany). apply any_in_true in Hany as (w & Hw & Hc).
      exists kv, w. auto.
    + intros (kv & w & Hkv & Hw & Hc). exists kv. split; [exact Hkv |].
      apply any_in_true. exists w. auto.
Qed.

Lemma security_relevance_threshold_witness :
  Helpers.is_security_relevant "Armed robbery tonight" = false.
Proof.
  destruct (security_relevance_threshold "Armed robbery tonight") as (_ & Hone & _).
  apply Hone. reflexivity.
Defined.

(** C4 as the claim words it fails: "road" contains one keyword of the
    table and no other, and is relevant, because the table lists "road"
    under two categories and each listing counts.  With the predicate of
    [DataCollector], "crime" alone is security related. *)
Lemma single_keyword_counterexample :
  Helpers.keywords_present "road" = ["road"] /\
  Helpers.is_security_relevant "road" = true /\
  DataCollector.is_security_related "crime" = true.
Proof. vm_compute. repeat split. Qed.

(** ** Bias correction *)

Import BiasCorrector.

(** C9. On every calibration table, every source string and every
    binary64 score (finite or not, inside [-1, 1] or not)
    [adjust_sentiment] returns a number between -1 and 1, never a NaN: the
    clamp is applied on every path.  A source missing from both tables is
    corrected with the default factor 1.0 and the default baseline -0.2;
    no lookup can fail. *)
Theorem adjust_sentiment_total
  (self : BiasConfig spec_float) (raw : spec_float) (source : string) :
  let r := adjust_sentiment self raw source in
  (SFleb (dec (-1) 0) r = true /\ SFleb r (dec 1 0) = true /\ r <> S754_nan) /\
  (adjustment_factors self !! source = None ->
   baseline_negativity self !! source = None ->
   adjusted_value self raw source =
     if raw .< dec 0 0
     then (raw .- dec (-2) 1) .* dec 10 1 .+ dec (-2) 1
     else (raw .- dec (-2) 1) .* dec 11 1 .+ dec (-2) 1).
Proof.
  cbn zeta. split.
  - unfold adjust_sentiment.
    destruct (b64_clamp_bounds (adjusted_value self raw source)) as [Hlo Hhi].
    repeat split; try assumption.
    intros Hnan. rewrite Hnan in Hlo. discriminate Hlo.
  - intros Hf Hb. unfold adjusted_value, dict_get. rewrite Hf, Hb. reflexivity.
Qed.

Lemma adjust_sentiment_total_witness :
  adjusted_value (F := spec_float) default_config (dec 25 0) "telegram"
  = (dec 25 0 .- dec (-2) 1) .* dec 11 1 .+ dec (-2) 1.
Proof.
  destruct (adjust_sentiment_total default_config (dec 25 0) "telegram") as [_ Hdef].
  apply Hdef; vm_compute; reflexivity.
Defined.

(** C2. With the default calibration, for every source string and every
    binary64 score between -1 and 1, [adjust_sentiment] returns a score
    between -1 and 1. *)
Theorem adjust_sentiment_in_range (raw : spec_float) (source : string) :
  SFleb (dec (-1) 0) raw = true -> SFleb raw (dec 1 0) = true ->
  SFleb (dec (-1) 0) (adjust_sentiment default_config raw source) = true /\
  SFleb (adjust_sentiment default_config raw source) (dec 1 0) = true.
Proof.
  intros _ _. unfold adjust_sentiment.
  apply (b64_clamp_bounds (adjusted_value default_config raw source)).
Qed.

Lemma adjust_sentiment_in_range_witness :
  SFleb (dec (-1) 0) (adjust_sentiment default_config (dec (-9) 1) "news") = true /\
  SFleb (adjust_sentiment default_config (dec (-9) 1) "news") (dec 1 0) = true.
Proof.
  apply (adjust_sentiment_in_range (dec (-9) 1) "news"); vm_compute; reflexivity.
Defined.

Lemma Q_ltb_lt (x y : Q) : Q_ltb x y = true <-> (x < y)%Q.
Proof.
  unfold Q_ltb. rewrite Qlt_alt. destruct (x ?= y)%Q; split; congruence.
Qed.

Lemma Q_ltb_ge (x y : Q) : Q_ltb x y = false <-> (y <= x)%Q.
Proof.
  split; intros Hxy.
  - apply Qnot_lt_le. intros Hlt. apply Q_ltb_lt in Hlt. congruence.
  - destruct (Q_ltb x y) eqn:E; [| reflexivity].
    apply Q_ltb_lt in E. exfalso. exact (Qlt_not_le _ _ E Hxy).
Qed.

(** The same bound in exact arithmetic. *)
Lemma exact_clamp_bounds (x : Q) :
  (-1 <= py_max (dec (-1) 0) (py_min (dec 1 0) x) <= 1)%Q.
Proof.
  unfold py_max, py_min. cbn [flt exact].
  destruct (Q_ltb x (dec 1 0)) eqn:Hhi.
  - destruct (Q_ltb (dec (-1) 0) x) eqn:Hlo.
    + apply Q_ltb_lt in Hhi, Hlo. split; apply Qlt_le_weak; assumption.
    + split; vm_compute; discriminate.
  - split; vm_compute; discriminate.
Qed.

(** C3, as the code computes it.  At (-0.6, "twitter") the negative
    branch is taken with factor 0.7 and baseline -0.35, at (0.0, "news")
    the other branch with the boost 1.1 and baseline -0.45, and in neither
    case does the clamp change the value.  In binary64 the results are
    -0.5249999999999999 and 0.04500000000000004: they agree with -0.525
    and 0.045 to within 10^-15.  In exact arithmetic they are -0.525 and
    0.045. *)
Theorem documented_test_points :
  let twitter := adjust_sentiment (F := spec_float) default_config (dec (-6) 1) "twitter" in
  let news := adjust_sentiment (F := spec_float) default_config (dec 0 1) "news" in
  ((dec (-6) 1 .< dec 0 0) = true /\
   twitter = (dec (-6) 1 .- dec (-35) 2) .* dec 7 1 .+ dec (-35) 2 /\
   twitter = S754_finite true 4728779608739020 (-53) /\
   (Qabs (SF2Q twitter - (-525 # 1000)) <= 1 # 10 ^ 15)%Q) /\
  ((dec 0 1 .< dec 0 0) = false /\
   news = (dec 0 1 .- dec (-45) 2) .* dec 11 1 .+ dec (-45) 2 /\
   news = S754_finite false 6485183463413520 (-57) /\
   (Qabs (SF2Q news - (45 # 1000)) <= 1 # 10 ^ 15)%Q) /\
  (adjust_sentiment (F := Q) default_config (dec (-6) 1) "twitter" == -525 # 1000)%Q /\
  (adjust_sentiment (F := Q) default_config (dec 0 1) "news" == 45 # 1000)%Q.
Proof.
  cbn zeta. repeat split; vm_compute; try reflexivity; discriminate.
Qed.

(** C3 as the claim words it fails in the arithmetic the code runs in:
    the two results are not the binary64 numbers -0.525 and 0.045. *)
Lemma documented_test_points_counterexample :
  adjust_sentiment (F := spec_float) default_config (dec (-6) 1) "twitter" <> dec (-525) 3 /\
  adjust_sentiment (F := spec_float) default_config (dec 0 1) "news" <> dec 45 3.
Proof. split; vm_compute; discriminate. Qed.

(** ** Alert generation *)

Lemma unique_In (v : string) (values : list string) :
  In v (Pandas.unique values) <-> In v values.
Proof.
  induction values as [|w rest IH]; simpl; [tauto |].
  rewrite List.filter_In, IH. split.
  - intros [-> | [Hin _]]; auto.
  - intros [-> | Hin]; [auto |].
    destruct (String.eqb_spec v w) as [-> | Hne]; [auto |].
    right. split; [exact Hin |].
    destruct (String.eqb_spec v w); [contradiction | reflexivity].
Qed.

Lemma unique_NoDup (values : list string) : List.NoDup (Pandas.unique values).
Proof.
  induction values as [|w rest IH]; simpl; constructor.
  - rewrite List.filter_In. intros [_ Hneq]. rewrite String.eqb_refl in Hneq. discriminate.
  - apply List.NoDup_filter. exact IH.
Qed.

Lemma insert_by_count_nonempty (p : string * nat) (table : list (string * nat)) :
  Pandas.insert_by_count p table <> [].
Proof. destruct table as [|q rest]; simpl; [| destruct (snd q <=? snd p)%nat]; discriminate. Qed.

Lemma value_counts_nonempty (values : list string) :
  values <> [] -> Pandas.value_counts values <> [].
Proof.
  destruct values as [|v rest]; [congruence |]. intros _.
  unfold Pandas.value_counts. simpl. apply insert_by_count_nonempty.
Qed.

Section AlertLoop.
Context {F : Type} `{Number F}.
Variable series_mean : list F -> F.
Variable now : nat -> datetime.
Variable self : AlertGenerator.t F.
Variable df : list (SentimentData.t F).

Let examine := AlertGenerator.examine series_mean now self df.
Let alerts_loop := AlertGenerator.alerts_loop series_mean now self df.

Lemma examine_emit_area (n : nat) (area : string) (alert : SecurityAlert.t F) :
  examine n area = AlertGenerator.Emit alert -> SecurityAlert.area alert = area.
Proof.
  unfold examine, AlertGenerator.examine. cbn zeta.
  repeat match goal with
         | |- context [if ?c then _ else _] => destruct c
         | |- context [match ?l with [] => _ | _ :: _ => _ end] => destruct l as [|[? ?] ?]
         end; try discriminate; intros [= <-]; reflexivity.
Qed.

Lemma area_rows_nonempty (area : string) :
  In area (map SentimentData.location df) -> AlertGenerator.area_rows df area <> [].
Proof.
  intros Hin. apply List.in_map_iff in Hin as (item & Hloc & Hitem).
  intros Hnil.
  assert (Hmem : In item (AlertGenerator.area_rows df area)).
  { unfold AlertGenerator.area_rows. apply List.filter_In. split; [exact Hitem |].
    rewrite Hloc. apply String.eqb_refl. }
  rewrite Hnil in Hmem. exact Hmem.
Qed.

Lemma examine_no_raise (n : nat) (area : string) :
  In area (map SentimentData.location df) -> examine n area <> AlertGenerator.Raise.
Proof.
  intros Hin. unfold examine, AlertGenerator.examine. cbn zeta.
  pose proof (area_rows_nonempty area Hin) as Hrows.
  assert (Hcounts : Pandas.value_counts
            (map SentimentData.category (AlertGenerator.area_rows df area)) <> []).
  { apply value_counts_nonempty. destruct (AlertGenerator.area_rows df area);
      [congruence | discriminate]. }
  repeat match goal with
         | |- context [if ?c then _ else _] => destruct c
         end; try discriminate;
  destruct (Pandas.value_counts _) as [|[? ?] ?]; try discriminate; congruence.
Qed.

Lemma alerts_for_absent (area : string) (areas : list string) (n : nat) :
  ~ In area areas ->
  AlertGenerator.alerts_for area (alerts_loop areas n) = [].
Proof.
  revert n. induction areas as [|a rest IH]; intros n Hnot; [reflexivity |].
  simpl in Hnot. unfold alerts_loop in *. simpl.
  fold (examine n a). destruct (examine n a) as [|alert|] eqn:E; [| | reflexivity].
  - apply IH. tauto.
  - unfold AlertGenerator.alerts_for. simpl.
    rewrite (examine_emit_area _ _ _ E).
    destruct (String.eqb_spec a area) as [-> | _]; [tauto |]. apply IH. tauto.
Qed.

Lemma alerts_for_skipped (area : string) (areas : list string) (n : nat) :
  (forall k, examine k area = AlertGenerator.Skip) ->
  AlertGenerator.alerts_for area (alerts_loop areas n) = [].
Proof.
  intros Hskip. revert n. induction areas as [|a rest IH]; intros n; [reflexivity |].
  unfold alerts_loop in *. simpl.
  fold (examine n a). destruct (examine n a) as [|alert|] eqn:E; [apply IH | | reflexivity].
  unfold AlertGenerator.alerts_for. simpl.
  rewrite (examine_emit_area _ _ _ E).
  destruct (String.eqb_spec a area) as [-> | _]; [| apply IH].
  rewrite Hskip in E. discriminate.
Qed.

Lemma alerts_for_emitted (P : SecurityAlert.t F -> Prop) (area : string)
      (areas : list string) (n : nat) :
  List.NoDup areas -> In area areas ->
  (forall a, In a areas -> In a (map SentimentData.location df)) ->
  (forall k, exists alert, examine k area = AlertGenerator.Emit alert /\ P alert) ->
  exists alert, AlertGenerator.alerts_for area (alerts_loop areas n) = [alert] /\ P alert.
Proof.
  intros Hnd Hin Hsub Hemit. revert n.
  induction areas as [|a rest IH]; intros n; [contradiction |].
  apply List.NoDup_cons_iff in Hnd as [Hfresh Hnd].
  unfold alerts_loop in *. simpl. fold (examine n a).
  destruct (String.eqb_spec a area) as [-> | Hne].
  - destruct (Hemit n) as (alert & E & HP). rewrite E.
    exists alert. split; [| exact HP].
    unfold AlertGenerator.alerts_for. simpl.
    rewrite (examine_emit_area _ _ _ E), String.eqb_refl. f_equal.
    apply (alerts_for_absent area rest (S n) Hfresh).
  - assert (Hin' : In area rest) by (destruct Hin; [contradiction | assumption]).
    assert (Hsub' : forall a0, In a0 rest -> In a0 (map SentimentData.location df))
      by (intros; apply Hsub; right; assumption).
    destruct (examine n a) as [|alert|] eqn:E.
    + apply IH; assumption.
    + unfold AlertGenerator.alerts_for. simpl.
      rewrite (examine_emit_area _ _ _ E).
      destruct (String.eqb_spec a area) as [Heq | _]; [contradiction |].
      apply (IH Hnd Hin' Hsub' (S n)).
    + exfalso. apply (examine_no_raise n a); [apply Hsub; left; reflexivity | exact E].
Qed.

End AlertLoop.

(** C1. With the default thresholds (three sources at least, "high" at
    -0.5 or below), whatever the batch and whatever mean pandas computes:
    an area that has exactly two records in the batch gets no alert, and
    an area other than "Unknown" that has exactly three records whose mean
    adjusted score is at or below -0.5 gets exactly one alert, of severity
    "high". *)
Theorem alert_suppression {F : Type} `{Number F}
  (series_mean : list F -> F) (now : nat -> datetime)
  (sentiment_data : list (SentimentData.t F)) (area : string) :
  let self := AlertGenerator.default in
  let group := AlertGenerator.area_rows sentiment_data area in
  let alerts := AlertGenerator.generate_alerts series_mean now self sentiment_data in
  (Z.of_nat (List.length group) = (AlertGenerator.minimum_sources self - 1)%Z ->
   AlertGenerator.alerts_for area alerts = []) /\
  (area <> "Unknown" ->
   Z.of_nat (List.length group) = AlertGenerator.minimum_sources self ->
   (series_mean (map SentimentData.adjusted_sentiment group)
      .<= AlertGenerator.high_threshold self) = true ->
   exists alert,
     AlertGenerator.alerts_for area alerts = [alert] /\
     SecurityAlert.severity alert = "high").
Proof.
  cbn zeta. split.
  - intros Hlen. unfold AlertGenerator.generate_alerts.
    destruct sentiment_data as [|item rest] eqn:Hdata; [reflexivity |].
    rewrite <- Hdata in *. apply alerts_for_skipped. intros k.
    unfold AlertGenerator.examine. cbn zeta.
    destruct (String.eqb area "Unknown"); [reflexivity |].
    rewrite Hlen. reflexivity.
  - intros Hknown Hlen Hmean. unfold AlertGenerator.generate_alerts.
    destruct sentiment_data as [|item rest] eqn:Hdata; [discriminate Hlen |].
    rewrite <- Hdata in *.
    assert (Hrows : AlertGenerator.area_rows sentiment_data area <> []).
    { intros Hnil. rewrite Hnil in Hlen. discriminate Hlen. }
    assert (Hin : In area (map SentimentData.location sentiment_data)).
    { destruct (AlertGenerator.area_rows sentiment_data area) as [|r rs] eqn:E;
        [congruence |].
      assert (Hr : In r (AlertGenerator.area_rows sentiment_data area))
        by (rewrite E; left; reflexivity).
      unfold AlertGenerator.area_rows in Hr. apply List.filter_In in Hr as [Hr Hloc].
      apply String.eqb_eq in Hloc. subst area. apply List.in_map. exact Hr. }
    apply (alerts_for_emitted series_mean now AlertGenerator.default sentiment_data
             (fun alert => SecurityAlert.severity alert = "high")).
    + apply unique_NoDup.
    + apply unique_In. exact Hin.
    + intros a Ha. apply unique_In. exact Ha.
    + intros k. unfold AlertGenerator.examine. cbn zeta.
      destruct (String.eqb_spec area "Unknown") as [Heq | _]; [contradiction |].
      rewrite Hlen, Hmean. cbn [AlertGenerator.minimum_sources AlertGenerator.default].
      rewrite Z.ltb_irrefl.
      destruct (Pandas.value_counts _) as [|[primary count] others] eqn:Hcounts.
      * exfalso. revert Hcounts. apply value_counts_nonempty.
        destruct (AlertGenerator.area_rows sentiment_data area); [congruence | discriminate].
      * eexists. split; reflexivity.
Qed.

Lemma alert_suppression_witness :
  let alerts := AlertGenerator.generate_alerts AlertGenerator.sequential_mean
                  (fun n => Z.of_nat n) AlertGenerator.default Samples.batch in
  AlertGenerator.alerts_for "Yaba" alerts = [] /\
  exists alert, AlertGenerator.alerts_for "Ikeja" alerts = [alert] /\
                SecurityAlert.severity alert = "high".
Proof.
  cbn zeta. split.
  - destruct (alert_suppression AlertGenerator.sequential_mean (fun n => Z.of_nat n)
                Samples.batch "Yaba") as [Hnone _].
    apply Hnone. reflexivity.
  - destruct (alert_suppression AlertGenerator.sequential_mean (fun n => Z.of_nat n)
                Samples.batch "Ikeja") as [_ Hone].
    apply Hone; [discriminate | reflexivity | vm_compute; reflexivity].
Defined.

(** ** Aggregation *)






Section OrderByFacts.
Context {A : Type} (le : A -> A -> bool).
Hypothesis le_total : forall a b, le a b = false -> le b a = true.

Let R (a b : A) : Prop := le a b = true.

Lemma insert_sorted_perm (x : A) (l : list A) :
  Permutation (DatabaseManager.insert_sorted le x l) (x :: l).
Proof.
  induction l as [|y rest IH]; simpl; [apply Permutation_refl |].
  destruct (le x y); [apply Permutation_refl |].
  apply Permutation_trans with (y :: x :: rest);
    [apply perm_skip; exact IH | apply perm_swap].
Qed.

Lemma order_by_perm (l : list A) : Permutation (DatabaseManager.order_by le l) l.
Proof.
  induction l as [|x rest IH]; simpl; [apply perm_nil |].
  apply Permutation_trans with (x :: DatabaseManager.order_by le rest);
    [apply insert_sorted_perm | apply perm_skip; exact IH].
Qed.

Lemma insert_sorted_HdRel (y x : A) (l : list A) :
  R y x -> HdRel R y l -> HdRel R y (DatabaseManager.insert_sorted le x l).
Proof.
  intros Hyx Hhd. destruct l as [|z rest]; simpl; [constructor; exact Hyx |].
  destruct (le x z); constructor; [exact Hyx |].
  inversion Hhd; assumption.
Qed.

Lemma insert_sorted_Sorted (x : A) (l : list A) :
  Sorted R l -> Sorted R (DatabaseManager.insert_sorted le x l).
Proof using le_total.
  induction l as [|y rest IH]; intros Hs; simpl.
  - repeat constructor.
  - destruct (le x y) eqn:Hxy.
    + constructor; [exact Hs | constructor; exact Hxy].
    + inversion Hs as [|? ? Hrest Hhd]; subst. constructor; [apply IH; exact Hrest |].
      apply insert_sorted_HdRel; [apply le_total; exact Hxy | exact Hhd].
Qed.

Lemma order_by_Sorted (l : list A) : Sorted R (DatabaseManager.order_by le l).
Proof using le_total.
  induction l as [|x rest IH]; simpl; [constructor | apply insert_sorted_Sorted; exact IH].
Qed.

Lemma Sorted_adjacent (l1 l2 : list A) (a b : A) :
  Sorted R (l1 ++ a :: b :: l2) -> R a b.
Proof.
  induction l1 as [|c rest IH]; simpl; intros Hs; inversion Hs as [|? ? Htail Hhd]; subst.
  - inversion Hhd; assumption.
  - apply IH. exact Htail.
Qed.

End OrderByFacts.

Lemma sequence_ok {A B : Type} (f : A -> Py.result B) (l : list A) (out : list B) :
  Py.sequence (map f l) = inr out -> Forall2 (fun a b => f a = inr b) l out.
Proof.
  revert out. induction l as [|a rest IH]; simpl; intros out Hseq.
  - injection Hseq as <-. constructor.
  - destruct (f a) as [e|b] eqn:Hf; simpl in Hseq; [discriminate |].
    destruct (Py.sequence (map f rest)) as [e|bs]; simpl in Hseq; [discriminate |].
    injection Hseq as <-. constructor; [exact Hf | apply IH; reflexivity].
Qed.

Lemma sequence_all_ok {A B : Type} (f : A -> Py.result B) (l : list A) :
  (forall a, In a l -> exists b, f a = inr b) ->
  exists out, Py.sequence (map f l) = inr out.
Proof.
  induction l as [|a rest IH]; simpl; intros Hall; [eexists; reflexivity |].
  destruct (Hall a) as [b ->]; [left; reflexivity |].
  destruct IH as [bs ->]; [intros; apply Hall; right; assumption |].
  eexists; reflexivity.
Qed.

Section AreaQuery.
Variable sql_avg : list spec_float -> spec_float.
Variable py_round : spec_float -> Z -> spec_float.
Variable rows : list DatabaseManager.sentiment_row.
Variable since : datetime.

Let selected := List.filter (DatabaseManager.in_scope since) rows.











End AreaQuery.

Lemma Forall2_In_r {A B : Type} (R : A -> B -> Prop) (l : list A) (l' : list B) (b : B) :
  Forall2 R l l' -> In b l' -> exists a, In a l /\ R a b.
Proof.
  induction 1 as [|a b' l l' Hab _ IH]; simpl; [tauto |].
  intros [<- | Hb]; [exists a; auto |].
  destruct (IH Hb) as (a' & Ha' & HR). exists a'. auto.
Qed.

Lemma Forall2_map_eq {A B C : Type} (R : A -> B -> Prop) (f : A -> C) (g : B -> C)
      (l : list A) (l' : list B) :
  (forall a b, R a b -> g b = f a) -> Forall2 R l l' -> map g l' = map f l.
Proof.
  intros Hfg. induction 1 as [|a b l l' Hab _ IH]; simpl; [reflexivity |].
  rewrite IH, (Hfg a b Hab). reflexivity.
Qed.

Lemma hours_before_cases (now : datetime) (hours : Z) :
  let since := (now - 3600 * hours)%Z in
  (datetime_min <= since <= datetime_max)%Z /\
    DatabaseManager.hours_before now hours = inr since
  \/
  ~ (datetime_min <= since <= datetime_max)%Z /\
    DatabaseManager.hours_before now hours = inl Py.OverflowError.
Proof.
  cbn zeta. unfold DatabaseManager.hours_before. cbn zeta.
  destruct (Z.leb_spec datetime_min (now - 3600 * hours)) as [Hmin | Hmin];
    destruct (Z.leb_spec (now - 3600 * hours) datetime_max) as [Hmax | Hmax];
    cbn [andb]; [left | right | right | right]; (split; [lia | reflexivity]).
Qed.









(** ** Overall status *)

(** C7, at the failing input.  When the window holds no record
    [get_current_status] reports the state "no_data", not "healthy".  When
    the store cannot be read it reports the very same dictionary, state
    "no_data" and no error: [get_recent_sentiment] has already turned the
    exception into an empty list, so the 'error' branch is not taken.
    That branch is reached only by an exception raised after the read,
    such as a [NULL] confidence in the window. *)
Theorem store_failure_reported_as_no_data
  (py_sum : list spec_float -> spec_float) (py_round : spec_float -> Z -> spec_float)
  (now : datetime) :
  let get := SentimentAnalyzer.get_current_status py_sum py_round in
  (forall db, DatabaseManager.get_recent_sentiment db now 24 = [] ->
     SentimentAnalyzer.status (get db now) = "no_data") /\
  SentimentAnalyzer.status (get DatabaseManager.Unavailable now) = "no_data" /\
  SentimentAnalyzer.error (get DatabaseManager.Unavailable now) = None /\
  get DatabaseManager.Unavailable now = get (DatabaseManager.Available [] []) now /\
  SentimentAnalyzer.status
    (get (DatabaseManager.Available [Samples.unrated_row] []) 200%Z) = "error".
Proof.
  cbn zeta. split; [| split; [reflexivity | split; [reflexivity | split; [| reflexivity]]]].
  - intros db Hempty. unfold SentimentAnalyzer.get_current_status. rewrite Hempty. reflexivity.
  - unfold SentimentAnalyzer.get_current_status, DatabaseManager.get_recent_sentiment,
      DatabaseManager.get_active_alerts.
    cbn [DatabaseManager.select_sentiment_data DatabaseManager.select_alerts Py.bind Py.ret
         Py.raise Py.try_except].
    destruct (hours_before_cases now 24) as [[_ ->] | [_ ->]]; reflexivity.
Qed.

Lemma store_failure_reported_as_no_data_witness :
  SentimentAnalyzer.status
    (SentimentAnalyzer.get_current_status (fun l => fold_left fadd l (dec 0 0))
       Samples.round_decimal (DatabaseManager.Available Samples.table []) 100000%Z) = "no_data".
Proof.
  destruct (store_failure_reported_as_no_data (fun l => fold_left fadd l (dec 0 0))
              Samples.round_decimal 100000%Z) as [Hempty _].
  apply Hempty. reflexivity.
Defined.

(** ** Rounding in binary64 *)

Module Binary64Facts.

Import Binary64.
Local Open Scope Z_scope.

Lemma digits2_size (p : positive) : digits2_pos p = Pos.size p.
Proof. induction p; simpl; congruence. Qed.

Lemma digits2_bounds (p : positive) :
  2 ^ (Zpos (digits2_pos p) - 1) <= Zpos p < 2 ^ Zpos (digits2_pos p).
Proof.
  rewrite digits2_size. split.
  - pose proof (Pos.size_le p) as H.
    assert (H' : 2 ^ Zpos (Pos.size p) <= 2 * Zpos p).
    { rewrite <- Pos2Z.inj_pow. change (2 * Zpos p) with (Zpos p~0). exact H. }
    replace (Zpos (Pos.size p)) with (Zpos (Pos.size p) - 1 + 1) in H' by lia.
    rewrite Z.pow_add_r in H' by lia. lia.
  - pose proof (Pos.size_gt p) as H. rewrite <- Pos2Z.inj_pow. exact H.
Qed.

Lemma iter_pos_nat {A} (f : A -> A) (p : positive) (x : A) :
  SpecFloat.iter_pos f p x = Nat.iter (Pos.to_nat p) f x.
Proof.
  revert x. induction p as [p IH|p IH|]; intros x; cbn [SpecFloat.iter_pos].
  - rewrite !IH, Pos2Nat.inj_xI, Nat.iter_succ_r.
    replace (2 * Pos.to_nat p)%nat with (Pos.to_nat p + Pos.to_nat p)%nat by lia.
    rewrite Nat.iter_add. reflexivity.
  - rewrite !IH, Pos2Nat.inj_xO.
    replace (2 * Pos.to_nat p)%nat with (Pos.to_nat p + Pos.to_nat p)%nat by lia.
    rewrite Nat.iter_add. reflexivity.
  - reflexivity.
Qed.

Lemma shr_1_spec (m : Z) (r s : bool) :
  0 <= m ->
  shr_1 (Build_shr_record m r s) = Build_shr_record (Z.div2 m) (Z.odd m) (r || s).
Proof.
  intros Hm. destruct m as [|p|p]; [reflexivity | | lia].
  destruct p; reflexivity.
Qed.

(** After [n >= 1] one-bit shifts of an exact record: the quotient, the
    bit just shifted out, and whether anything below it was set. *)
Lemma shr_iter (n : nat) (m : Z) :
  0 <= m ->
  Nat.iter (S n) shr_1 (Build_shr_record m false false)
  = Build_shr_record (m / 2 ^ Z.of_nat (S n))
                     (Z.odd (m / 2 ^ Z.of_nat n))
                     (negb (m mod 2 ^ Z.of_nat n =? 0)).
Proof.
  intros Hm. induction n as [|n IH].
  - cbn [Nat.iter]. rewrite shr_1_spec by exact Hm.
    rewrite Z.div2_div. change (2 ^ Z.of_nat 1) with 2. change (2 ^ Z.of_nat 0) with 1.
    rewrite Z.div_1_r, Z.mod_1_r. reflexivity.
  - rewrite Nat.iter_succ, IH.
    rewrite shr_1_spec by (apply Z.div_pos; [exact Hm | apply Z.pow_pos_nonneg; lia]).
    f_equal.
    + rewrite Z.div2_div, Z.div_div by (try apply Z.pow_pos_nonneg; lia).
      f_equal. rewrite (Nat2Z.inj_succ (S n)), Z.pow_succ_r by lia. lia.
    + set (k := Z.of_nat n).
      assert (Hk : 0 <= k) by lia.
      replace (Z.of_nat (S n)) with (k + 1) by lia.
      rewrite Z.pow_add_r by lia. change (2 ^ 1) with 2.
      pose proof (Z.pow_pos_nonneg 2 k ltac:(lia) Hk) as Hpow.
      rewrite Z.rem_mul_r by lia.
      pose proof (Z.mod_pos_bound m (2 ^ k) Hpow) as Hrem.
      rewrite (Zmod_odd (m / 2 ^ k)).
      destruct (Z.odd (m / 2 ^ k)); simpl;
        destruct (Z.eqb_spec (m mod 2 ^ k) 0) as [E|E]; simpl;
        symmetry; try rewrite E;
        first [apply negb_true_iff, Z.eqb_neq; nia | apply negb_false_iff, Z.eqb_eq; nia].
Qed.

Lemma Zdigits2_unique (m k : Z) :
  0 < k -> 2 ^ (k - 1) <= m < 2 ^ k -> Zdigits2 m = k.
Proof.
  intros Hk [Hlo Hhi].
  assert (Hm : 0 < m) by (pose proof (Z.pow_pos_nonneg 2 (k - 1)); lia).
  destruct m as [|p|p]; try lia. simpl.
  pose proof (digits2_bounds p) as [Hdlo Hdhi].
  set (d := Zpos (digits2_pos p)) in *.
  assert (d - 1 < k) by (apply (Z.pow_lt_mono_r_iff 2); lia).
  assert (k - 1 < d) by (apply (Z.pow_lt_mono_r_iff 2); lia).
  lia.
Qed.

Lemma rne_shift_spec (m n : Z) :
  0 <= m -> 1 <= n ->
  m / 2 ^ n <= rne_shift m n <= m / 2 ^ n + 1 /\
  2 * Z.abs (rne_shift m n * 2 ^ n - m) <= 2 ^ n.
Proof.
  intros Hm Hn. unfold rne_shift.
  set (h := 2 ^ (n - 1)).
  assert (Hh : 0 < h) by (apply Z.pow_pos_nonneg; lia).
  assert (H2h : 2 ^ n = 2 * h).
  { unfold h. replace n with (n - 1 + 1) at 1 by lia. rewrite Z.pow_add_r by lia. lia. }
  rewrite H2h.
  assert (Hq : m / (2 * h) = m / h / 2) by (rewrite Z.div_div by lia; f_equal; lia).
  rewrite Hq.
  pose proof (Z.div_mod m h ltac:(lia)) as Hdm.
  pose proof (Z.mod_pos_bound m h Hh) as Hlow.
  pose proof (Z.div_mod (m / h) 2 ltac:(lia)) as Hdb.
  rewrite (Zmod_odd (m / h)) in Hdb.
  set (q := m / h / 2) in *. set (low := m mod h) in *.
  assert (Hm' : m = 2 * (h * q) + h * (if Z.odd (m / h) then 1 else 0) + low).
  { rewrite Hdm at 1. rewrite Hdb at 1. ring. }
  set (hq := h * q) in *.
  assert (Hup : (q + 1) * (2 * h) = 2 * hq + 2 * h) by (unfold hq; ring).
  assert (Hdown : q * (2 * h) = 2 * hq) by (unfold hq; ring).
  clearbody q low hq.
  destruct (Z.odd (m / h)); destruct (Z.eqb_spec low 0) as [E|E];
    cbn [round_nearest_even loc_of_shr_record negb];
    try (destruct (Z.even q)); rewrite ?Hup, ?Hdown; split; lia.
Qed.

Lemma fexp64 (e : Z) : fexp 53 1024 e = Z.max (e - 53) (-1074).
Proof. reflexivity. Qed.

(** No bit has to go: the mantissa is kept. *)
Lemma binary_round_aux_keep (sx : bool) (mx : positive) (ex : Z) :
  fexp 53 1024 (Zpos (digits2_pos mx) + ex) <= ex -> ex <= 971 ->
  binary_round_aux 53 1024 sx (Zpos mx) ex loc_Exact = S754_finite sx mx ex.
Proof.
  intros Hcan Hex. unfold binary_round_aux, shr_fexp. cbn [Zdigits2].
  assert (Hshr : forall mrs, shr mrs ex (fexp 53 1024 (Zpos (digits2_pos mx) + ex) - ex) = (mrs, ex)).
  { intros mrs. unfold shr.
    destruct (fexp 53 1024 (Zpos (digits2_pos mx) + ex) - ex) eqn:E; try reflexivity. lia. }
  rewrite Hshr. cbn [shr_record_of_loc loc_of_shr_record shr_m round_nearest_even Zdigits2].
  rewrite Hshr. cbn [shr_record_of_loc shr_m].
  destruct (Z.leb_spec ex (1024 - 53)); [reflexivity | lia].
Qed.

Lemma shr_exact_pos (m : Z) (e : Z) (p : positive) :
  0 <= m ->
  shr (shr_record_of_loc m loc_Exact) e (Zpos p)
  = ({| shr_m := m / 2 ^ Zpos p;
        shr_r := Z.odd (m / 2 ^ (Zpos p - 1));
        shr_s := negb (m mod 2 ^ (Zpos p - 1) =? 0) |}, e + Zpos p).
Proof.
  intros Hm. unfold shr. cbn [shr_record_of_loc]. rewrite iter_pos_nat.
  destruct (Pos2Nat.is_succ p) as [k Hk]. rewrite Hk, shr_iter by exact Hm.
  assert (HS : Z.of_nat (S k) = Zpos p) by (rewrite <- Hk; apply positive_nat_Z).
  assert (Hk' : Z.of_nat k = Zpos p - 1) by lia.
  rewrite HS, Hk'. reflexivity.
Qed.

(** Bits have to go, in the normal range. *)
Lemma binary_round_aux_shift (sx : bool) (mx : positive) (ex : Z) :
  let d := Zpos (digits2_pos mx) in
  let e1 := d + ex - 53 in
  let m2 := rne_shift (Zpos mx) (d - 53) in
  53 < d -> -1074 <= e1 -> e1 + 1 <= 971 ->
  2 ^ 52 <= m2 <= 2 ^ 53 /\
  binary_round_aux 53 1024 sx (Zpos mx) ex loc_Exact
  = if m2 <? 2 ^ 53 then S754_finite sx (Z.to_pos m2) e1
    else S754_finite sx (Z.to_pos (2 ^ 52)) (e1 + 1).
Proof.
  intros d e1 m2 Hd He1 Hov.
  pose proof (digits2_bounds mx) as [Hlo Hhi]. fold d in Hlo, Hhi.
  assert (Hn : exists p, d - 53 = Zpos p) by (destruct (d - 53) eqn:E; try lia; eauto).
  destruct Hn as [p Hp].
  pose proof (rne_shift_spec (Zpos mx) (d - 53) ltac:(lia) ltac:(lia)) as [Hq Herr].
  fold m2 in Hq, Herr.
  assert (Hpow : 2 ^ (d - 1) = 2 ^ 52 * 2 ^ (d - 53)).
  { rewrite <- Z.pow_add_r by lia. f_equal. lia. }
  assert (Hpow' : 2 ^ d = 2 ^ 53 * 2 ^ (d - 53)).
  { rewrite <- Z.pow_add_r by lia. f_equal. lia. }
  assert (Hpn : 0 < 2 ^ (d - 53)) by (apply Z.pow_pos_nonneg; lia).
  assert (Hm1 : 2 ^ 52 <= Zpos mx / 2 ^ (d - 53) < 2 ^ 53).
  { split.
    - apply Z.div_le_lower_bound; [exact Hpn | lia].
    - apply Z.div_lt_upper_bound; [exact Hpn | lia]. }
  assert (Hm2 : 2 ^ 52 <= m2 <= 2 ^ 53) by lia.
  split; [exact Hm2 |].
  unfold binary_round_aux, shr_fexp. cbn [Zdigits2]. fold d.
  replace (fexp 53 1024 (d + ex) - ex) with (Zpos p) by (rewrite fexp64; lia).
  rewrite shr_exact_pos by lia. rewrite <- Hp.
  cbn [shr_m]. fold (rne_shift (Zpos mx) (d - 53)). fold m2.
  replace (ex + (d - 53)) with e1 by (unfold e1; lia).
  destruct (Z.ltb_spec m2 (2 ^ 53)) as [Hlt | Hge].
  - rewrite (Zdigits2_unique m2 53) by lia.
    replace (fexp 53 1024 (53 + e1) - e1) with 0 by (rewrite fexp64; lia).
    cbn [shr shr_record_of_loc shr_m].
    destruct m2 as [|q|q] eqn:Em2; try lia.
    destruct (Z.leb_spec e1 (1024 - 53)); [reflexivity | lia].
  - assert (Em2 : m2 = 2 ^ 53) by lia. rewrite Em2.
    rewrite (Zdigits2_unique (2 ^ 53) 54) by lia.
    replace (fexp 53 1024 (54 + e1) - e1) with 1 by (rewrite fexp64; lia).
    rewrite shr_exact_pos by lia.
    cbn [shr_m].
    destruct (Z.leb_spec (e1 + 1) (1024 - 53)); [reflexivity | lia].
Qed.

Lemma iter_xO_value (m : positive) (p : positive) :
  Zpos (Pos.iter xO m p) = Zpos m * 2 ^ Zpos p.
Proof.
  rewrite Pos2Nat.inj_iter, <- (positive_nat_Z p).
  induction (Pos.to_nat p) as [|k IH]; [simpl; lia |].
  cbn [nat_rect].
  rewrite Pos2Z.inj_xO, IH, Nat2Z.inj_succ, Z.pow_succ_r by lia. ring.
Qed.

Lemma iter_xO_digits (m : positive) (p : positive) :
  Zpos (digits2_pos (Pos.iter xO m p)) = Zpos (digits2_pos m) + Zpos p.
Proof.
  rewrite Pos2Nat.inj_iter, <- (positive_nat_Z p).
  induction (Pos.to_nat p) as [|k IH]; [simpl; lia |].
  cbn [nat_rect].
  cbn [digits2_pos]. rewrite Pos2Z.inj_succ, IH. lia.
Qed.

(** [binary_round] on a mantissa at an exponent no smaller than -1074:
    the result is a finite canonical number within half a unit in the
    last place of the value. *)
Lemma binary_round_spec (sx : bool) (mx : positive) (ex : Z) :
  let e1 := Z.max (Zpos (digits2_pos mx) + ex - 53) (-1074) in
  -1074 <= ex -> e1 + 1 <= 971 ->
  exists m e,
    binary_round 53 1024 sx mx ex = S754_finite sx m e /\
    bounded 53 1024 m e = true /\
    2 * Z.abs (Zpos m * 2 ^ (e + 1074) - Zpos mx * 2 ^ (ex + 1074)) <= 2 ^ (e1 + 1074).
Proof.
  intros e1 Hex Hov.
  set (d := Zpos (digits2_pos mx)) in *.
  assert (He1pos : 0 < 2 ^ (e1 + 1074)) by (apply Z.pow_pos_nonneg; lia).
  unfold binary_round, shl_align. rewrite fexp64. fold d. fold e1.
  destruct (e1 - ex) as [|k|k] eqn:Ek.
  - (* already aligned *)
    exists mx, ex. split; [| split].
    + apply binary_round_aux_keep; [rewrite fexp64; fold d; lia | lia].
    + unfold bounded, canonical_mantissa. rewrite fexp64. fold d.
      apply andb_true_iff. split; [apply Z.eqb_eq | apply Z.leb_le]; lia.
    + rewrite Z.sub_diag. simpl Z.abs. lia.
  - (* bits to drop *)
    assert (Hd : 53 < d) by lia.
    assert (He1 : e1 = d + ex - 53) by lia.
    destruct (binary_round_aux_shift sx mx ex) as [Hm2 Hres]; fold d; try lia.
    fold d in Hm2, Hres. rewrite <- He1 in Hres.
    pose proof (rne_shift_spec (Zpos mx) (d - 53) ltac:(lia) ltac:(lia)) as [_ Herr].
    set (m2 := rne_shift (Zpos mx) (d - 53)) in *.
    set (U := 2 ^ (ex + 1074)).
    assert (HU : 0 < U) by (apply Z.pow_pos_nonneg; lia).
    assert (HN : 2 ^ (e1 + 1074) = 2 ^ (d - 53) * U).
    { unfold U. rewrite <- Z.pow_add_r by lia. f_equal. lia. }
    assert (Hval : 2 * Z.abs (m2 * 2 ^ (e1 + 1074) - Zpos mx * U) <= 2 ^ (e1 + 1074)).
    { rewrite HN.
      replace (m2 * (2 ^ (d - 53) * U) - Zpos mx * U)
        with ((m2 * 2 ^ (d - 53) - Zpos mx) * U) by ring.
      rewrite Z.abs_mul, (Z.abs_eq U) by lia. nia. }
    destruct (Z.ltb_spec m2 (2 ^ 53)) as [Hlt | Hge].
    + exists (Z.to_pos m2), e1. split; [exact Hres | split].
      * unfold bounded, canonical_mantissa. rewrite fexp64.
        replace (Zpos (digits2_pos (Z.to_pos m2))) with 53.
        -- apply andb_true_iff. split; [apply Z.eqb_eq | apply Z.leb_le];
             lia.
        -- symmetry. change (Zpos (digits2_pos (Z.to_pos m2))) with (Zdigits2 (Zpos (Z.to_pos m2))).
           rewrite Z2Pos.id by lia. apply Zdigits2_unique; lia.
      * rewrite Z2Pos.id by lia. exact Hval.
    + exists (Z.to_pos (2 ^ 52)), (e1 + 1). split; [exact Hres | split].
      * unfold bounded, canonical_mantissa. rewrite fexp64.
        change (Zpos (digits2_pos (Z.to_pos (2 ^ 52)))) with 53.
        apply andb_true_iff. split; [apply Z.eqb_eq | apply Z.leb_le];
          lia.
      * assert (Em2 : m2 = 2 ^ 53) by lia. rewrite Em2 in Hval.
        replace (Zpos (Z.to_pos (2 ^ 52)) * 2 ^ (e1 + 1 + 1074))
          with (2 ^ 53 * 2 ^ (e1 + 1074)); [exact Hval |].
        replace (e1 + 1 + 1074) with (1 + (e1 + 1074)) by lia.
        rewrite (Z.pow_add_r 2 1 (e1 + 1074)) by lia. change (Zpos (Z.to_pos (2 ^ 52))) with (2 ^ 52).
        change (2 ^ 53) with (2 ^ 52 * 2 ^ 1). ring.
  - (* room to spare: the mantissa is shifted left *)
    exists (Pos.iter xO mx k), e1.
    assert (Hk : ex = e1 + Zpos k) by lia.
    split; [| split].
    + apply binary_round_aux_keep; [| lia].
      rewrite fexp64, iter_xO_digits. fold d. lia.
    + unfold bounded, canonical_mantissa. rewrite fexp64, iter_xO_digits. fold d.
      apply andb_true_iff. split; [apply Z.eqb_eq | apply Z.leb_le]; lia.
    + rewrite iter_xO_value.
      replace (Zpos mx * 2 ^ Zpos k * 2 ^ (e1 + 1074)) with (Zpos mx * 2 ^ (ex + 1074)).
      * rewrite Z.sub_diag. simpl Z.abs. lia.
      * rewrite Hk. replace (e1 + Zpos k + 1074) with (Zpos k + (e1 + 1074)) by lia.
        rewrite (Z.pow_add_r 2 (Zpos k) (e1 + 1074)) by lia. ring.
Qed.

Lemma bounded_exponent (m : positive) (e : Z) :
  bounded 53 1024 m e = true ->
  e = Z.max (Zpos (digits2_pos m) + e - 53) (-1074) /\ e <= 971.
Proof.
  unfold bounded, canonical_mantissa. rewrite fexp64.
  intros H. apply andb_true_iff in H as [Hc He].
  apply Z.eqb_eq in Hc. apply Z.leb_le in He.  lia.
Qed.

Lemma magnitude_digits (m : positive) (u K : Z) :
  0 <= u -> Zpos m * 2 ^ u < 2 ^ K -> Zpos (digits2_pos m) + u <= K.
Proof.
  intros Hu Hlt. pose proof (digits2_bounds m) as [Hlo _].
  set (d := Zpos (digits2_pos m)) in *.
  assert (Hd : 1 <= d) by (unfold d; lia).
  assert (Hpu : 0 < 2 ^ u) by (apply Z.pow_pos_nonneg; lia).
  assert (H : 2 ^ (d - 1 + u) < 2 ^ K).
  { rewrite Z.pow_add_r by lia. nia. }
  apply Z.pow_lt_mono_r_iff in H; try lia.
  destruct (Z.le_gt_cases 0 K) as [HK | HK]; [exact HK |].
  rewrite (Z.pow_neg_r 2 K) in Hlt by lia. nia.
Qed.

(** [binary_normalize] of an integer [D] at the exponent [ez], where
    [D * 2^ez] is below [2^(K-1074)] in magnitude. *)
Lemma binary_normalize_spec (D ez K : Z) :
  -1074 <= ez -> Z.abs D * 2 ^ (ez + 1074) < 2 ^ K -> K <= 2000 ->
  let r := binary_normalize 53 1024 D ez false in
  regular r /\
  2 * Z.abs (sval r - D * 2 ^ (ez + 1074)) <= 2 ^ Z.max (K - 53) 0.
Proof.
  intros Hez Hmag HK. cbn zeta.
  assert (Hgoal : forall (s : bool) (p : positive),
            Zpos p * 2 ^ (ez + 1074) < 2 ^ K ->
            regular (binary_round 53 1024 s p ez) /\
            2 * Z.abs (sval (binary_round 53 1024 s p ez)
                       - (if s then -1 else 1) * (Zpos p * 2 ^ (ez + 1074)))
              <= 2 ^ Z.max (K - 53) 0).
  { intros s p Hp.
    pose proof (magnitude_digits p (ez + 1074) K ltac:(lia) Hp) as Hd.
    destruct (binary_round_spec s p ez) as (m & e & Hr & Hb & Herr); [lia | lia |].
    rewrite Hr. split; [exact Hb |].
    cbn [sval]. unfold units.
    assert (Hle : 2 ^ (Z.max (Zpos (digits2_pos p) + ez - 53) (-1074) + 1074)
                  <= 2 ^ Z.max (K - 53) 0)
      by (apply Z.pow_le_mono_r; lia).
    destruct s.
    - replace (-1 * (Zpos m * 2 ^ (e + 1074)) - -1 * (Zpos p * 2 ^ (ez + 1074)))
        with (- (Zpos m * 2 ^ (e + 1074) - Zpos p * 2 ^ (ez + 1074))) by ring.
      rewrite Z.abs_opp. lia.
    - replace (1 * (Zpos m * 2 ^ (e + 1074)) - 1 * (Zpos p * 2 ^ (ez + 1074)))
        with (Zpos m * 2 ^ (e + 1074) - Zpos p * 2 ^ (ez + 1074)) by ring.
      lia. }
  destruct D as [|p|p]; cbn [binary_normalize].
  - split; [exact I |]. cbn [sval]. simpl Z.abs.
    pose proof (Z.pow_pos_nonneg 2 (Z.max (K - 53) 0)). lia.
  - destruct (Hgoal false p Hmag) as [Hreg Herr]. split; [exact Hreg |].
    replace (Zpos p * 2 ^ (ez + 1074)) with (1 * (Zpos p * 2 ^ (ez + 1074))) by ring.
    exact Herr.
  - destruct (Hgoal true p Hmag) as [Hreg Herr]. split; [exact Hreg |].
    replace (Zneg p * 2 ^ (ez + 1074)) with (-1 * (Zpos p * 2 ^ (ez + 1074))).
    + exact Herr.
    + change (Zneg p) with (- Zpos p). ring.
Qed.

Lemma shl_align_value (m : positive) (e ez : Z) :
  ez <= e ->
  Zpos (fst (shl_align m e ez)) * 2 ^ (ez + 1074) = Zpos m * 2 ^ (e + 1074) \/ ez < -1074.
Proof.
  intros Hle. destruct (Z.lt_ge_cases ez (-1074)) as [Hlow | Hlow]; [right; exact Hlow | left].
  unfold shl_align. destruct (ez - e) as [|k|k] eqn:Ek; cbn [fst]; try lia.
  - replace e with ez by lia. reflexivity.
  - rewrite iter_xO_value. replace (e + 1074) with (Zpos k + (ez + 1074)) by lia.
    rewrite (Z.pow_add_r 2 (Zpos k)) by lia. ring.
Qed.

Lemma shl_align_units (m : positive) (e ez : Z) :
  -1074 <= ez -> ez <= e ->
  Zpos (fst (shl_align m e ez)) * 2 ^ (ez + 1074) = Zpos m * 2 ^ (e + 1074).
Proof.
  intros Hlow Hle. destruct (shl_align_value m e ez Hle) as [H | H]; [exact H | lia].
Qed.

Lemma aligned_units (s : bool) (m : positive) (e ez : Z) :
  -1074 <= ez -> ez <= e ->
  cond_Zopp s (Zpos (fst (shl_align m e ez))) * 2 ^ (ez + 1074) = units s m e.
Proof.
  intros Hlow Hle. unfold units. rewrite <- (shl_align_units m e ez Hlow Hle).
  destruct s; cbn [cond_Zopp]; ring.
Qed.

Lemma regular_exponent (s : bool) (m : positive) (e : Z) :
  regular (S754_finite s m e) -> -1074 <= e <= 971.
Proof. intros H. apply bounded_exponent in H. lia. Qed.

Lemma SFsub_spec (x y : spec_float) (K : Z) :
  regular x -> regular y -> Z.abs (sval x - sval y) < 2 ^ K -> K <= 2000 ->
  regular (SFsub 53 1024 x y) /\
  2 * Z.abs (sval (SFsub 53 1024 x y) - (sval x - sval y)) <= 2 ^ Z.max (K - 53) 0.
Proof.
  intros Hx Hy Hmag HK.
  pose proof (Z.pow_pos_nonneg 2 (Z.max (K - 53) 0) ltac:(lia) ltac:(lia)) as Hpos.
  destruct x as [sx|sx| |sx mx ex], y as [sy|sy| |sy my ey]; try contradiction.
  - split; [destruct sx, sy; exact I |]. destruct sx, sy; simpl; lia.
  - split; [exact Hy |]. cbn [SFsub sval]. unfold units. destruct sy; cbn [negb];
      match goal with |- 2 * Z.abs ?t <= _ => replace t with 0 by ring end; simpl; lia.
  - split; [exact Hx |]. cbn [SFsub sval].
    match goal with |- 2 * Z.abs ?t <= _ => replace t with 0 by ring end. simpl; lia.
  - pose proof (regular_exponent _ _ _ Hx) as Hex.
    pose proof (regular_exponent _ _ _ Hy) as Hey.
    cbn [SFsub]. set (ez := Z.min ex ey).
    set (D := cond_Zopp sx (Zpos (fst (shl_align mx ex ez)))
              - cond_Zopp sy (Zpos (fst (shl_align my ey ez)))).
    assert (HD : D * 2 ^ (ez + 1074) = sval (S754_finite sx mx ex) - sval (S754_finite sy my ey)).
    { unfold D. rewrite Z.mul_sub_distr_r, !aligned_units by (unfold ez; lia). reflexivity. }
    rewrite <- HD in *.
    apply binary_normalize_spec; [unfold ez; lia | | exact HK].
    rewrite <- (Z.abs_eq (2 ^ (ez + 1074))), <- Z.abs_mul; [exact Hmag |].
    apply Z.pow_nonneg; lia.
Qed.

Lemma SFadd_spec (x y : spec_float) (K : Z) :
  regular x -> regular y -> Z.abs (sval x + sval y) < 2 ^ K -> K <= 2000 ->
  regular (SFadd 53 1024 x y) /\
  2 * Z.abs (sval (SFadd 53 1024 x y) - (sval x + sval y)) <= 2 ^ Z.max (K - 53) 0.
Proof.
  intros Hx Hy Hmag HK.
  pose proof (Z.pow_pos_nonneg 2 (Z.max (K - 53) 0) ltac:(lia) ltac:(lia)) as Hpos.
  destruct x as [sx|sx| |sx mx ex], y as [sy|sy| |sy my ey]; try contradiction.
  - split; [destruct sx, sy; exact I |]. destruct sx, sy; simpl; lia.
  - split; [exact Hy |]. cbn [SFadd sval].
    match goal with |- 2 * Z.abs ?t <= _ => replace t with 0 by ring end. simpl; lia.
  - split; [exact Hx |]. cbn [SFadd sval].
    match goal with |- 2 * Z.abs ?t <= _ => replace t with 0 by ring end. simpl; lia.
  - pose proof (regular_exponent _ _ _ Hx) as Hex.
    pose proof (regular_exponent _ _ _ Hy) as Hey.
    cbn [SFadd]. set (ez := Z.min ex ey).
    set (D := cond_Zopp sx (Zpos (fst (shl_align mx ex ez)))
              + cond_Zopp sy (Zpos (fst (shl_align my ey ez)))).
    assert (HD : D * 2 ^ (ez + 1074) = sval (S754_finite sx mx ex) + sval (S754_finite sy my ey)).
    { unfold D. rewrite Z.mul_add_distr_r, !aligned_units by (unfold ez; lia). reflexivity. }
    rewrite <- HD in *.
    apply binary_normalize_spec; [unfold ez; lia | | exact HK].
    rewrite <- (Z.abs_eq (2 ^ (ez + 1074))), <- Z.abs_mul; [exact Hmag |].
    apply Z.pow_nonneg; lia.
Qed.

(** Multiplying a regular number by 1.0 returns it: the 52 bits the
    product appends to the mantissa are zeros, and they are shifted out. *)
Lemma SFmul_one (x : spec_float) :
  regular x ->
  SFmul 53 1024 x (S754_finite false 4503599627370496 (-52)) = x.
Proof.
  intros Hx. destruct x as [sx|sx| |sx mx ex]; try contradiction.
  - cbn [SFmul]. rewrite xorb_false_r. reflexivity.
  - cbn [SFmul]. rewrite xorb_false_r.
    apply bounded_exponent in Hx as [Hcan Hex].
    set (d := Zpos (digits2_pos mx)) in *.
    change 4503599627370496%positive with (Pos.iter xO 1%positive 52).
    assert (Hprod : (mx * Pos.iter xO 1 52)%positive = Pos.iter xO mx 52).
    { apply Pos2Z.inj. rewrite Pos2Z.inj_mul, !iter_xO_value. ring. }
    rewrite Hprod.
    unfold binary_round_aux, shr_fexp. cbn [Zdigits2].
    rewrite iter_xO_digits. fold d. rewrite fexp64.
    replace (Z.max (d + 52 + (ex + -52) - 53) (-1074) - (ex + -52)) with 52 by lia.
    rewrite shr_exact_pos by lia. cbn [shr_m].
    rewrite iter_xO_value.
    assert (Hq : Zpos mx * 2 ^ 52 / 2 ^ 52 = Zpos mx) by (apply Z.div_mul; lia).
    assert (Hr : Z.odd (Zpos mx * 2 ^ 52 / 2 ^ (52 - 1)) = false).
    { change (2 ^ 52) with (2 * 2 ^ 51). change (52 - 1) with 51.
      rewrite Z.mul_assoc, Z.div_mul by lia. rewrite Z.odd_mul. apply andb_false_r. }
    assert (Hs : Zpos mx * 2 ^ 52 mod 2 ^ (52 - 1) = 0).
    { change (2 ^ 52) with (2 * 2 ^ 51). change (52 - 1) with 51.
      rewrite Z.mul_assoc. apply Z.mod_mul. lia. }
    rewrite Hq, Hr, Hs. cbn [Z.eqb negb loc_of_shr_record round_nearest_even Zdigits2].
    fold d. rewrite fexp64.
    replace (ex + -52 + 52) with ex by lia.
    replace (Z.max (d + ex - 53) (-1074) - ex) with 0 by lia.
    cbn [shr shr_record_of_loc shr_m].
    destruct (Z.leb_spec ex (1024 - 53)); [reflexivity | lia].
Qed.

Lemma regular_digits (s : bool) (m : positive) (e : Z) :
  regular (S754_finite s m e) ->
  Zpos m < 2 ^ 53 /\ (-1074 < e -> 2 ^ 52 <= Zpos m).
Proof.
  intros H. apply bounded_exponent in H as [Hcan _].
  pose proof (digits2_bounds m) as [Hlo Hhi].
  set (d := Zpos (digits2_pos m)) in *.
  assert (Hd : 1 <= d) by (unfold d; lia).
  split.
  - assert (d <= 53) by lia.
    apply Z.lt_le_trans with (2 ^ d); [exact Hhi | apply Z.pow_le_mono_r; lia].
  - intros He. assert (E : d = 53) by lia. rewrite E in Hlo. exact Hlo.
Qed.

Lemma compare_cont_le (p q : positive) :
  Pos.compare_cont Eq p q <> Lt -> Zpos q <= Zpos p.
Proof.
  change (Pos.compare_cont Eq p q) with (Pos.compare p q).
  intros H. apply Pos2Z.pos_le_pos, Pos.compare_ge_iff. exact H.
Qed.

Lemma compare_cont_ge (p q : positive) :
  Pos.compare_cont Eq p q <> Gt -> Zpos p <= Zpos q.
Proof.
  change (Pos.compare_cont Eq p q) with (Pos.compare p q).
  intros H. apply Pos2Z.pos_le_pos, Pos.compare_le_iff. exact H.
Qed.

Lemma compare_cont_lt (p q : positive) :
  Zpos p < Zpos q -> Pos.compare_cont Eq p q = Lt.
Proof.
  intros H. change (Pos.compare_cont Eq p q) with (Pos.compare p q).
  apply Pos.compare_lt_iff, Pos2Z.pos_lt_pos. exact H.
Qed.

(** The exponent 1074 of the unit is kept symbolic in this section, so
    that no tactic evaluates a power of two of that size. *)
Section Units.
Variable E : Z.
Hypothesis HE : E = 1074.

Lemma sval_E (s : bool) (m : positive) (e : Z) :
  sval (S754_finite s m e) = (if s then -1 else 1) * (Zpos m * 2 ^ (e + E)).
Proof using HE. rewrite HE. reflexivity. Qed.

Lemma pow_scale (n k : Z) : 0 <= n -> 0 <= k -> 2 ^ (n + k) = 2 ^ k * 2 ^ n.
Proof. intros. rewrite Z.pow_add_r by assumption. ring. Qed.

(** A regular number at least -1 in the order of the floats is at least
    -1 in value. *)
Lemma SFleb_mone_value (x : spec_float) :
  regular x -> SFleb b64_mone x = true -> - 2 ^ E <= sval x.
Proof using HE.
  intros Hx Hle.
  assert (Hone : 0 < 2 ^ E) by (apply Z.pow_pos_nonneg; lia).
  destruct x as [sx|sx| |sx m e]; try contradiction.
  - cbn [sval]. lia.
  - pose proof (regular_digits _ _ _ Hx) as [Hm _].
    pose proof (regular_exponent _ _ _ Hx) as He.
    rewrite sval_E.
    assert (Hp : 0 < 2 ^ (e + E)) by (apply Z.pow_pos_nonneg; lia).
    destruct sx;
      [| assert (0 <= Zpos m * 2 ^ (e + E)) by (apply Z.mul_nonneg_nonneg; lia); lia].
    unfold SFleb, b64_mone in Hle. cbn [SFcompare] in Hle.
    assert (Hup : Zpos m * 2 ^ (e + E) <= 2 ^ E); [| lia].
    destruct (Z.compare_spec (-52) e) as [Heq | Hlt | Hgt]; try discriminate.
    + assert (Hmle : Zpos m <= Zpos 4503599627370496).
      { apply compare_cont_le. intros Hc. rewrite Hc in Hle. discriminate Hle. }
      clear Hle. change (Zpos 4503599627370496) with (2 ^ 52) in Hmle.
      replace E with (e + E + 52) at 2 by lia. rewrite (pow_scale (e + E) 52) by lia.
      apply Z.mul_le_mono_nonneg_r; lia.
    + clear Hle. apply Z.le_trans with (2 ^ 53 * 2 ^ (e + E)).
      * apply Z.mul_le_mono_nonneg_r; lia.
      * rewrite <- (pow_scale (e + E) 53) by lia. apply Z.pow_le_mono_r; lia.
Qed.

Lemma SFltb_zero_value (x : spec_float) :
  regular x -> SFltb x (S754_zero false) = true -> sval x < 0.
Proof using HE.
  intros Hx Hlt. destruct x as [sx|sx| |sx m e]; try contradiction.
  - discriminate Hlt.
  - pose proof (regular_exponent _ _ _ Hx) as He.
    assert (Hp : 0 < 2 ^ (e + E)) by (apply Z.pow_pos_nonneg; lia).
    rewrite sval_E. destruct sx; [| discriminate Hlt].
    assert (0 < Zpos m * 2 ^ (e + E)) by (apply Z.mul_pos_pos; lia). lia.
Qed.

(** A regular number below 1 in value is below 1 in the order of the
    floats. *)
Lemma SFltb_one_of_value (x : spec_float) :
  regular x -> sval x < 2 ^ E -> SFltb x b64_one = true.
Proof using HE.
  intros Hx Hval. destruct x as [sx|sx| |sx m e]; try contradiction.
  - reflexivity.
  - destruct sx; [reflexivity |].
    pose proof (regular_digits _ _ _ Hx) as [Hm Hnormal].
    pose proof (regular_exponent _ _ _ Hx) as He.
    assert (Hp : 0 < 2 ^ (e + E)) by (apply Z.pow_pos_nonneg; lia).
    rewrite sval_E in Hval.
    unfold SFltb, b64_one. cbn [SFcompare].
    destruct (Z.compare_spec e (-52)) as [Heq | Hlt | Hgt]; [| reflexivity |].
    + rewrite compare_cont_lt; [reflexivity |].
      change (Zpos 4503599627370496) with (2 ^ 52).
      apply Z.mul_lt_mono_pos_r with (2 ^ (e + E)); [lia |].
      rewrite <- (pow_scale (e + E) 52) by lia. replace (e + E + 52) with E by lia. lia.
    + exfalso. specialize (Hnormal ltac:(lia)).
      assert (Hbig : 2 ^ E <= 2 ^ 52 * 2 ^ (e + E))
        by (rewrite <- (pow_scale (e + E) 52) by lia; apply Z.pow_le_mono_r; lia).
      assert (2 ^ 52 * 2 ^ (e + E) <= Zpos m * 2 ^ (e + E))
        by (apply Z.mul_le_mono_nonneg_r; lia).
      lia.
Qed.

(** A regular number that is not above -1 in the order of the floats is
    at most -1 in value. *)
Lemma SFltb_mone_false_value (x : spec_float) :
  regular x -> SFltb b64_mone x = false -> sval x <= - 2 ^ E.
Proof using HE.
  intros Hx Hnlt. destruct x as [sx|sx| |sx m e]; try contradiction.
  - discriminate Hnlt.
  - destruct sx; [| discriminate Hnlt].
    pose proof (regular_digits _ _ _ Hx) as [Hm Hnormal].
    pose proof (regular_exponent _ _ _ Hx) as He.
    assert (Hp : 0 < 2 ^ (e + E)) by (apply Z.pow_pos_nonneg; lia).
    rewrite sval_E.
    unfold SFltb, b64_mone in Hnlt. cbn [SFcompare] in Hnlt.
    assert (Hdown : 2 ^ E <= Zpos m * 2 ^ (e + E)); [| lia].
    destruct (Z.compare_spec (-52) e) as [Heq | Hlt | Hgt]; [| | discriminate Hnlt].
    + assert (Hmge : Zpos 4503599627370496 <= Zpos m).
      { apply compare_cont_ge. intros Hc. rewrite Hc in Hnlt. discriminate Hnlt. }
      clear Hnlt. change (Zpos 4503599627370496) with (2 ^ 52) in Hmge.
      replace E with (e + E + 52) at 1 by lia. rewrite (pow_scale (e + E) 52) by lia.
      apply Z.mul_le_mono_nonneg_r; lia.
    + clear Hnlt. specialize (Hnormal ltac:(lia)).
      apply Z.le_trans with (2 ^ 52 * 2 ^ (e + E)).
      * rewrite <- (pow_scale (e + E) 52) by lia. apply Z.pow_le_mono_r; lia.
      * apply Z.mul_le_mono_nonneg_r; lia.
Qed.

(** The negative branch with factor 1.0, followed by the clamp: the
    result is within three quarters of [2^-52] of the score. *)
Lemma negative_branch_units (raw b : spec_float) :
  regular raw -> regular b ->
  SFleb b64_mone raw = true -> SFltb raw (S754_zero false) = true ->
  - 2 ^ (E - 2) <= sval b < 0 ->
  let a := SFadd 53 1024 (SFmul 53 1024 (SFsub 53 1024 raw b) b64_one) b in
  let low := if SFltb a b64_one then a else b64_one in
  let r := if SFltb b64_mone low then low else b64_mone in
  regular r /\ Z.abs (sval r - sval raw) <= 3 * 2 ^ (E - 54).
Proof using HE.
  intros Hraw Hb Hge Hneg Hbval. cbn zeta.
  pose proof (SFleb_mone_value raw Hraw Hge) as Hlo.
  pose proof (SFltb_zero_value raw Hraw Hneg) as Hhi.
  clear Hge Hneg.
  set (X := 2 ^ (E - 54)).
  assert (HX : 0 < X) by (apply Z.pow_pos_nonneg; lia).
  assert (H0 : 2 ^ E = 2 ^ 54 * X)
    by (unfold X; rewrite <- pow_scale by lia; f_equal; lia).
  assert (H1 : 2 ^ (E + 1) = 2 ^ 55 * X)
    by (unfold X; rewrite <- pow_scale by lia; f_equal; lia).
  assert (H2 : 2 ^ (E - 2) = 2 ^ 52 * X)
    by (unfold X; rewrite <- pow_scale by lia; f_equal; lia).
  assert (H3 : 2 ^ (E - 53) = 2 ^ 1 * X)
    by (unfold X; rewrite <- pow_scale by lia; f_equal; lia).
  assert (H4 : 2 ^ (E + 1 - 53) = 2 ^ 2 * X)
    by (unfold X; rewrite <- pow_scale by lia; f_equal; lia).
  rewrite H0 in Hlo. rewrite H2 in Hbval.
  (* the subtraction *)
  destruct (SFsub_spec raw b E Hraw Hb) as [Hn1 Herr1]; [rewrite H0; lia | lia |].
  replace (Z.max (E - 53) 0) with (E - 53) in Herr1 by lia. rewrite H3 in Herr1.
  set (n1 := SFsub 53 1024 raw b) in *.
  (* the product with 1.0 *)
  rewrite (SFmul_one n1 Hn1 : SFmul 53 1024 n1 b64_one = n1).
  (* the addition *)
  destruct (SFadd_spec n1 b (E + 1) Hn1 Hb) as [Ha Herr3]; [rewrite H1; lia | lia |].
  replace (Z.max (E + 1 - 53) 0) with (E + 1 - 53) in Herr3 by lia. rewrite H4 in Herr3.
  set (a := SFadd 53 1024 n1 b) in *.
  assert (Hclose : Z.abs (sval a - sval raw) <= 3 * X) by lia.
  (* the clamp *)
  rewrite (SFltb_one_of_value a Ha) by (rewrite H0; lia).
  destruct (SFltb b64_mone a) eqn:Hcmp; [split; [exact Ha | exact Hclose] |].
  split; [reflexivity |].
  pose proof (SFltb_mone_false_value a Ha Hcmp) as Hbelow. rewrite H0 in Hbelow.
  assert (Hm1 : sval b64_mone = - (2 ^ 54 * X)).
  { unfold b64_mone. rewrite sval_E. change (Zpos 4503599627370496) with (2 ^ 52).
    replace (-52 + E) with (E - 54 + 2) by lia. rewrite pow_scale by lia. fold X. ring. }
  rewrite Hm1. clear Hcmp. lia.
Qed.

End Units.

Section UnitsQ.
Variable E : Z.
Hypothesis HE : E = 1074%Z.

Lemma two_power_nonzero (n : Z) : ~ (2 ^ n == 0)%Q.
Proof. apply Qpower_not_0. discriminate. Qed.

(** The rational value of a regular number is its count of units times
    [2^-1074]. *)
Lemma SF2Q_sval (x : spec_float) :
  regular x -> (SF2Q x == inject_Z (sval x) / 2 ^ E)%Q.
Proof using HE.
  intros Hx. destruct x as [sx|sx| |sx m e]; try contradiction.
  - cbn [SF2Q sval]. unfold Qdiv. rewrite Qmult_0_l. reflexivity.
  - pose proof (regular_exponent _ _ _ Hx) as He.
    rewrite (sval_E E HE). cbn [SF2Q].
    assert (Hpow : (inject_Z (2 ^ (e + E)) == 2 ^ e * 2 ^ E)%Q).
    { rewrite Zpower_Qpower by lia. apply Qpower_plus. discriminate. }
    rewrite !inject_Z_mult, Hpow.
    pose proof (two_power_nonzero E) as Hnz.
    destruct sx; field; exact Hnz.
Qed.

Lemma units_bound_Q (x y : spec_float) :
  regular x -> regular y ->
  (Z.abs (sval x - sval y) <= 3 * 2 ^ (E - 54))%Z ->
  (Qabs (SF2Q x - SF2Q y) <= 1 # 2 ^ 52)%Q.
Proof using HE.
  intros Hx Hy Hb.
  rewrite (SF2Q_sval x Hx), (SF2Q_sval y Hy).
  pose proof (two_power_nonzero E) as Hnz.
  assert (Hpos : (0 < 2 ^ E)%Q) by (apply Qpower_0_lt; reflexivity).
  setoid_replace (inject_Z (sval x) / 2 ^ E - inject_Z (sval y) / 2 ^ E)%Q
    with (inject_Z (sval x - sval y) / 2 ^ E)%Q using relation Qeq
    by (unfold Z.sub; rewrite inject_Z_plus, inject_Z_opp; field; exact Hnz).
  unfold Qdiv. rewrite Qabs_Qmult, (Qabs_pos (/ 2 ^ E))
    by (apply Qlt_le_weak, Qinv_lt_0_compat; exact Hpos).
  change (Qabs (inject_Z (sval x - sval y))) with (inject_Z (Z.abs (sval x - sval y))).
  assert (Hsplit : (2 ^ E == inject_Z (2 ^ 54) * inject_Z (2 ^ (E - 54)))%Q).
  { rewrite <- inject_Z_mult, <- Z.pow_add_r by lia.
    rewrite Zpower_Qpower by lia. replace (54 + (E - 54))%Z with E by lia. reflexivity. }
  assert (HX : (0 < inject_Z (2 ^ (E - 54)))%Q).
  { rewrite <- (Zlt_Qlt 0). apply Z.pow_pos_nonneg; lia. }
  apply Qle_trans with (inject_Z (3 * 2 ^ (E - 54)) * / 2 ^ E)%Q.
  - apply Qmult_le_compat_r; [rewrite <- Zle_Qle; exact Hb |].
    apply Qlt_le_weak, Qinv_lt_0_compat; exact Hpos.
  - rewrite Hsplit, inject_Z_mult.
    set (X := inject_Z (2 ^ (E - 54))) in *.
    assert (HXnz : ~ (X == 0)%Q) by (intros Hc; rewrite Hc in HX; discriminate HX).
    setoid_replace (inject_Z 3 * X * / (inject_Z (2 ^ 54) * X))%Q
      with (inject_Z 3 / inject_Z (2 ^ 54))%Q using relation Qeq by (field; split; [discriminate | exact HXnz]).
    vm_compute. discriminate.
Qed.

End UnitsQ.

End Binary64Facts.

(** ** Bias correction with factor 1.0 *)

Import Binary64 Binary64Facts.

(** Under the default calibration a source with factor 1.0 is "community"
    or is missing from the tables, so its baseline is -0.15 or -0.2. *)
Lemma factor_one_baseline (source : string) :
  dict_get (F := spec_float) (adjustment_factors default_config) source (dec 10 1) = dec 10 1 ->
  dict_get (F := spec_float) (baseline_negativity default_config) source (dec (-2) 1)
    = dec (-15) 2 \/
  dict_get (F := spec_float) (baseline_negativity default_config) source (dec (-2) 1)
    = dec (-2) 1.
Proof.
  unfold dict_get, default_config. cbn [adjustment_factors baseline_negativity].
  rewrite !lookup_insert, !lookup_empty.
  repeat case_decide; subst; cbn [default]; intros Hf;
    try (left; reflexivity); try (right; reflexivity);
    exfalso; vm_compute in Hf; discriminate Hf.
Qed.

(** The binary64 datum is a number a float can hold, between -1 and 0. *)
Lemma negative_score_regular (raw : spec_float) :
  valid_binary prec emax raw = true ->
  SFleb (dec (-1) 0) raw = true -> SFltb raw (dec 0 0) = true ->
  regular raw.
Proof.
  intros Hvalid Hge Hneg. destruct raw as [s|s| |s m e].
  - exact I.
  - destruct s; [discriminate Hge | discriminate Hneg].
  - discriminate Hneg.
  - exact Hvalid.
Qed.

(** In exact arithmetic, for every calibration table, every source whose
    adjustment factor is 1 (found in the table or supplied as the default)
    and every score in [-1, 0), the negative branch
    [(raw - baseline) * 1 + baseline] and the clamp leave the score as it
    is. *)
Lemma factor_one_identity_exact (self : BiasConfig Q) (source : string) (raw : Q) :
  (dict_get (adjustment_factors self) source (dec 10 1) == 1)%Q ->
  (-1 <= raw)%Q -> (raw < 0)%Q ->
  (adjust_sentiment self raw source == raw)%Q.
Proof.
  intros Hf Hlo Hneg.
  assert (Hadj : (adjusted_value self raw source == raw)%Q).
  { unfold adjusted_value. cbn zeta. cbn [flt fadd fsub fmul exact].
    replace (Q_ltb raw (dec 0 0)) with true
      by (symmetry; apply Q_ltb_lt; exact Hneg).
    rewrite Hf. ring. }
  unfold adjust_sentiment, py_max, py_min. cbn [flt exact].
  set (a := adjusted_value self raw source) in *.
  assert (Hhi : Q_ltb a (dec 1 0) = true).
  { apply Q_ltb_lt. rewrite Hadj. apply Qlt_trans with 0%Q; [exact Hneg | reflexivity]. }
  rewrite Hhi.
  destruct (Q_ltb (dec (-1) 0) a) eqn:Hcmp; [exact Hadj |].
  apply Q_ltb_ge in Hcmp. rewrite Hadj in Hcmp.
  apply Qle_antisym; [exact Hlo | exact Hcmp].
Qed.

(** C10, as the code computes it.  In exact arithmetic, for every
    calibration table, every source whose adjustment factor is 1 and every
    score in [-1, 0), [adjust_sentiment] returns the score.  In binary64,
    under the default calibration, for every source whose adjustment factor
    is 1.0 and every score in [-1, 0), the multiplication by 1.0 is exact
    and [adjust_sentiment] returns the score up to the rounding of the
    subtraction and of the addition of the baseline: the result is within
    [2^-52] of the score. *)
Theorem factor_one_near_identity :
  (forall (self : BiasConfig Q) (source : string) (raw : Q),
     (dict_get (adjustment_factors self) source (dec 10 1) == 1)%Q ->
     (-1 <= raw)%Q -> (raw < 0)%Q ->
     (adjust_sentiment self raw source == raw)%Q) /\
  (forall (source : string) (raw : spec_float),
     dict_get (F := spec_float) (adjustment_factors default_config) source (dec 10 1)
       = dec 10 1 ->
     valid_binary prec emax raw = true ->
     SFleb (dec (-1) 0) raw = true -> SFltb raw (dec 0 0) = true ->
     (Qabs (SF2Q (adjust_sentiment default_config raw source) - SF2Q raw) <= 1 # 2 ^ 52)%Q).
Proof.
  split; [exact factor_one_identity_exact |].
  intros source raw Hf Hvalid Hge Hneg.
  pose proof (negative_score_regular raw Hvalid Hge Hneg) as Hraw.
  set (b := dict_get (F := spec_float) (baseline_negativity default_config) source (dec (-2) 1)).
  assert (Hb : regular b /\ (- 2 ^ (1074 - 2) <= sval b < 0)%Z).
  { destruct (factor_one_baseline source Hf) as [Hb | Hb]; fold b in Hb; rewrite Hb;
      (split; [vm_compute; reflexivity |]);
      (split; [apply Z.leb_le | apply Z.ltb_lt]); vm_compute; reflexivity. }
  destruct Hb as [Hbreg Hbval].
  destruct (negative_branch_units 1074 eq_refl raw b Hraw Hbreg Hge Hneg Hbval)
    as [Hreg Hbound].
  cbn zeta in Hreg, Hbound.
  assert (Hr : adjust_sentiment default_config raw source
               = (if SFltb b64_mone
                       (if SFltb (SFadd 53 1024 (SFmul 53 1024 (SFsub 53 1024 raw b) b64_one) b)
                                 b64_one
                        then SFadd 53 1024 (SFmul 53 1024 (SFsub 53 1024 raw b) b64_one) b
                        else b64_one)
                  then (if SFltb (SFadd 53 1024 (SFmul 53 1024 (SFsub 53 1024 raw b) b64_one) b)
                                 b64_one
                        then SFadd 53 1024 (SFmul 53 1024 (SFsub 53 1024 raw b) b64_one) b
                        else b64_one)
                  else b64_mone)).
  { unfold adjust_sentiment, adjusted_value, py_max, py_min. cbn zeta.
    cbn [flt fadd fsub fmul binary64]. fold b. rewrite Hf, Hneg. reflexivity. }
  rewrite Hr.
  apply (units_bound_Q 1074 eq_refl); assumption.
Qed.

Lemma factor_one_near_identity_witness :
  (adjust_sentiment (F := Q) default_config (dec (-1) 2) "community" == dec (-1) 2)%Q /\
  (Qabs (SF2Q (adjust_sentiment default_config (dec (-1) 2) "community")
         - SF2Q (dec (-1) 2)) <= 1 # 2 ^ 52)%Q /\
  (Qabs (SF2Q (adjust_sentiment default_config (dec (-5) 2) "telegram")
         - SF2Q (dec (-5) 2)) <= 1 # 2 ^ 52)%Q.
Proof.
  destruct factor_one_near_identity as [Hexact Hb64].
  split; [| split].
  - apply (Hexact default_config "community" (dec (-1) 2));
      vm_compute; try reflexivity; discriminate.
  - apply (Hb64 "community" (dec (-1) 2)); vm_compute; reflexivity.
  - apply (Hb64 "telegram" (dec (-5) 2)); vm_compute; reflexivity.
Defined.

(** C10 as the claim words it fails in binary64: "community" has factor
    1.0 and -0.01 lies in [-1, 0), but the corrected score is
    -0.010000000000000009; for an unknown source -0.05 becomes
    -0.04999999999999999. *)
Lemma factor_one_counterexample :
  dict_get (F := spec_float) (adjustment_factors default_config) "community" (dec 10 1)
    = dec 10 1 /\
  SFleb (dec (-1) 0) (dec (-1) 2) = true /\ SFltb (dec (-1) 2) (dec 0 0) = true /\
  adjust_sentiment (F := spec_float) default_config (dec (-1) 2) "community" <> dec (-1) 2 /\
  adjust_sentiment (F := spec_float) default_config (dec (-5) 2) "telegram" <> dec (-5) 2.
Proof. repeat split; vm_compute; try reflexivity; discriminate. Qed.

(* ================================================================== *)
(** * Further properties of the code *)
(* ================================================================== *)

(** ** Bias correction: the pivot, the report, the validator *)

Lemma SFsub_diag (s : bool) (m : positive) (e : Z) :
  SFsub prec emax (S754_finite s m e) (S754_finite s m e) = S754_zero false.
Proof. cbn [SFsub]. cbn zeta. rewrite Z.sub_diag. reflexivity. Qed.

Lemma SFltb_zero_negative (x : spec_float) :
  SFltb x (S754_zero false) = true -> SFltb (b64_dec (-1) 0) x = true ->
  exists m e, x = S754_finite true m e.
Proof.
  replace (b64_dec (-1) 0) with Binary64.b64_mone by (vm_compute; reflexivity).
  destruct x as [s|s| |s m e]; try (destruct s; discriminate); try discriminate.
  destruct s; [eauto | discriminate].
Qed.

(** X1. The correction pivots around the baseline of the source: on any
    calibration table, a raw score that equals the baseline in force for
    its source (the table's, or the default -0.2), when that baseline
    lies strictly between -1 and 0 and the factor is a finite number, is
    returned unchanged, bit for bit, in binary64. *)
Theorem baseline_fixed_point (self : BiasConfig spec_float) (source : string) :
  let baseline := dict_get (baseline_negativity self) source (dec (-2) 1) in
  let factor := dict_get (adjustment_factors self) source (dec 10 1) in
  (dec (-1) 0 .< baseline) = true -> (baseline .< dec 0 0) = true ->
  (exists s m e, factor = S754_finite s m e) ->
  adjust_sentiment self baseline source = baseline.
Proof.
  cbn zeta. intros Hlo Hneg (sf & mf & ef & Hf).
  unfold adjust_sentiment, adjusted_value.
  remember (dict_get (baseline_negativity self) source (dec (-2) 1)) as b eqn:Eb.
  rewrite Hneg, Hf. clear Eb Hf.
  destruct (SFltb_zero_negative b Hneg Hlo) as (m & e & ->).
  cbn [fsub fmul fadd binary64]. rewrite SFsub_diag.
  cbn [SFmul SFadd].
  unfold py_min, py_max. cbn [flt binary64].
  replace (SFltb (S754_finite true m e) (dec 1 0)) with true by reflexivity.
  cbn [flt binary64] in Hlo. rewrite Hlo. reflexivity.
Qed.

Lemma baseline_fixed_point_witness :
  adjust_sentiment (F := spec_float) default_config (dec (-35) 2) "twitter" = dec (-35) 2.
Proof.
  apply (baseline_fixed_point default_config "twitter").
  - vm_compute; reflexivity.
  - vm_compute; reflexivity.
  - vm_compute. eauto.
Defined.

(** X2. Whatever the calibration table, the source and the raw score
    (finite, infinite or NaN), the score [adjust_sentiment] returns passes
    [validate_sentiment_score]. *)
Theorem corrected_score_is_valid
  (self : BiasConfig spec_float) (raw : spec_float) (source : string) :
  Validation.validate_sentiment_score (adjust_sentiment self raw source) = true.
Proof.
  unfold Validation.validate_sentiment_score, adjust_sentiment.
  destruct (b64_clamp_bounds (adjusted_value self raw source)) as [Hlo Hhi].
  cbn zeta in Hlo, Hhi. apply andb_true_intro. split; [exact Hlo | exact Hhi].
Qed.

(** X3. With the default tables, [get_correction_info] on a source other
    than the five calibrated ones reports the factor 1.0, the baseline
    -0.2 and the description 'Unknown bias pattern'; on one of the five
    it reports the entries of the two tables and a description of its
    own. *)
Theorem correction_info_of_unknown_source {F : Type} `{Number F} (source : string) :
  let known := ["twitter"; "facebook"; "news"; "government"; "community"] in
  let info := CorrectionInfo.get_correction_info (F := F) default_config source in
  (~ In source known ->
   info = {| CorrectionInfo.source := source;
             CorrectionInfo.adjustment_factor := dec 10 1;
             CorrectionInfo.baseline_negativity := dec (-2) 1;
             CorrectionInfo.description := "Unknown bias pattern" |}) /\
  (In source known ->
   adjustment_factors (F := F) default_config !! source
     = Some (CorrectionInfo.adjustment_factor info) /\
   baseline_negativity (F := F) default_config !! source
     = Some (CorrectionInfo.baseline_negativity info) /\
   CorrectionInfo.description info <> "Unknown bias pattern").
Proof.
  cbn zeta. split.
  - intros Hunknown. cbn [In] in Hunknown.
    unfold CorrectionInfo.get_correction_info, CorrectionInfo._get_bias_description,
      CorrectionInfo.descriptions, dict_get, default_config.
    cbn [adjustment_factors baseline_negativity].
    rewrite !lookup_insert_ne by (intros Heq; tauto).
    rewrite !lookup_empty. reflexivity.
  - intros Hknown. cbn [In] in Hknown.
    destruct Hknown as [<- | [<- | [<- | [<- | [<- | []]]]]];
      (split; [vm_compute; reflexivity |]);
      (split; [vm_compute; reflexivity | vm_compute; discriminate]).
Qed.

Lemma correction_info_of_unknown_source_witness :
  CorrectionInfo.get_correction_info (F := spec_float) default_config "telegram"
  = {| CorrectionInfo.source := "telegram";
       CorrectionInfo.adjustment_factor := dec 10 1;
       CorrectionInfo.baseline_negativity := dec (-2) 1;
       CorrectionInfo.description := "Unknown bias pattern" |}.
Proof.
  destruct (correction_info_of_unknown_source (F := spec_float) "telegram") as [Hunknown _].
  apply Hunknown. cbn [In]. intros H. repeat destruct H as [H | H]; try discriminate H. exact H.
Defined.

(** ** The confidence estimate *)

Lemma SFleb_zero_of_above_tenth (c : spec_float) :
  SFltb (b64_dec 1 1) c = true -> SFleb (b64_dec 0 1) c = true.
Proof.
  replace (b64_dec 1 1) with (S754_finite false 7205759403792794 (-56))
    by (vm_compute; reflexivity).
  replace (b64_dec 0 1) with (S754_zero false) by (vm_compute; reflexivity).
  destruct c as [s|s| |s m e]; try destruct s; intros Hc;
    try discriminate Hc; reflexivity.
Qed.

Lemma SFleb_one_of_below (c : spec_float) :
  SFltb (b64_dec 1 1) c = true -> SFltb c (b64_dec 95 2) = true ->
  SFleb c (b64_dec 10 1) = true.
Proof.
  replace (b64_dec 1 1) with (S754_finite false 7205759403792794 (-56))
    by (vm_compute; reflexivity).
  replace (b64_dec 95 2) with (S754_finite false 8556839292003942 (-53))
    by (vm_compute; reflexivity).
  replace (b64_dec 10 1) with (S754_finite false 4503599627370496 (-52))
    by (vm_compute; reflexivity).
  destruct c as [s|s| |s m e]; try destruct s; intros Hlo Hhi;
    try discriminate Hlo; try discriminate Hhi.
  clear Hlo. revert Hhi.
  unfold SFltb, SFleb. cbn [SFcompare].
  destruct (Z.compare_spec e (-53)) as [-> | Hlt | Hgt].
  - intros _. reflexivity.
  - intros _. destruct (Z.compare_spec e (-52)) as [-> | _ | Hgt]; [lia | reflexivity | lia].
  - discriminate.
Qed.

(** X4. Whatever the text, whatever [str.split] and [re.findall] return
    and whatever the score (a NaN included), the confidence
    [calculate_sentiment_confidence] returns lies between 0.1 and 0.95,
    and so passes [validate_confidence_score]. *)
Theorem confidence_is_bounded
  (str_split : string -> list string) (re_findall : string -> string -> list string)
  (text : string) (sentiment_score : spec_float) :
  let c := SentimentUtils.calculate_sentiment_confidence str_split re_findall
             text sentiment_score in
  SFleb (dec 1 1) c = true /\ SFleb c (dec 95 2) = true /\
  Validation.validate_confidence_score c = true.
Proof.
  cbn zeta. unfold SentimentUtils.calculate_sentiment_confidence. cbn zeta.
  match goal with |- context [py_max (dec 1 1) ?x] => generalize x end.
  intros c. unfold Validation.validate_confidence_score, py_min, py_max.
  cbn [flt fle binary64 dec].
  destruct (SFltb (b64_dec 1 1) c) eqn:Hlo.
  - destruct (SFltb c (b64_dec 95 2)) eqn:Hhi.
    + split; [apply SFltb_SFleb; exact Hlo |]. split; [apply SFltb_SFleb; exact Hhi |].
      rewrite (SFleb_zero_of_above_tenth c Hlo), (SFleb_one_of_below c Hlo Hhi). reflexivity.
    + repeat split; vm_compute; reflexivity.
  - repeat split; vm_compute; reflexivity.
Qed.

(** ** Locations, sources and categories *)

Lemma lower_ascii_idempotent (c : ascii) : lower_ascii (lower_ascii c) = lower_ascii c.
Proof. destruct c as [[] [] [] [] [] [] [] []]; reflexivity. Qed.

Lemma lower_idempotent (s : string) : lower (lower s) = lower s.
Proof.
  induction s as [|c t IH]; [reflexivity |].
  cbn [lower]. rewrite lower_ascii_idempotent, IH. reflexivity.
Qed.

Lemma first_area_cases (areas : list string) (text_lower otherwise : string) :
  (Locations.first_area areas text_lower otherwise = otherwise /\
   forall area, In area areas -> contains (lower area) text_lower = false) \/
  (exists before area after,
     areas = (before ++ area :: after)%list /\
     Locations.first_area areas text_lower otherwise = area /\
     contains (lower area) text_lower = true /\
     forall a, In a before -> contains (lower a) text_lower = false).
Proof.
  induction areas as [|a rest IH]; cbn [Locations.first_area].
  - left. split; [reflexivity | intros ? []].
  - destruct (contains (lower a) text_lower) eqn:Ha.
    + right. exists [], a, rest. repeat split; auto. intros ? [].
    + destruct IH as [[Hr Hnone] | (before & area & after & -> & Hr & Hhit & Hnone)].
      * left. split; [exact Hr |]. intros area [<- | Hin]; auto.
      * right. exists (a :: before), area, after. repeat split; auto.
        intros a' [<- | Hin]; auto.
Qed.

(** X5. [extract_location] returns "Unknown" exactly when no configured
    area occurs, lower-cased, in the lower-cased text; otherwise it
    returns the first area of the configured list that occurs, whatever
    areas occur later in the list or earlier in the text. *)
Theorem extract_location_first_match (text : string) :
  (Locations.extract_location text = "Unknown" <->
   forall area, In area Locations.lagos_areas -> contains (lower area) (lower text) = false) /\
  (Locations.extract_location text <> "Unknown" ->
   exists before after,
     Locations.lagos_areas = (before ++ Locations.extract_location text :: after)%list /\
     contains (lower (Locations.extract_location text)) (lower text) = true /\
     forall a, In a before -> contains (lower a) (lower text) = false).
Proof.
  unfold Locations.extract_location. cbn zeta.
  destruct (first_area_cases Locations.lagos_areas (lower text) "Unknown")
    as [[Hr Hnone] | (before & area & after & Hsplit & Hr & Hhit & Hnone)].
  - split; [split; [intros _; exact Hnone | intros _; exact Hr] |].
    intros Hne. contradiction.
  - assert (Hin : In area Locations.lagos_areas)
      by (rewrite Hsplit; apply List.in_or_app; right; left; reflexivity).
    assert (Hknown : area <> "Unknown").
    { intros ->. revert Hin. clear. unfold Locations.lagos_areas. cbn [In].
      intros H. repeat destruct H as [H | H]; try discriminate H. exact H. }
    rewrite Hr. split.
    + split; [intros Heq; contradiction |].
      intros Hall. rewrite (Hall area Hin) in Hhit. discriminate Hhit.
    + intros _. exists before, after. auto.
Qed.

Lemma extract_location_first_match_witness :
  exists before after,
    Locations.lagos_areas
      = (before ++ Locations.extract_location "Robbery on Lagos Mainland near YABA" :: after)%list /\
    contains (lower (Locations.extract_location "Robbery on Lagos Mainland near YABA"))
             (lower "Robbery on Lagos Mainland near YABA") = true /\
    forall a, In a before -> contains (lower a) (lower "Robbery on Lagos Mainland near YABA") = false.
Proof.
  destruct (extract_location_first_match "Robbery on Lagos Mainland near YABA") as [_ Hfirst].
  apply Hfirst. vm_compute. discriminate.
Defined.

(** X6. The four classifiers of the collector are insensitive to the case
    of the letters: lower-casing a text beforehand changes none of the
    area, the category, the language and the relevance found. *)
Theorem classifiers_ignore_case (text : string) :
  Locations.extract_location (lower text) = Locations.extract_location text /\
  DataCollector.categorize_security_issue (lower text)
    = DataCollector.categorize_security_issue text /\
  DataCollector.detect_language (lower text) = DataCollector.detect_language text /\
  DataCollector.is_security_related (lower text) = DataCollector.is_security_related text.
Proof.
  unfold Locations.extract_location, DataCollector.categorize_security_issue,
    DataCollector.detect_language, DataCollector.is_security_related.
  cbn zeta. rewrite lower_idempotent. repeat split.
Qed.

(** X7. Every source name [_normalize_source] produces is one of the five
    keys of the default calibration tables, so a record loaded from the
    CSV file is never corrected with the fallback constants; and
    normalising a normalised name returns it. *)
Theorem normalize_source_is_calibrated {F : Type} `{Number F} (source : string) :
  let name := CSVDataLoader._normalize_source source in
  In name ["twitter"; "facebook"; "news"; "government"; "community"] /\
  is_Some (adjustment_factors (F := F) default_config !! name) /\
  is_Some (baseline_negativity (F := F) default_config !! name) /\
  CSVDataLoader._normalize_source name = name.
Proof.
  cbn zeta.
  assert (Hname : In (CSVDataLoader._normalize_source source)
                     ["twitter"; "facebook"; "news"; "government"; "community"]).
  { unfold CSVDataLoader._normalize_source. cbn zeta.
    repeat match goal with
           | |- context [if ?c then _ else _] => destruct c
           end; cbn [In]; tauto. }
  split; [exact Hname |].
  cbn [In] in Hname.
  destruct Hname as [<- | [<- | [<- | [<- | [<- | []]]]]];
    (split; [eexists; vm_compute; reflexivity |]);
    (split; [eexists; vm_compute; reflexivity | reflexivity]).
Qed.

(** X8. The loader's [_infer_category] on a content and its tags and the
    collector's [categorize_security_issue] on the two joined by a space
    return the same category whenever none of the words accident,
    congestion, burglar, medical and flood occurs: the keyword sets of
    the two classifiers differ in these five words only. *)
Theorem infer_category_agrees (content tags : string) :
  any_in ["accident"; "congestion"; "burglar"; "medical"; "flood"]
         (lower (content ++ " " ++ tags)) = false ->
  CSVDataLoader._infer_category content tags
    = DataCollector.categorize_security_issue (content ++ " " ++ tags).
Proof.
  unfold CSVDataLoader._infer_category, DataCollector.categorize_security_issue.
  cbn zeta. set (text := lower (content ++ " " ++ tags)).
  unfold any_in, DataCollector.traffic_words, DataCollector.crime_words,
    DataCollector.law_enforcement_words, DataCollector.emergency_words.
  cbn [existsb]. intros Hnone.
  repeat (apply orb_false_iff in Hnone as [? Hnone]).
  repeat match goal with
         | Hc : contains ?w text = false |- _ => rewrite Hc; clear Hc
         end.
  rewrite ?orb_false_r, ?orb_false_l.
  destruct (contains "traffic" text), (contains "road" text), (contains "jam" text);
    cbn [orb]; try reflexivity.
  destruct (contains "crime" text), (contains "theft" text), (contains "robbery" text),
    (contains "steal" text); cbn [orb]; try reflexivity.
  destruct (contains "police" text), (contains "arrest" text), (contains "law" text);
    cbn [orb]; try reflexivity.
  destruct (contains "fire" text), (contains "emergency" text); reflexivity.
Qed.

Lemma infer_category_agrees_witness :
  CSVDataLoader._infer_category "Armed robbery at Ikeja" "crime"
    = DataCollector.categorize_security_issue ("Armed robbery at Ikeja" ++ " " ++ "crime").
Proof.
  apply (infer_category_agrees "Armed robbery at Ikeja" "crime"). vm_compute. reflexivity.
Defined.

Lemma max_value_zero (scores : list (string * nat)) :
  Topics.max_value scores = 0%nat <-> forall kv, In kv scores -> snd kv = 0%nat.
Proof.
  unfold Topics.max_value. induction scores as [|kv rest IH]; cbn [map fold_right].
  - split; [intros _ ? [] | reflexivity].
  - split.
    + intros Hmax kv' [<- | Hin]; [lia | apply IH; [lia | exact Hin]].
    + intros Hall.
      assert (Hrest : fold_right Nat.max 0%nat (map snd rest) = 0%nat)
        by (apply IH; intros; apply Hall; right; assumption).
      rewrite Hrest, (Hall kv (or_introl eq_refl)). reflexivity.
Qed.

Lemma max_value_least (scores : list (string * nat)) (bound : nat) :
  (forall kv, In kv scores -> (snd kv <= bound)%nat) ->
  (Topics.max_value scores <= bound)%nat.
Proof.
  unfold Topics.max_value. induction scores as [|kv rest IH]; cbn [map fold_right];
    intros Hall; [lia |].
  pose proof (Hall kv (or_introl eq_refl)).
  assert (fold_right Nat.max 0%nat (map snd rest) <= bound)%nat
    by (apply IH; intros; apply Hall; right; assumption).
  lia.
Qed.

Lemma max_by_value_split (best : string * nat) (rest : list (string * nat)) :
  exists before after,
    best :: rest = (before ++ Topics.max_by_value best rest :: after)%list /\
    (forall kv, In kv before -> (snd kv < snd (Topics.max_by_value best rest))%nat) /\
    (forall kv, In kv after -> (snd kv <= snd (Topics.max_by_value best rest))%nat) /\
    (snd best <= snd (Topics.max_by_value best rest))%nat.
Proof.
  revert best. induction rest as [|kv rest IH]; intros best; cbn [Topics.max_by_value].
  - exists [], []. repeat split; try (intros ? []); lia.
  - destruct (Nat.ltb_spec (snd best) (snd kv)) as [Hlt | Hge].
    + destruct (IH kv) as (before & after & Hsplit & Hbefore & Hafter & Hkv).
      exists (best :: before), after. rewrite Hsplit. repeat split; try assumption.
      * intros kv' [<- | Hin]; [lia | apply Hbefore; exact Hin].
      * lia.
    + destruct (IH best) as (before & after & Hsplit & Hbefore & Hafter & Hbest).
      destruct before as [|b before'].
      * cbn [app] in Hsplit. injection Hsplit as Hr Hrest.
        exists [], (kv :: after). cbn [app].
        split; [rewrite <- Hr; do 2 f_equal; exact Hrest |].
        split; [intros ? [] |]. split; [| exact Hbest].
        intros kv' [<- | Hin]; [rewrite <- Hr; exact Hge | apply Hafter; exact Hin].
      * cbn [app] in Hsplit. injection Hsplit as <- Hrest.
        exists (best :: kv :: before'), after. cbn [app].
        split; [do 2 f_equal; exact Hrest |].
        split; [| split; [exact Hafter | exact Hbest]].
        intros kv' [<- | [<- | Hin]].
        -- apply Hbefore. left. reflexivity.
        -- pose proof (Hbefore best (or_introl eq_refl)). lia.
        -- apply Hbefore. right. exact Hin.
Qed.

(** X9. [categorize_sentiment_topic] returns "general" exactly when no
    keyword of any of its five categories occurs in the text; otherwise
    it returns the category with the most keyword hits, and among
    categories with equally many hits the one that comes first in the
    table: every category before it has strictly fewer hits, every
    category after it has no more. *)
Theorem topic_is_first_maximum (text : string) :
  let scores := Topics.category_scores (lower text) in
  let topic := Topics.categorize_sentiment_topic text in
  (topic = "general" <-> forall kv, In kv scores -> snd kv = 0%nat) /\
  (topic <> "general" ->
   exists before score after,
     scores = (before ++ (topic, score) :: after)%list /\
     (0 < score)%nat /\
     (forall kv, In kv before -> (snd kv < score)%nat) /\
     (forall kv, In kv after -> (snd kv <= score)%nat)).
Proof.
  cbn zeta. unfold Topics.categorize_sentiment_topic. cbn zeta.
  set (scores := Topics.category_scores (lower text)).
  assert (Hnames : forall kv, In kv scores -> fst kv <> "general").
  { intros kv Hin. unfold scores, Topics.category_scores in Hin.
    apply List.in_map_iff in Hin as (entry & <- & Hentry). cbn [fst].
    unfold Topics.categories in Hentry. cbn [In] in Hentry.
    repeat destruct Hentry as [<- | Hentry]; try discriminate. destruct Hentry. }
  destruct (Nat.ltb_spec 0 (Topics.max_value scores)) as [Hpos | Hzero].
  - destruct scores as [|first rest] eqn:Hscores; [cbn in Hpos; lia |].
    destruct (max_by_value_split first rest) as (before & after & Hsplit & Hbefore & Hafter & _).
    set (best := Topics.max_by_value first rest) in *.
    assert (Hin : In best (first :: rest))
      by (rewrite Hsplit; apply List.in_or_app; right; left; reflexivity).
    assert (Hmax : (Topics.max_value (first :: rest) <= snd best)%nat).
    { apply max_value_least. rewrite Hsplit. intros kv Hkv.
      apply List.in_app_or in Hkv as [Hkv | [<- | Hkv]].
      - pose proof (Hbefore kv Hkv). lia.
      - lia.
      - apply Hafter. exact Hkv. }
    split.
    + split.
      * intros Heq. exfalso. apply (Hnames best Hin). exact Heq.
      * intros Hall. exfalso.
        assert (Topics.max_value (first :: rest) = 0%nat) by (apply max_value_zero; exact Hall).
        lia.
    + intros _. exists before, (snd best), after.
      replace (fst best, snd best) with best by (destruct best; reflexivity).
      split; [exact Hsplit |]. split; [lia |]. split; assumption.
  - split; [| intros Hne; contradiction].
    split; [intros _ | reflexivity].
    apply max_value_zero. lia.
Qed.

Lemma topic_is_first_maximum_witness :
  exists before score after,
    Topics.category_scores (lower "Theft and robbery on the road")
      = (before ++ (Topics.categorize_sentiment_topic "Theft and robbery on the road", score)
                :: after)%list /\
    (0 < score)%nat /\
    (forall kv, In kv before -> (snd kv < score)%nat) /\
    (forall kv, In kv after -> (snd kv <= score)%nat).
Proof.
  destruct (topic_is_first_maximum "Theft and robbery on the road") as [_ Hmax].
  apply Hmax. vm_compute. discriminate.
Defined.

Lemma first_some_In {A B : Type} (f : A -> option B) (l : list A) (b : B) :
  Geography.first_some f l = Some b -> exists a, In a l /\ f a = Some b.
Proof.
  induction l as [|a rest IH]; cbn [Geography.first_some]; [discriminate |].
  destruct (f a) as [b'|] eqn:Hf.
  - intros [= <-]. exists a. split; [left; reflexivity | exact Hf].
  - intros Hrest. destruct (IH Hrest) as (a' & Hin & Ha'). exists a'.
    split; [right; exact Hin | exact Ha'].
Qed.

(** X10. Whatever the regular expressions match, [extract_lagos_location]
    returns "Unknown" or one of the areas of [get_lagos_areas]: the keys
    of the alias table and the areas found through a pattern are all in
    that list. *)
Theorem lagos_location_is_known_area
  (re_findall : string -> string -> list string) (text : string) :
  let area := Geography.extract_lagos_location re_findall text in
  area = "Unknown" \/ In area Geography.get_lagos_areas.
Proof.
  cbn zeta. unfold Geography.extract_lagos_location. cbn zeta.
  match goal with
  | |- context [Locations.first_area _ _ ?o] => set (otherwise := o)
  end.
  assert (Hother : otherwise = "Unknown" \/ In otherwise Geography.get_lagos_areas).
  { unfold otherwise.
    destruct (Geography.alias_match (lower text)) as [area|] eqn:Halias.
    - right. unfold Geography.alias_match in Halias.
      apply first_some_In in Halias as ([key aliases] & Hentry & Hhit).
      destruct (existsb _ aliases); [| discriminate]. injection Hhit as <-.
      unfold Geography.get_area_aliases in Hentry. cbn [In] in Hentry.
      repeat destruct Hentry as [[= <- <-] | Hentry]; cbn; tauto.
    - destruct (Geography.pattern_match re_findall (lower text)) as [area|] eqn:Hpattern;
        [| left; reflexivity].
      right. unfold Geography.pattern_match in Hpattern.
      apply first_some_In in Hpattern as (pattern & _ & Hmatches).
      apply first_some_In in Hmatches as (m & _ & Harea).
      unfold Geography.area_of_match in Harea. apply List.find_some in Harea as [Hin _].
      exact Hin. }
  destruct (first_area_cases Geography.get_lagos_areas (lower text) otherwise)
    as [[-> _] | (before & area & after & Hsplit & -> & _ & _)].
  - exact Hother.
  - right. rewrite Hsplit. apply List.in_or_app. right. left. reflexivity.
Qed.

(** X11. A full area name decides: when the lower-cased name of some area
    of [get_lagos_areas] occurs in the lower-cased text,
    [extract_lagos_location] returns the first area of the list whose
    name occurs, whatever aliases occur in the text and whatever the
    regular expressions match. *)
Theorem area_name_wins_over_alias
  (re_findall : string -> string -> list string) (text area : string) :
  In area Geography.get_lagos_areas -> contains (lower area) (lower text) = true ->
  exists before found after,
    Geography.extract_lagos_location re_findall text = found /\
    Geography.get_lagos_areas = (before ++ found :: after)%list /\
    contains (lower found) (lower text) = true /\
    forall a, In a before -> contains (lower a) (lower text) = false.
Proof.
  intros Hin Hhit. unfold Geography.extract_lagos_location. cbn zeta.
  match goal with
  | |- context [Locations.first_area _ _ ?o] => set (otherwise := o)
  end.
  destruct (first_area_cases Geography.get_lagos_areas (lower text) otherwise)
    as [[_ Hnone] | (before & found & after & Hsplit & Hr & Hfound & Hnone)].
  - rewrite (Hnone area Hin) in Hhit. discriminate Hhit.
  - exists before, found, after. auto.
Qed.

Lemma area_name_wins_over_alias_witness :
  exists before found after,
    Geography.extract_lagos_location (fun _ _ => ["festac"]) "Fire near FESTAC, Yaba side" = found /\
    Geography.get_lagos_areas = (before ++ found :: after)%list /\
    contains (lower found) (lower "Fire near FESTAC, Yaba side") = true /\
    forall a, In a before -> contains (lower a) (lower "Fire near FESTAC, Yaba side") = false.
Proof.
  apply (area_name_wins_over_alias (fun _ _ => ["festac"]) "Fire near FESTAC, Yaba side" "Yaba").
  - cbn. tauto.
  - vm_compute. reflexivity.
Defined.

(** X12. The alias 'VI' is compared lower-cased and as a substring: a
    text in which no full area name occurs but the letters "vi" do, as in
    "violence" or "service", is located in Victoria Island, whatever the
    regular expressions match. *)
Theorem vi_alias_matches_inside_words
  (re_findall : string -> string -> list string) (text : string) :
  (forall area, In area Geography.get_lagos_areas -> contains (lower area) (lower text) = false) ->
  contains "vi" (lower text) = true ->
  Geography.extract_lagos_location re_findall text = "Victoria Island".
Proof.
  intros Hnone Hvi. unfold Geography.extract_lagos_location. cbn zeta.
  match goal with
  | |- context [Locations.first_area _ _ ?o] => set (otherwise := o)
  end.
  destruct (first_area_cases Geography.get_lagos_areas (lower text) otherwise)
    as [[-> _] | (before & found & after & Hsplit & _ & Hfound & _)].
  - unfold otherwise, Geography.alias_match, Geography.get_area_aliases.
    cbn [Geography.first_some existsb].
    replace (lower "VI") with "vi" by reflexivity. rewrite Hvi. reflexivity.
  - rewrite Hnone in Hfound; [discriminate Hfound |].
    rewrite Hsplit. apply List.in_or_app. right. left. reflexivity.
Qed.

Lemma vi_alias_matches_inside_words_witness :
  Geography.extract_lagos_location (fun _ _ => []) "Violence reported at the market"
  = "Victoria Island".
Proof.
  apply (vi_alias_matches_inside_words (fun _ _ => []) "Violence reported at the market").
  - intros area Hin.
    assert (Hall : forallb (fun a => negb (contains (lower a)
                                            (lower "Violence reported at the market")))
                           Geography.get_lagos_areas = true) by (vm_compute; reflexivity).
    apply negb_true_iff. exact (proj1 (forallb_forall _ _) Hall area Hin).
  - vm_compute. reflexivity.
Defined.

(** ** Timestamps and duplicates *)

(** X13. [get_relative_time] describes a timestamp ahead of the clock as a
    past one: it returns what it returns for the timestamp that lies
    [(now - timestamp) mod 86400] seconds behind the clock, so one second
    ahead reads "23 hours ago"; and [validate_timestamp] accepts such a
    timestamp when it is at most one day ahead. *)
Theorem future_timestamp_reads_as_past (now timestamp : datetime) :
  (now < timestamp)%Z ->
  DatetimeUtils.get_relative_time now timestamp
  = DatetimeUtils.get_relative_time now (now - (now - timestamp) mod 86400)%Z /\
  (DatetimeUtils.validate_timestamp now timestamp = true <-> (timestamp <= now + 86400)%Z).
Proof.
  intros Hfuture. split.
  - unfold DatetimeUtils.get_relative_time. cbn zeta.
    set (s := ((now - timestamp) mod 86400)%Z).
    assert (Hs : (0 <= s < 86400)%Z) by (apply Z.mod_pos_bound; lia).
    replace (now - (now - s))%Z with s by lia.
    assert (Hdays : ((now - timestamp) / 86400 < 0)%Z)
      by (apply Z.div_lt_upper_bound; lia).
    rewrite (Z.div_small s 86400) by lia.
    rewrite (Z.mod_small s 86400) by lia.
    destruct (Z.ltb_spec 0 ((now - timestamp) / 86400)) as [Hpos | _]; [lia |].
    reflexivity.
  - unfold DatetimeUtils.validate_timestamp. cbn zeta.
    rewrite andb_true_iff, Z.leb_le, Z.leb_le. lia.
Qed.

Lemma future_timestamp_reads_as_past_witness :
  DatetimeUtils.get_relative_time 1000000%Z 1000001%Z = "23 hours ago" /\
  DatetimeUtils.validate_timestamp 1000000%Z 1000001%Z = true.
Proof.
  destruct (future_timestamp_reads_as_past 1000000%Z 1000001%Z) as [Hread Hvalid]; [lia |].
  split; [rewrite Hread; reflexivity | apply Hvalid; lia].
Defined.

Lemma div_eucl_multiple (k m : Z) : (0 < m)%Z -> Z.div_eucl (k * m) m = (k, 0%Z).
Proof.
  intros Hm. pose proof (Z.div_eucl_eq (k * m) m ltac:(lia)) as Heq.
  pose proof (Z.mod_pos_bound (k * m) m Hm) as Hb.
  unfold Z.modulo in Hb.
  destruct (Z.div_eucl (k * m) m) as [q r].
  assert (Hq : q = k) by nia. subst q. f_equal. lia.
Qed.

Lemma SFdiv_diag (s : bool) (m : positive) (e : Z) :
  SFdiv prec emax (S754_finite s m e) (S754_finite s m e) = Binary64.b64_one.
Proof.
  cbn [SFdiv]. unfold SFdiv_core_binary. cbn zeta.
  replace (Zdigits2 (Zpos m) + e - (Zdigits2 (Zpos m) + e))%Z with 0%Z by lia.
  replace (e - e)%Z with 0%Z by lia.
  change (IntDef.Z.min (fexp prec emax 0) 0) with (-53)%Z.
  change (0 - -53)%Z with 53%Z. cbv iota.
  change (IntDef.Z.div_eucl (Z.pos m ≪ 53) (Z.pos m))
    with (Z.div_eucl (Z.shiftl (Z.pos m) 53) (Z.pos m)).
  rewrite Z.shiftl_mul_pow2 by discriminate.
  rewrite (Z.mul_comm (Z.pos m) (2 ^ 53)).
  rewrite div_eucl_multiple by reflexivity.
  replace (new_location (Z.pos m) 0) with loc_Exact
    by (unfold new_location, new_location_even, new_location_odd;
        destruct (IntDef.Z.even (Z.pos m)); reflexivity).
  destruct s; vm_compute; reflexivity.
Qed.

Lemma b64_of_count_finite (n : nat) :
  (0 < n)%nat -> (Z.of_nat n < 2 ^ 53)%Z ->
  exists m e, b64_of_Z (Z.of_nat n) = S754_finite false m e.
Proof.
  intros Hpos Hsmall. destruct (Z.of_nat n) as [|p|p] eqn:Hn; [lia | | lia].
  unfold b64_of_Z, binary_normalize.
  pose proof (Binary64Facts.digits2_bounds p) as [Hlow _].
  assert (Hdigits : (Z.pos (digits2_pos p) - 1 < 53)%Z).
  { apply (Z.pow_lt_mono_r_iff 2); [lia | lia |].
    eapply Z.le_lt_trans; [exact Hlow | exact Hsmall]. }
  clear Hlow Hsmall.
  destruct (Binary64Facts.binary_round_spec false p 0) as (m & e & Hround & _).
  - lia.
  - lia.
  - exists m, e. exact Hround.
Qed.

Lemma int_div_diag (n : nat) :
  (0 < n)%nat -> (Z.of_nat n < 2 ^ 53)%Z -> PyInt.int_div n n = dec 10 1.
Proof.
  intros Hpos Hsmall. unfold PyInt.int_div.
  destruct (b64_of_count_finite n Hpos Hsmall) as (m & e & ->).
  cbn [fdiv binary64]. rewrite SFdiv_diag. vm_compute. reflexivity.
Qed.

(** X14. [calculate_text_similarity] is symmetric: the two texts can be
    exchanged, whatever [str.split] returns for them. *)
Theorem similarity_is_symmetric (str_split : string -> list string) (text1 text2 : string) :
  Deduplication.calculate_text_similarity str_split text1 text2
  = Deduplication.calculate_text_similarity str_split text2 text1.
Proof.
  unfold Deduplication.calculate_text_similarity. cbn zeta.
  set (w1 := Deduplication.words str_split text1).
  set (w2 := Deduplication.words str_split text2).
  rewrite (andb_comm (bool_decide (w1 = ∅))), (orb_comm (bool_decide (w1 = ∅))).
  rewrite (comm_L (∩) w1 w2), (comm_L (∪) w1 w2). reflexivity.
Qed.

(** X15. A text whose set of lower-cased words is that of an existing
    text has similarity exactly 1.0 with it, empty or not, and so
    [is_duplicate_content] reports it for every threshold up to 1.0 (the
    number of distinct words being below 2^53). *)
Theorem same_words_are_duplicates (str_split : string -> list string)
  (text existing : string) (existing_texts : list string) (threshold : spec_float) :
  In existing existing_texts ->
  Deduplication.words str_split text = Deduplication.words str_split existing ->
  (Z.of_nat (size (Deduplication.words str_split text)) < 2 ^ 53)%Z ->
  (threshold .<= dec 10 1) = true ->
  Deduplication.calculate_text_similarity str_split text existing = dec 10 1 /\
  Deduplication.is_duplicate_content str_split text existing_texts threshold = true.
Proof.
  intros Hin Hwords Hsize Hthreshold.
  assert (Hsim : Deduplication.calculate_text_similarity str_split text existing = dec 10 1).
  { unfold Deduplication.calculate_text_similarity. cbn zeta. rewrite <- Hwords.
    set (w := Deduplication.words str_split text) in *.
    destruct (bool_decide (w = ∅)) eqn:Hempty; [reflexivity |]. cbn [andb orb].
    apply bool_decide_eq_false in Hempty.
    rewrite (idemp_L (∩) w), (idemp_L (∪) w).
    apply int_div_diag; [| exact Hsize].
    destruct (size w) eqn:Hs;
      [apply size_empty_inv in Hs; apply leibniz_equiv in Hs; contradiction | lia]. }
  split; [exact Hsim |].
  unfold Deduplication.is_duplicate_content. apply existsb_exists.
  exists existing. split; [exact Hin |]. rewrite Hsim. exact Hthreshold.
Qed.

Lemma same_words_are_duplicates_witness :
  Deduplication.is_duplicate_content (fun text => [text])
    "ROBBERY" ["traffic"; "robbery"] (dec 8 1) = true.
Proof.
  destruct (same_words_are_duplicates (fun text => [text]) "ROBBERY" "robbery"
              ["traffic"; "robbery"] (dec 8 1)) as [_ Hdup].
  - right. left. reflexivity.
  - reflexivity.
  - vm_compute. reflexivity.
  - vm_compute. reflexivity.
  - exact Hdup.
Defined.

(** ** Alerts: what every alert of a batch satisfies *)

Lemma insert_by_count_In (p q : string * nat) (table : list (string * nat)) :
  In q (Pandas.insert_by_count p table) <-> q = p \/ In q table.
Proof.
  induction table as [|r rest IH]; cbn [Pandas.insert_by_count].
  - cbn [In]. intuition.
  - destruct (snd r <=? snd p)%nat; cbn [In]; [intuition |].
    rewrite IH. intuition.
Qed.

Lemma insert_by_count_head (p : string * nat) (table : list (string * nat)) :
  (forall h rest, table = h :: rest -> forall q, In q table -> (snd q <= snd h)%nat) ->
  forall h rest, Pandas.insert_by_count p table = h :: rest ->
  forall q, In q (Pandas.insert_by_count p table) -> (snd q <= snd h)%nat.
Proof.
  intros Htable h rest Hins q Hq. apply insert_by_count_In in Hq.
  destruct table as [|r others]; cbn [Pandas.insert_by_count] in Hins.
  - injection Hins as <- <-. destruct Hq as [-> | []]. lia.
  - pose proof (Htable r others eq_refl) as Hmax.
    destruct (snd r <=? snd p)%nat eqn:Hle; injection Hins as <- <-.
    + apply Nat.leb_le in Hle. destruct Hq as [-> | Hq]; [lia |].
      specialize (Hmax q Hq). lia.
    + apply Nat.leb_gt in Hle. destruct Hq as [-> | Hq]; [lia |].
      exact (Hmax q Hq).
Qed.

Lemma value_counts_In (values : list string) (q : string * nat) :
  In q (Pandas.value_counts values) <->
  In (fst q) values /\ snd q = Pandas.occurrences (fst q) values.
Proof.
  unfold Pandas.value_counts.
  assert (Hgen : forall l : list (string * nat),
            In q (fold_right Pandas.insert_by_count [] l) <-> In q l).
  { induction l as [|p rest IH]; cbn [fold_right]; [tauto |].
    rewrite insert_by_count_In, IH. cbn [In]. intuition. }
  rewrite Hgen, List.in_map_iff. split.
  - intros (v & <- & Hv). apply (proj1 (unique_In _ _)) in Hv. cbn [fst snd]. split; [exact Hv | reflexivity].
  - intros [Hin Hcount]. exists (fst q). split; [| apply unique_In; exact Hin].
    destruct q as [v c]. cbn in *. congruence.
Qed.

Lemma value_counts_head (values : list string) (h : string * nat) (rest : list (string * nat)) :
  Pandas.value_counts values = h :: rest ->
  forall q, In q (Pandas.value_counts values) -> (snd q <= snd h)%nat.
Proof.
  unfold Pandas.value_counts.
  generalize (map (fun v => (v, Pandas.occurrences v values)) (Pandas.unique values)).
  intros l. revert h rest. induction l as [|p others IH]; cbn [fold_right].
  - discriminate.
  - intros h rest. apply insert_by_count_head. exact IH.
Qed.

Section AlertFacts.
Context {F : Type} `{Number F}.
Variable series_mean : list F -> F.
Variable now : nat -> datetime.
Variable self : AlertGenerator.t F.
Variable df : list (SentimentData.t F).

Let examine := AlertGenerator.examine series_mean now self df.
Let alerts_loop := AlertGenerator.alerts_loop series_mean now self df.
Let group (area : string) := AlertGenerator.area_rows df area.
Let mean (area : string) := series_mean (map SentimentData.adjusted_sentiment (group area)).

Lemma alerts_loop_In (alert : SecurityAlert.t F) (areas : list string) (n : nat) :
  In alert (alerts_loop areas n) ->
  exists k area, In area areas /\ examine k area = AlertGenerator.Emit alert.
Proof.
  revert n. induction areas as [|a rest IH]; intros n; [intros [] |].
  unfold alerts_loop in *. cbn [AlertGenerator.alerts_loop]. fold (examine n a).
  destruct (examine n a) as [|emitted|] eqn:E.
  - intros Hin. destruct (IH n Hin) as (k & area & Harea & Hk).
    exists k, area. split; [right; exact Harea | exact Hk].
  - intros [<- | Hin].
    + exists n, a. split; [left; reflexivity | exact E].
    + destruct (IH (S n) Hin) as (k & area & Harea & Hk).
      exists k, area. split; [right; exact Harea | exact Hk].
  - intros [].
Qed.

Lemma examine_emit_inv (n : nat) (area : string) (alert : SecurityAlert.t F) :
  examine n area = AlertGenerator.Emit alert ->
  area <> "Unknown" /\
  (AlertGenerator.minimum_sources self <= Z.of_nat (List.length (group area)))%Z /\
  ((mean area .<= AlertGenerator.high_threshold self) = true /\
     SecurityAlert.severity alert = "high" \/
   (mean area .<= AlertGenerator.high_threshold self) = false /\
     (mean area .<= AlertGenerator.medium_threshold self) = true /\
     SecurityAlert.severity alert = "medium") /\
  (exists count others,
     Pandas.value_counts (map SentimentData.category (group area))
       = (SecurityAlert.alert_type alert, count) :: others) /\
  SecurityAlert.area alert = area /\
  SecurityAlert.message alert
    = AlertGenerator._generate_alert_message self area (SecurityAlert.alert_type alert)
        (mean area) (List.length (group area)) /\
  SecurityAlert.confidence alert = series_mean (map SentimentData.confidence (group area)) /\
  SecurityAlert.timestamp alert = now n /\
  SecurityAlert.resolved alert = false.
Proof.
  unfold examine, AlertGenerator.examine. cbn zeta. fold (group area). fold (mean area).
  destruct (String.eqb_spec area "Unknown") as [-> | Hknown]; [discriminate |].
  destruct (Z.ltb_spec (Z.of_nat (List.length (group area)))
                       (AlertGenerator.minimum_sources self)) as [Hlt | Hge]; [discriminate |].
  destruct (mean area .<= AlertGenerator.high_threshold self) eqn:Hhigh.
  - destruct (Pandas.value_counts _) as [|[primary count] others] eqn:Hcounts; [discriminate |].
    intros [= <-]. cbn. repeat split; eauto.
  - destruct (mean area .<= AlertGenerator.medium_threshold self) eqn:Hmedium; [| discriminate].
    destruct (Pandas.value_counts _) as [|[primary count] others] eqn:Hcounts; [discriminate |].
    intros [= <-]. cbn. repeat split; eauto.
Qed.

Lemma alerts_loop_sublist (areas : list string) (n : nat) :
  sublist (map SecurityAlert.area (alerts_loop areas n)) areas.
Proof.
  revert n. induction areas as [|a rest IH]; intros n; [constructor |].
  unfold alerts_loop in *. cbn [AlertGenerator.alerts_loop]. fold (examine n a).
  destruct (examine n a) as [|emitted|] eqn:E.
  - apply sublist_cons. apply IH.
  - cbn [map]. rewrite (examine_emit_area series_mean now self df n a emitted E).
    apply sublist_skip. apply IH.
  - apply sublist_nil_l.
Qed.

End AlertFacts.

(** X16. Every alert [generate_alerts] returns, on any thresholds and
    whatever mean pandas computes, concerns an area other than "Unknown"
    that has records in the batch, at least [minimum_sources] of them;
    its severity is "high" when the mean adjusted score of these records
    is at or below the high threshold and "medium" when it is above it
    but at or below the medium threshold; its message is the one
    [_generate_alert_message] renders for that area, category, mean and
    number of records; its confidence is the mean confidence of the
    records; and it is unresolved. *)
Theorem alert_invariants {F : Type} `{Number F}
  (series_mean : list F -> F) (now : nat -> datetime) (self : AlertGenerator.t F)
  (sentiment_data : list (SentimentData.t F)) (alert : SecurityAlert.t F) :
  In alert (AlertGenerator.generate_alerts series_mean now self sentiment_data) ->
  let group := AlertGenerator.area_rows sentiment_data (SecurityAlert.area alert) in
  let mean := series_mean (map SentimentData.adjusted_sentiment group) in
  SecurityAlert.area alert <> "Unknown" /\
  group <> [] /\
  (AlertGenerator.minimum_sources self <= Z.of_nat (List.length group))%Z /\
  ((mean .<= AlertGenerator.high_threshold self) = true /\
     SecurityAlert.severity alert = "high" \/
   (mean .<= AlertGenerator.high_threshold self) = false /\
     (mean .<= AlertGenerator.medium_threshold self) = true /\
     SecurityAlert.severity alert = "medium") /\
  SecurityAlert.message alert
    = AlertGenerator._generate_alert_message self (SecurityAlert.area alert)
        (SecurityAlert.alert_type alert) mean (List.length group) /\
  SecurityAlert.confidence alert = series_mean (map SentimentData.confidence group) /\
  SecurityAlert.resolved alert = false.
Proof.
  intros Hin. cbn zeta. unfold AlertGenerator.generate_alerts in Hin.
  destruct sentiment_data as [|item rest] eqn:Hdata; [destruct Hin |].
  rewrite <- Hdata in *. clear Hdata item rest.
  apply alerts_loop_In in Hin as (k & area & Harea & Hk).
  apply (proj1 (unique_In _ _)) in Harea.
  destruct (examine_emit_inv _ _ _ _ _ _ _ Hk)
    as (Hknown & Hmin & Hsev & _ & Ha & Hmsg & Hconf & _ & Hres).
  rewrite Ha. repeat split; try assumption.
  apply area_rows_nonempty. exact Harea.
Qed.

Lemma alert_invariants_witness :
  match AlertGenerator.generate_alerts AlertGenerator.sequential_mean
          (fun n => Z.of_nat n) AlertGenerator.default Samples.batch with
  | alert :: _ =>
      SecurityAlert.area alert <> "Unknown" /\ SecurityAlert.resolved alert = false
  | [] => False
  end.
Proof.
  pose proof (alert_invariants AlertGenerator.sequential_mean (fun n => Z.of_nat n)
                AlertGenerator.default Samples.batch) as Hinv.
  cbn zeta in Hinv.
  remember (AlertGenerator.generate_alerts AlertGenerator.sequential_mean
              (fun n => Z.of_nat n) AlertGenerator.default Samples.batch) as alerts eqn:E.
  vm_compute in E. subst alerts.
  destruct (Hinv _ (or_introl eq_refl)) as (Hknown & _ & _ & _ & _ & _ & Hres).
  split; assumption.
Defined.

(** X17. The areas of the alerts of a batch, in the order of the alerts,
    are a sublist of the distinct locations of the batch in order of
    first appearance: no area gets two alerts and there are no more
    alerts than distinct locations. *)
Theorem one_alert_per_area {F : Type} `{Number F}
  (series_mean : list F -> F) (now : nat -> datetime) (self : AlertGenerator.t F)
  (sentiment_data : list (SentimentData.t F)) :
  let alerts := AlertGenerator.generate_alerts series_mean now self sentiment_data in
  sublist (map SecurityAlert.area alerts)
          (Pandas.unique (map SentimentData.location sentiment_data)) /\
  List.NoDup (map SecurityAlert.area alerts) /\
  (List.length alerts <= List.length (Pandas.unique (map SentimentData.location sentiment_data)))%nat.
Proof.
  cbn zeta.
  assert (Hsub : sublist
            (map SecurityAlert.area
                 (AlertGenerator.generate_alerts series_mean now self sentiment_data))
            (Pandas.unique (map SentimentData.location sentiment_data))).
  { unfold AlertGenerator.generate_alerts.
    destruct sentiment_data as [|item rest] eqn:Hdata; [apply sublist_nil_l |].
    rewrite <- Hdata. apply alerts_loop_sublist. }
  split; [exact Hsub |]. split.
  - apply NoDup_ListNoDup. eapply sublist_NoDup; [| exact Hsub].
    apply NoDup_ListNoDup. apply unique_NoDup.
  - apply sublist_length in Hsub. rewrite List.length_map in Hsub. exact Hsub.
Qed.

(** X18. The type of an alert is a category of a record of its area, and
    no category occurs in more records of the area: the alert is typed by
    a most frequent category. *)
Theorem alert_type_is_most_frequent {F : Type} `{Number F}
  (series_mean : list F -> F) (now : nat -> datetime) (self : AlertGenerator.t F)
  (sentiment_data : list (SentimentData.t F)) (alert : SecurityAlert.t F) :
  In alert (AlertGenerator.generate_alerts series_mean now self sentiment_data) ->
  let categories :=
    map SentimentData.category
        (AlertGenerator.area_rows sentiment_data (SecurityAlert.area alert)) in
  In (SecurityAlert.alert_type alert) categories /\
  forall category, In category categories ->
    (Pandas.occurrences category categories
     <= Pandas.occurrences (SecurityAlert.alert_type alert) categories)%nat.
Proof.
  intros Hin. cbn zeta. unfold AlertGenerator.generate_alerts in Hin.
  destruct sentiment_data as [|item rest] eqn:Hdata; [destruct Hin |].
  rewrite <- Hdata in *. clear Hdata item rest.
  apply alerts_loop_In in Hin as (k & area & Harea & Hk).
  destruct (examine_emit_inv _ _ _ _ _ _ _ Hk)
    as (_ & _ & _ & (count & others & Hcounts) & Ha & _).
  rewrite Ha.
  set (categories := map SentimentData.category (AlertGenerator.area_rows sentiment_data area)) in *.
  assert (Hhead : In (SecurityAlert.alert_type alert, count) (Pandas.value_counts categories))
    by (rewrite Hcounts; left; reflexivity).
  apply value_counts_In in Hhead as [Hmember Hcount]. cbn [fst snd] in Hmember, Hcount.
  split; [exact Hmember |].
  intros category Hcat.
  assert (Hq : In (category, Pandas.occurrences category categories)
                  (Pandas.value_counts categories))
    by (apply value_counts_In; split; [exact Hcat | reflexivity]).
  pose proof (value_counts_head categories _ _ Hcounts _ Hq) as Hle.
  cbn [fst snd] in Hle. rewrite <- Hcount. exact Hle.
Qed.

Lemma alert_type_is_most_frequent_witness :
  match AlertGenerator.generate_alerts AlertGenerator.sequential_mean
          (fun n => Z.of_nat n) AlertGenerator.default Samples.batch with
  | alert :: _ =>
      In (SecurityAlert.alert_type alert)
         (map SentimentData.category
              (AlertGenerator.area_rows Samples.batch (SecurityAlert.area alert)))
  | [] => False
  end.
Proof.
  pose proof (alert_type_is_most_frequent AlertGenerator.sequential_mean
                (fun n => Z.of_nat n) AlertGenerator.default Samples.batch) as Hmost.
  cbn zeta in Hmost.
  remember (AlertGenerator.generate_alerts AlertGenerator.sequential_mean
              (fun n => Z.of_nat n) AlertGenerator.default Samples.batch) as alerts eqn:E.
  vm_compute in E. subst alerts.
  destruct (Hmost _ (or_introl eq_refl)) as [Hmember _]. exact Hmember.
Defined.

(** X19. On any thresholds, for an area whose mean adjusted score is not
    at or below the high threshold (a NaN mean included): when the mean
    is not at or below the medium threshold either, the area gets no
    alert however many records it has; when it is, and the area is not
    "Unknown" and has records, at least [minimum_sources] of them, it
    gets exactly one alert, of severity "medium". *)
Theorem medium_alert_decision {F : Type} `{Number F}
  (series_mean : list F -> F) (now : nat -> datetime) (self : AlertGenerator.t F)
  (sentiment_data : list (SentimentData.t F)) (area : string) :
  let group := AlertGenerator.area_rows sentiment_data area in
  let mean := series_mean (map SentimentData.adjusted_sentiment group) in
  let alerts := AlertGenerator.generate_alerts series_mean now self sentiment_data in
  (mean .<= AlertGenerator.high_threshold self) = false ->
  ((mean .<= AlertGenerator.medium_threshold self) = false ->
   AlertGenerator.alerts_for area alerts = []) /\
  ((mean .<= AlertGenerator.medium_threshold self) = true ->
   area <> "Unknown" -> group <> [] ->
   (AlertGenerator.minimum_sources self <= Z.of_nat (List.length group))%Z ->
   exists alert,
     AlertGenerator.alerts_for area alerts = [alert] /\
     SecurityAlert.severity alert = "medium").
Proof.
  cbn zeta. intros Hhigh. split.
  - intros Hmedium. unfold AlertGenerator.generate_alerts.
    destruct sentiment_data as [|item rest] eqn:Hdata; [reflexivity |].
    rewrite <- Hdata in *. apply alerts_for_skipped. intros k.
    unfold AlertGenerator.examine. cbn zeta.
    destruct (String.eqb area "Unknown"); [reflexivity |].
    destruct (Z.of_nat _ <? _)%Z; [reflexivity |].
    rewrite Hhigh, Hmedium. reflexivity.
  - intros Hmedium Hknown Hgroup Hmin. unfold AlertGenerator.generate_alerts.
    destruct sentiment_data as [|item rest] eqn:Hdata; [contradiction Hgroup; reflexivity |].
    rewrite <- Hdata in *.
    assert (Hin : In area (map SentimentData.location sentiment_data)).
    { destruct (AlertGenerator.area_rows sentiment_data area) as [|r rs] eqn:E;
        [congruence |].
      assert (Hr : In r (AlertGenerator.area_rows sentiment_data area))
        by (rewrite E; left; reflexivity).
      unfold AlertGenerator.area_rows in Hr. apply List.filter_In in Hr as [Hr Hloc].
      apply String.eqb_eq in Hloc. subst area. apply List.in_map. exact Hr. }
    apply (alerts_for_emitted series_mean now self sentiment_data
             (fun alert => SecurityAlert.severity alert = "medium")).
    + apply unique_NoDup.
    + apply unique_In. exact Hin.
    + intros a Ha. apply unique_In. exact Ha.
    + intros k. unfold AlertGenerator.examine. cbn zeta.
      destruct (String.eqb_spec area "Unknown") as [Heq | _]; [contradiction |].
      destruct (Z.ltb_spec (Z.of_nat (List.length (AlertGenerator.area_rows sentiment_data area)))
                           (AlertGenerator.minimum_sources self)) as [Hlt | _]; [lia |].
      rewrite Hhigh, Hmedium.
      destruct (Pandas.value_counts _) as [|[primary count] others] eqn:Hcounts.
      * exfalso. revert Hcounts. apply value_counts_nonempty.
        destruct (AlertGenerator.area_rows sentiment_data area); [congruence | discriminate].
      * eexists. split; reflexivity.
Qed.

Lemma medium_alert_decision_witness :
  exists alert,
    AlertGenerator.alerts_for "Ikeja"
      (AlertGenerator.generate_alerts AlertGenerator.sequential_mean (fun n => Z.of_nat n)
         {| AlertGenerator.high_threshold := dec (-9) 1;
            AlertGenerator.medium_threshold := dec (-5) 1;
            AlertGenerator.minimum_sources := 3 |} Samples.batch) = [alert] /\
    SecurityAlert.severity alert = "medium".
Proof.
  destruct (medium_alert_decision AlertGenerator.sequential_mean (fun n => Z.of_nat n)
              {| AlertGenerator.high_threshold := dec (-9) 1;
                 AlertGenerator.medium_threshold := dec (-5) 1;
                 AlertGenerator.minimum_sources := 3 |} Samples.batch "Ikeja") as [_ Hmedium].
  - vm_compute. reflexivity.
  - apply Hmedium.
    + vm_compute. reflexivity.
    + discriminate.
    + vm_compute. discriminate.
    + vm_compute. discriminate.
Defined.

(** ** The store: writing, reading back, and the breakdown by source *)

Lemma collect_ok {A B : Type} (f : A -> Persistence.sqlite_error + B) (l : list A) (out : list B) :
  Persistence.collect (map f l) = inr out -> Forall2 (fun a b => f a = inr b) l out.
Proof.
  revert out. induction l as [|a rest IH]; cbn [map Persistence.collect]; intros out Hc.
  - injection Hc as <-. constructor.
  - destruct (f a) as [e|b] eqn:Hf; [discriminate |].
    destruct (Persistence.collect (map f rest)) as [e|bs]; [discriminate |].
    injection Hc as <-. constructor; [exact Hf | apply IH; reflexivity].
Qed.

Lemma Forall2_In_l {A B : Type} (R : A -> B -> Prop) (l : list A) (l' : list B) (a : A) :
  Forall2 R l l' -> In a l -> exists b, In b l' /\ R a b.
Proof.
  induction 1 as [|a' b l l' Hab _ IH]; cbn [In]; [tauto |].
  intros [<- | Ha]; [exists b; auto |].
  destruct (IH Ha) as (b' & Hb' & HR). exists b'. auto.
Qed.

Lemma get_recent_sentiment_In (rows : list DatabaseManager.sentiment_row)
      (alerts : list DatabaseManager.alert_row) (now : datetime) (hours : Z)
      (r : DatabaseManager.sentiment_row) :
  In r (DatabaseManager.get_recent_sentiment (DatabaseManager.Available rows alerts) now hours) <->
  (datetime_min <= now - 3600 * hours <= datetime_max)%Z /\
  In r rows /\ (now - 3600 * hours < DatabaseManager.timestamp r)%Z.
Proof.
  unfold DatabaseManager.get_recent_sentiment.
  cbn [DatabaseManager.select_sentiment_data Py.bind Py.ret].
  destruct (hours_before_cases now hours) as [[Hrange ->] | [Hrange ->]];
    cbn [Py.bind Py.ret Py.raise Py.try_except]; [| cbn [In]; tauto].
  split.
  - intros Hin. apply (Permutation_in _ (order_by_perm _ _)) in Hin.
    apply List.filter_In in Hin as [Hin Hts]. apply Z.ltb_lt in Hts. auto.
  - intros (_ & Hin & Hts). apply (Permutation_in _ (Permutation_sym (order_by_perm _ _))).
    apply List.filter_In. split; [exact Hin | apply Z.ltb_lt; exact Hts].
Qed.

Lemma get_recent_sentiment_length (rows : list DatabaseManager.sentiment_row)
      (alerts : list DatabaseManager.alert_row) (now : datetime) (hours : Z) :
  List.length (DatabaseManager.get_recent_sentiment (DatabaseManager.Available rows alerts)
                 now hours)
  = match DatabaseManager.hours_before now hours with
    | inr since =>
        List.length (List.filter (fun r => (since <? DatabaseManager.timestamp r)%Z) rows)
    | inl _ => 0%nat
    end.
Proof.
  unfold DatabaseManager.get_recent_sentiment.
  cbn [DatabaseManager.select_sentiment_data Py.bind Py.ret].
  destruct (DatabaseManager.hours_before now hours) as [e|since];
    cbn [Py.bind Py.ret Py.try_except]; [reflexivity |].
  apply Permutation_length. apply order_by_perm.
Qed.

Lemma get_recent_sentiment_overflow (db : DatabaseManager.store) (now : datetime) (hours : Z) :
  ~ (datetime_min <= now - 3600 * hours <= datetime_max)%Z ->
  DatabaseManager.get_recent_sentiment db now hours = [].
Proof.
  intros Hrange. unfold DatabaseManager.get_recent_sentiment.
  destruct (DatabaseManager.select_sentiment_data db) as [e|rows];
    cbn [Py.bind Py.try_except]; [reflexivity |].
  destruct (hours_before_cases now hours) as [[Habs _] | [_ ->]]; [contradiction | reflexivity].
Qed.

Lemma stored_real_cases (x : spec_float) :
  x = S754_nan /\ Persistence.stored_real x = None
  \/ x = S754_zero true /\ Persistence.stored_real x = Some (S754_zero false)
  \/ x <> S754_nan /\ x <> S754_zero true /\ Persistence.stored_real x = Some x.
Proof.
  destruct x as [[|]| | |]; cbn [Persistence.stored_real]; auto;
    right; right; repeat split; discriminate.
Qed.

Lemma stored_real_None (x : spec_float) : Persistence.stored_real x = None <-> x = S754_nan.
Proof. destruct x; cbn; split; congruence. Qed.

Lemma sentiment_row_of_cases (item : SentimentData.t spec_float) :
  Persistence.sentiment_row_of item = inl Persistence.IntegrityError /\
    (SentimentData.raw_sentiment item = S754_nan \/
     SentimentData.adjusted_sentiment item = S754_nan)
  \/
  (exists r, Persistence.sentiment_row_of item = inr r) /\
    SentimentData.raw_sentiment item <> S754_nan /\
    SentimentData.adjusted_sentiment item <> S754_nan.
Proof.
  unfold Persistence.sentiment_row_of.
  destruct (SentimentData.raw_sentiment item), (SentimentData.adjusted_sentiment item);
    cbn [Persistence.stored_real];
    try (left; split; [reflexivity | tauto]);
    right; (split; [eexists; reflexivity | split; discriminate]).
Qed.

Lemma collect_rows (data : list (SentimentData.t spec_float)) :
  (exists item, In item data /\
     (SentimentData.raw_sentiment item = S754_nan \/
      SentimentData.adjusted_sentiment item = S754_nan)) /\
    Persistence.collect (map Persistence.sentiment_row_of data) = inl Persistence.IntegrityError
  \/
  (forall item, In item data ->
     SentimentData.raw_sentiment item <> S754_nan /\
     SentimentData.adjusted_sentiment item <> S754_nan) /\
    exists rows, Persistence.collect (map Persistence.sentiment_row_of data) = inr rows.
Proof.
  induction data as [|item rest IH]; cbn [map Persistence.collect].
  - right. split; [intros ? [] | eexists; reflexivity].
  - destruct (sentiment_row_of_cases item) as [[-> Hnan] | [(r & ->) Hgood1]].
    + left. split; [| reflexivity]. exists item. split; [left; reflexivity | exact Hnan].
    + destruct IH as [[(bad & Hbad & Hnan) ->] | [Hgood (rows & ->)]].
      * left. split; [| reflexivity]. exists bad. split; [right; exact Hbad | exact Hnan].
      * right. split; [| eexists; reflexivity].
        intros it [<- | Hin]; [exact Hgood1 | apply Hgood; exact Hin].
Qed.

(** What a successful [INSERT INTO sentiment_data] leaves of a record. *)
Lemma sentiment_row_of_fields (item : SentimentData.t spec_float)
      (r : DatabaseManager.sentiment_row) :
  Persistence.sentiment_row_of item = inr r ->
  DatabaseManager.source r = SentimentData.source item /\
  DatabaseManager.text r = SentimentData.text item /\
  (SentimentData.raw_sentiment item <> S754_zero true ->
   DatabaseManager.raw_sentiment r = SentimentData.raw_sentiment item) /\
  (SentimentData.raw_sentiment item = S754_zero true ->
   DatabaseManager.raw_sentiment r = S754_zero false) /\
  (SentimentData.adjusted_sentiment item <> S754_zero true ->
   DatabaseManager.adjusted_sentiment r = SentimentData.adjusted_sentiment item) /\
  (SentimentData.adjusted_sentiment item = S754_zero true ->
   DatabaseManager.adjusted_sentiment r = S754_zero false) /\
  DatabaseManager.location r = Some (SentimentData.location item) /\
  DatabaseManager.timestamp r = SentimentData.timestamp item /\
  (DatabaseManager.confidence r = None <-> SentimentData.confidence item = S754_nan) /\
  DatabaseManager.category r = Some (SentimentData.category item) /\
  DatabaseManager.language r = Some (SentimentData.language item).
Proof.
  unfold Persistence.sentiment_row_of. intros Hrow.
  destruct (stored_real_cases (SentimentData.raw_sentiment item))
    as [[Hraw Ef] | [[Hraw Ef] | (Hraw1 & Hraw2 & Ef)]]; rewrite Ef in Hrow;
    [discriminate Hrow | |];
    (destruct (stored_real_cases (SentimentData.adjusted_sentiment item))
       as [[Hadj Eg] | [[Hadj Eg] | (Hadj1 & Hadj2 & Eg)]]; rewrite Eg in Hrow;
     [discriminate Hrow | |]);
    injection Hrow as <-;
    cbn [DatabaseManager.source DatabaseManager.text DatabaseManager.raw_sentiment
         DatabaseManager.adjusted_sentiment DatabaseManager.location DatabaseManager.timestamp
         DatabaseManager.confidence DatabaseManager.category DatabaseManager.language];
    repeat split; try reflexivity; try congruence;
    try (apply stored_real_None); try (intros Hc; apply stored_real_None; exact Hc).
Qed.

Lemma save_sentiment_data_ok (self db' : Persistence.database)
      (data : list (SentimentData.t spec_float)) :
  Persistence.save_sentiment_data self data = (inr tt, db') ->
  data = [] /\ db' = self
  \/
  exists rows alerts new,
    Persistence.file self = DatabaseManager.Available rows alerts /\
    Persistence.write_locked self = false /\
    Forall2 (fun item r => Persistence.sentiment_row_of item = inr r) data new /\
    db' = {| Persistence.file := DatabaseManager.Available (rows ++ new) alerts;
             Persistence.write_locked := false |}.
Proof.
  unfold Persistence.save_sentiment_data. intros Hsave.
  destruct data as [|item rest] eqn:Hdata; [left; split; congruence |].
  rewrite <- Hdata in *. right.
  destruct (Persistence.file self) as [|rows alerts]; [discriminate Hsave |].
  destruct (Persistence.write_locked self); [discriminate Hsave |].
  destruct (Persistence.collect (map Persistence.sentiment_row_of data)) as [e|new] eqn:Hc;
    [discriminate Hsave |].
  injection Hsave as <-. exists rows, alerts, new.
  repeat split. apply collect_ok. exact Hc.
Qed.

(** X20. What [save_sentiment_data] writes, [get_recent_sentiment] reads
    back.  After a successful write every record read before is still
    read, and no more rows are read than were read before plus were
    written.  When the start of the window is a date Python can
    represent, every written record whose timestamp lies in the window
    is read, with its source, text, location, timestamp, category and
    language and with its two scores, a negative zero being read back as
    zero; its confidence is [NULL] exactly when it was a NaN.  When the
    start of the window is not such a date, nothing is read. *)
Theorem saved_records_are_read_back
  (self db' : Persistence.database) (data : list (SentimentData.t spec_float))
  (now : datetime) (hours : Z) :
  Persistence.save_sentiment_data self data = (inr tt, db') ->
  let since := (now - 3600 * hours)%Z in
  let before := DatabaseManager.get_recent_sentiment (Persistence.file self) now hours in
  let after := DatabaseManager.get_recent_sentiment (Persistence.file db') now hours in
  let kept := fun x y : spec_float =>
    (x <> S754_zero true -> y = x) /\ (x = S754_zero true -> y = S754_zero false) in
  (forall r, In r before -> In r after) /\
  (List.length after <= List.length before + List.length data)%nat /\
  ((datetime_min <= since <= datetime_max)%Z ->
   forall item, In item data ->
     (since < SentimentData.timestamp item)%Z ->
     exists r, In r after /\
       DatabaseManager.source r = SentimentData.source item /\
       DatabaseManager.text r = SentimentData.text item /\
       kept (SentimentData.raw_sentiment item) (DatabaseManager.raw_sentiment r) /\
       kept (SentimentData.adjusted_sentiment item) (DatabaseManager.adjusted_sentiment r) /\
       DatabaseManager.location r = Some (SentimentData.location item) /\
       DatabaseManager.timestamp r = SentimentData.timestamp item /\
       (DatabaseManager.confidence r = None <-> SentimentData.confidence item = S754_nan) /\
       DatabaseManager.category r = Some (SentimentData.category item) /\
       DatabaseManager.language r = Some (SentimentData.language item)) /\
  (~ (datetime_min <= since <= datetime_max)%Z -> after = []).
Proof.
  intros Hsave. cbn zeta.
  destruct (save_sentiment_data_ok self db' data Hsave)
    as [[-> ->] | (rows & alerts & new & Hfile & _ & Hnew & ->)].
  { split; [auto |]. split; [lia |]. split; [intros _ item [] |].
    apply get_recent_sentiment_overflow. }
  rewrite Hfile. cbn [Persistence.file]. split; [| split; [| split]].
  - intros r Hr. apply get_recent_sentiment_In in Hr as (Hrange & Hin & Hts).
    apply get_recent_sentiment_In.
    split; [exact Hrange |]. split; [apply List.in_or_app; left; exact Hin | exact Hts].
  - rewrite !get_recent_sentiment_length.
    destruct (DatabaseManager.hours_before now hours) as [e|since]; [lia |].
    rewrite List.filter_app, List.length_app.
    apply Nat.add_le_mono_l.
    assert (Hlen : List.length data = List.length new)
      by (clear - Hnew; induction Hnew; cbn [List.length]; congruence).
    rewrite Hlen. apply List.filter_length_le.
  - intros Hrange item Hitem Hts.
    destruct (Forall2_In_l _ _ _ _ Hnew Hitem) as (r & Hr & Hrow).
    destruct (sentiment_row_of_fields item r Hrow)
      as (Hsource & Htext & Hraw1 & Hraw2 & Hadj1 & Hadj2 & Hloc & Htime & Hconf & Hcat & Hlang).
    exists r. split.
    + apply get_recent_sentiment_In. split; [exact Hrange |].
      split; [apply List.in_or_app; right; exact Hr | rewrite Htime; exact Hts].
    + repeat split; assumption || apply Hconf.
  - apply get_recent_sentiment_overflow.
Qed.

Lemma saved_records_are_read_back_witness :
  exists db',
    Persistence.save_sentiment_data
      {| Persistence.file := DatabaseManager.Available [] [];
         Persistence.write_locked := false |} Samples.signed_zero_batch = (inr tt, db') /\
    exists r, In r (DatabaseManager.get_recent_sentiment (Persistence.file db') 200%Z 1%Z) /\
              DatabaseManager.text r = "calm in Ikeja" /\
              DatabaseManager.raw_sentiment r = S754_zero false /\
              DatabaseManager.adjusted_sentiment r = dec (-2) 1.
Proof.
  eexists. split; [reflexivity |].
  destruct (saved_records_are_read_back
              {| Persistence.file := DatabaseManager.Available [] [];
                 Persistence.write_locked := false |} _ Samples.signed_zero_batch 200%Z 1%Z
              eq_refl) as (_ & _ & Hback & _).
  destruct (Hback ltac:(vm_compute; split; discriminate)
                  (Samples.report "twitter" "Ikeja" "general" "calm in Ikeja"
                     (S754_zero true) (dec (-2) 1) (dec 8 1) 100%Z))
    as (r & Hr & _ & Htext & [_ Hraw] & [Hadj _] & _).
  - left. reflexivity.
  - vm_compute. reflexivity.
  - exists r. split; [exact Hr |]. split; [exact Htext |].
    split; [apply Hraw; reflexivity | apply Hadj; vm_compute; discriminate].
Defined.

(** X21. How [save_sentiment_data] ends.  An empty batch is accepted
    without a connection being made, whatever the state of the database.
    A batch with records is refused with the exception of the connection
    when the file cannot be opened, and with that of the lock while a
    connection left open holds the write lock; the database is then as
    it was.  Otherwise the only failure is that of a [NOT NULL]
    constraint, which occurs exactly when some record of the batch has a
    NaN as raw or adjusted score: then nothing of the batch is committed
    and the database is left write-locked.  Without such a record one row
    per record is committed and no lock is left. *)
Theorem save_failure_modes
  (self : Persistence.database) (data : list (SentimentData.t spec_float)) :
  let unscored := exists item, In item data /\
                    (SentimentData.raw_sentiment item = S754_nan \/
                     SentimentData.adjusted_sentiment item = S754_nan) in
  Persistence.save_sentiment_data self [] = (inr tt, self) /\
  (data <> [] ->
   (Persistence.file self = DatabaseManager.Unavailable ->
    Persistence.save_sentiment_data self data = (inl Persistence.OperationalError, self)) /\
   (forall rows alerts,
      Persistence.file self = DatabaseManager.Available rows alerts ->
      (Persistence.write_locked self = true ->
       Persistence.save_sentiment_data self data = (inl Persistence.OperationalError, self)) /\
      (Persistence.write_locked self = false -> unscored ->
       Persistence.save_sentiment_data self data
       = (inl Persistence.IntegrityError,
          {| Persistence.file := DatabaseManager.Available rows alerts;
             Persistence.write_locked := true |})) /\
      (Persistence.write_locked self = false -> ~ unscored ->
       exists new_rows,
         List.length new_rows = List.length data /\
         Persistence.save_sentiment_data self data
         = (inr tt,
            {| Persistence.file := DatabaseManager.Available (rows ++ new_rows) alerts;
               Persistence.write_locked := false |})))).
Proof.
  cbn zeta. split; [reflexivity |]. intros Hdata.
  unfold Persistence.save_sentiment_data.
  destruct data as [|item rest] eqn:Edata; [congruence |]. rewrite <- Edata. clear Hdata.
  split.
  - intros ->. reflexivity.
  - intros rows alerts Hfile. rewrite Hfile. split; [| split].
    + intros ->. reflexivity.
    + intros -> Hbad.
      destruct (collect_rows data) as [[_ ->] | [Hgood _]]; [reflexivity |].
      destruct Hbad as (bad & Hin & Hnan). destruct (Hgood bad Hin). tauto.
    + intros -> Hclean.
      destruct (collect_rows data) as [[Hbad _] | [_ (new_rows & Hrows)]]; [contradiction |].
      rewrite Hrows. exists new_rows. split; [| reflexivity].
      apply collect_ok in Hrows. clear - Hrows.
      induction Hrows; cbn [List.length]; congruence.
Qed.

Lemma save_failure_modes_witness :
  Persistence.save_sentiment_data
    {| Persistence.file := DatabaseManager.Available Samples.table [];
       Persistence.write_locked := false |} Samples.unscored_batch
  = (inl Persistence.IntegrityError,
     {| Persistence.file := DatabaseManager.Available Samples.table [];
        Persistence.write_locked := true |}).
Proof.
  destruct (save_failure_modes
              {| Persistence.file := DatabaseManager.Available Samples.table [];
                 Persistence.write_locked := false |} Samples.unscored_batch)
    as (_ & Hfull).
  destruct (Hfull ltac:(discriminate)) as (_ & Hopen).
  destruct (Hopen Samples.table [] eq_refl) as (_ & Hbad & _).
  apply Hbad; [reflexivity |].
  exists (Samples.report "news" "Yaba" "traffic" "gridlock at Yaba"
            S754_nan S754_nan (dec 9 1) 170%Z).
  split; [right; left; reflexivity | left; reflexivity].
Defined.

Lemma get_active_alerts_In (rows : list DatabaseManager.sentiment_row)
      (alerts : list DatabaseManager.alert_row) (now : datetime) (row : DatabaseManager.alert_row) :
  In row (DatabaseManager.get_active_alerts (DatabaseManager.Available rows alerts) now) <->
  (datetime_min <= now - 86400 <= datetime_max)%Z /\
  In row alerts /\
  (now - 86400 < DatabaseManager.alert_timestamp row)%Z /\
  DatabaseManager.alert_resolved row = false.
Proof.
  unfold DatabaseManager.get_active_alerts.
  cbn [DatabaseManager.select_alerts Py.bind Py.ret].
  destruct (hours_before_cases now 24) as [[Hrange ->] | [Hrange ->]];
    cbn [Py.bind Py.ret Py.raise Py.try_except];
    replace (now - 3600 * 24)%Z with (now - 86400)%Z in * by lia; [| cbn [In]; tauto].
  split.
  - intros Hin. apply (Permutation_in _ (order_by_perm _ _)) in Hin.
    apply List.filter_In in Hin as [Hin Hcond].
    apply andb_true_iff in Hcond as [Hts Hres].
    apply Z.ltb_lt in Hts. apply negb_true_iff in Hres. auto.
  - intros (_ & Hin & Hts & Hres).
    apply (Permutation_in _ (Permutation_sym (order_by_perm _ _))).
    apply List.filter_In. split; [exact Hin |].
    apply andb_true_iff. split; [apply Z.ltb_lt; exact Hts | apply negb_true_iff; exact Hres].
Qed.

(** X22. [get_active_alerts] returns exactly the alerts of the store that
    are unresolved and whose timestamp is later than 24 hours before the
    clock, the newest first, provided that instant is a date Python can
    represent, and none otherwise; it returns none when the store is
    unavailable. *)
Theorem active_alerts_are_recent_and_unresolved
  (rows : list DatabaseManager.sentiment_row) (alerts : list DatabaseManager.alert_row)
  (now : datetime) :
  let active := DatabaseManager.get_active_alerts (DatabaseManager.Available rows alerts) now in
  (forall row, In row active <->
     (datetime_min <= now - 86400 <= datetime_max)%Z /\
     In row alerts /\
     (now - 86400 < DatabaseManager.alert_timestamp row)%Z /\
     DatabaseManager.alert_resolved row = false) /\
  (forall l1 a1 a2 l2, active = (l1 ++ a1 :: a2 :: l2)%list ->
     (DatabaseManager.alert_timestamp a2 <= DatabaseManager.alert_timestamp a1)%Z) /\
  DatabaseManager.get_active_alerts DatabaseManager.Unavailable now = [].
Proof.
  cbn zeta. split; [| split; [| reflexivity]].
  - intros row. apply get_active_alerts_In.
  - intros l1 a1 a2 l2 Hactive.
    unfold DatabaseManager.get_active_alerts in Hactive.
    cbn [DatabaseManager.select_alerts Py.bind Py.ret] in Hactive.
    destruct (DatabaseManager.hours_before now 24) as [e|since];
      cbn [Py.bind Py.ret Py.try_except] in Hactive;
      [destruct l1; discriminate Hactive |].
    match type of Hactive with
    | DatabaseManager.order_by ?le ?l = _ =>
        pose proof (order_by_Sorted le
                      (fun a b (Hab : le a b = false) =>
                         proj2 (Z.leb_le _ _)
                               (Z.lt_le_incl _ _ (proj1 (Z.leb_gt _ _) Hab))) l) as Hsorted
    end.
    rewrite Hactive in Hsorted. apply Sorted_adjacent in Hsorted.
    apply Z.leb_le in Hsorted. exact Hsorted.
Qed.

Lemma active_alerts_are_recent_and_unresolved_witness :
  In (Persistence.alert_row_of
        {| SecurityAlert.area := "Ikeja";
           SecurityAlert.message := "Crime-related concerns significantly elevated in Ikeja (3 reports)";
           SecurityAlert.severity := "high";
           SecurityAlert.confidence := dec 7 1;
           SecurityAlert.alert_type := "crime";
           SecurityAlert.timestamp := 100%Z;
           SecurityAlert.resolved := false |})
     (DatabaseManager.get_active_alerts
        (DatabaseManager.Available []
           [Persistence.alert_row_of
              {| SecurityAlert.area := "Ikeja";
                 SecurityAlert.message := "Crime-related concerns significantly elevated in Ikeja (3 reports)";
                 SecurityAlert.severity := "high";
                 SecurityAlert.confidence := dec 7 1;
                 SecurityAlert.alert_type := "crime";
                 SecurityAlert.timestamp := 100%Z;
                 SecurityAlert.resolved := false |}]) 5000%Z).
Proof.
  destruct (active_alerts_are_recent_and_unresolved []
              [Persistence.alert_row_of
                 {| SecurityAlert.area := "Ikeja";
                    SecurityAlert.message := "Crime-related concerns significantly elevated in Ikeja (3 reports)";
                    SecurityAlert.severity := "high";
                    SecurityAlert.confidence := dec 7 1;
                    SecurityAlert.alert_type := "crime";
                    SecurityAlert.timestamp := 100%Z;
                    SecurityAlert.resolved := false |}] 5000%Z) as [Hactive _].
  apply Hactive. split; [vm_compute; split; discriminate |].
  split; [left; reflexivity |]. split; [reflexivity | reflexivity].
Defined.

Lemma occurrences_filter_other (v w : string) (values : list string) :
  v <> w ->
  Pandas.occurrences v (List.filter (fun x => negb (String.eqb x w)) values)
  = Pandas.occurrences v values.
Proof.
  intros Hne. unfold Pandas.occurrences. induction values as [|x rest IH]; [reflexivity |].
  cbn [List.filter]. destruct (String.eqb_spec x w) as [-> | Hxw]; cbn [negb List.filter].
  - destruct (String.eqb_spec v w); [contradiction | exact IH].
  - destruct (String.eqb v x); cbn [List.length]; [f_equal |]; exact IH.
Qed.

Lemma occurrences_length_split (w : string) (values : list string) :
  List.length values
  = (Pandas.occurrences w values
     + List.length (List.filter (fun x => negb (String.eqb x w)) values))%nat.
Proof.
  unfold Pandas.occurrences. induction values as [|x rest IH]; [reflexivity |].
  cbn [List.filter List.length].
  destruct (String.eqb_spec w x) as [<- | Hne].
  - rewrite String.eqb_refl. cbn [negb List.length]. lia.
  - destruct (String.eqb_spec x w) as [-> | _]; [contradiction |]. cbn [negb List.length]. lia.
Qed.

Lemma filter_twice {A : Type} (p q : A -> bool) (l : list A) :
  List.filter p (List.filter q l) = List.filter (fun y => q y && p y) l.
Proof.
  induction l as [|x rest IH]; [reflexivity |]. cbn [List.filter].
  destruct (q x); cbn [andb List.filter]; [destruct (p x); [f_equal |] |]; exact IH.
Qed.

Lemma unique_filter_commute (p : string -> bool) (values : list string) :
  Pandas.unique (List.filter p values) = List.filter p (Pandas.unique values).
Proof.
  induction values as [|x rest IH]; [reflexivity |].
  cbn [List.filter Pandas.unique]. destruct (p x) eqn:Hpx.
  - cbn [Pandas.unique]. f_equal. rewrite IH, !filter_twice.
    apply List.filter_ext. intros y. apply andb_comm.
  - rewrite IH, filter_twice. apply List.filter_ext. intros y.
    destruct (String.eqb_spec y x) as [-> | _]; [rewrite Hpx; reflexivity | reflexivity].
Qed.

Lemma occurrences_sum (values : list string) :
  list_sum (map (fun v => Pandas.occurrences v values) (Pandas.unique values))
  = List.length values.
Proof.
  remember (List.length values) as n eqn:Hn.
  revert values Hn. induction n as [n IH] using lt_wf_ind. intros values Hn.
  destruct values as [|v rest]; [subst n; reflexivity |].
  cbn [Pandas.unique map list_sum].
  set (others := List.filter (fun x => negb (String.eqb x v)) rest).
  assert (Hunique : List.filter (fun w => negb (String.eqb w v)) (Pandas.unique rest)
                    = Pandas.unique others)
    by (symmetry; apply unique_filter_commute).
  rewrite Hunique.
  assert (Hmap : map (fun w => Pandas.occurrences w (v :: rest)) (Pandas.unique others)
                 = map (fun w => Pandas.occurrences w others) (Pandas.unique others)).
  { apply List.map_ext_in. intros w Hw. apply (proj1 (unique_In _ _)) in Hw.
    apply List.filter_In in Hw as [_ Hne]. apply negb_true_iff in Hne.
    apply String.eqb_neq in Hne.
    unfold others. rewrite (occurrences_filter_other w v rest Hne).
    unfold Pandas.occurrences. cbn [List.filter].
    destruct (String.eqb_spec w v); [contradiction | reflexivity]. }
  rewrite Hmap.
  pose proof (occurrences_length_split v (v :: rest)) as Hsplit.
  cbn [List.filter] in Hsplit. rewrite String.eqb_refl in Hsplit. cbn [negb] in Hsplit.
  fold others in Hsplit.
  assert (Hcons : forall a l, list_sum (a :: l) = (a + list_sum l)%nat) by reflexivity.
  rewrite Hcons.
  rewrite (IH (List.length others)); [subst n; lia | | reflexivity].
  subst n. cbn [List.length]. unfold others.
  pose proof (List.filter_length_le (fun x => negb (String.eqb x v)) rest). lia.
Qed.

Lemma list_sum_permutation (l l' : list nat) : Permutation l l' -> list_sum l = list_sum l'.
Proof.
  induction 1 as [| x l l' _ IH | x y l | l l' l'' _ IH1 _ IH2]; cbn [list_sum fold_right] in *;
    [reflexivity | fold (list_sum l); fold (list_sum l'); rewrite IH; reflexivity
     | lia | congruence].
Qed.

Lemma group_length_occurrences (source : string) (rows : list DatabaseManager.sentiment_row) :
  List.length (SourceBreakdown.source_group source rows)
  = Pandas.occurrences source (map DatabaseManager.source rows).
Proof.
  unfold SourceBreakdown.source_group, Pandas.occurrences.
  induction rows as [|r rest IH]; [reflexivity |]. cbn [List.filter map].
  rewrite (String.eqb_sym (DatabaseManager.source r) source).
  destruct (String.eqb source (DatabaseManager.source r)); cbn [List.length]; [f_equal |];
    exact IH.
Qed.

Section SourceQuery.
Variable sql_avg : list spec_float -> spec_float.
Variable py_round : spec_float -> Z -> spec_float.
Variable rows : list DatabaseManager.sentiment_row.
Variable since : datetime.

Let window := List.filter (fun r => (since <? DatabaseManager.timestamp r)%Z) rows.
Let query := SourceBreakdown.source_query sql_avg rows since.

Lemma source_query_perm :
  Permutation query
    (map (fun source => SourceBreakdown.source_aggregate sql_avg source
                          (SourceBreakdown.source_group source window))
         (Pandas.unique (map DatabaseManager.source window))).
Proof. unfold query, SourceBreakdown.source_query. apply order_by_perm. Qed.

Lemma source_query_total :
  list_sum (map SourceBreakdown.row_count query) = List.length window.
Proof.
  rewrite (list_sum_permutation _ _ (Permutation_map _ source_query_perm)).
  rewrite List.map_map. cbn [SourceBreakdown.row_count SourceBreakdown.source_aggregate].
  rewrite (List.map_ext _ (fun source => Pandas.occurrences source
                                           (map DatabaseManager.source window))).
  - rewrite occurrences_sum. apply List.length_map.
  - intros source. apply group_length_occurrences.
Qed.

Lemma source_query_row (row : SourceBreakdown.source_row) :
  In row query ->
  In (SourceBreakdown.row_source row) (map DatabaseManager.source window) /\
  SourceBreakdown.row_count row
    = List.length (SourceBreakdown.source_group (SourceBreakdown.row_source row) window) /\
  (0 < SourceBreakdown.row_count row)%nat.
Proof.
  intros Hrow. apply (Permutation_in _ source_query_perm) in Hrow.
  apply List.in_map_iff in Hrow as (source & <- & Hsource).
  apply (proj1 (unique_In _ _)) in Hsource.
  cbn [SourceBreakdown.row_source SourceBreakdown.row_count SourceBreakdown.source_aggregate].
  split; [exact Hsource |]. split; [reflexivity |].
  apply List.in_map_iff in Hsource as (r & Hr & Hin).
  assert (Hmember : In r (SourceBreakdown.source_group source window)).
  { apply List.filter_In. split; [exact Hin |]. rewrite Hr. apply String.eqb_refl. }
  destruct (SourceBreakdown.source_group source window); [destruct Hmember | cbn; lia].
Qed.

Lemma source_query_Sorted :
  Sorted (fun r1 r2 => (SourceBreakdown.row_count r2 <=? SourceBreakdown.row_count r1)%nat = true)
         query.
Proof.
  unfold query, SourceBreakdown.source_query.
  apply (order_by_Sorted
           (fun r1 r2 => (SourceBreakdown.row_count r2 <=? SourceBreakdown.row_count r1)%nat)).
  intros a b Hab. apply Nat.leb_gt in Hab. apply Nat.leb_le. lia.
Qed.

End SourceQuery.

Lemma total_of_list_sum (results : list SourceBreakdown.source_entry) :
  SourceBreakdown.total_of results = list_sum (map SourceBreakdown.count results).
Proof.
  unfold SourceBreakdown.total_of.
  assert (Hgen : forall (l : list SourceBreakdown.source_entry) (acc : nat),
            fold_left (fun total_count item => (total_count + SourceBreakdown.count item)%nat)
                      l acc
            = (acc + list_sum (map SourceBreakdown.count l))%nat).
  { induction l as [|e rest IH]; intros acc; cbn [fold_left map].
    - cbn. lia.
    - rewrite IH. cbn [list_sum fold_right]. fold (list_sum (map SourceBreakdown.count rest)).
      lia. }
  apply (Hgen results 0%nat).
Qed.

Lemma source_entry_of_ok (py_round : spec_float -> Z -> spec_float)
      (row : SourceBreakdown.source_row) (e : SourceBreakdown.source_entry) :
  SourceBreakdown.source_entry_of py_round row = inr e ->
  SourceBreakdown.name e = SourceBreakdown.title (SourceBreakdown.row_source row) /\
  SourceBreakdown.count e = SourceBreakdown.row_count row.
Proof.
  unfold SourceBreakdown.source_entry_of, DatabaseManager.round3.
  destruct (SourceBreakdown.row_avg_sentiment row); cbn; [| discriminate].
  destruct (SourceBreakdown.row_avg_raw_sentiment row); cbn; [| discriminate].
  intros [= <-]. split; reflexivity.
Qed.

(** X23. The window of [get_source_breakdown] starts [hours] hours before
    the clock.  On a readable store, when entries are returned their
    counts add up to the number of records in the window; every
    entry stands for a source of the window, is named by its title-cased
    name, counts the window records of that source (at least one) and
    carries as percentage the rounded share of that count in the window;
    and consecutive entries are in descending order of count. *)
Theorem source_breakdown_accounts_for_window
  (sql_avg : list spec_float -> spec_float) (py_round : spec_float -> Z -> spec_float)
  (rows : list DatabaseManager.sentiment_row) (alerts : list DatabaseManager.alert_row)
  (now : datetime) (hours : Z) :
  let since := (now - 3600 * hours)%Z in
  let window := List.filter (fun r => (since <? DatabaseManager.timestamp r)%Z) rows in
  let out := SourceBreakdown.get_source_breakdown sql_avg py_round
               (DatabaseManager.Available rows alerts) now hours in
  (out <> [] -> list_sum (map SourceBreakdown.count out) = List.length window) /\
  (forall e, In e out ->
     (0 < SourceBreakdown.count e)%nat /\
     SourceBreakdown.percentage e
       = Some (py_round (PyInt.int_div (SourceBreakdown.count e) (List.length window)
                           .* b64_of_Z 100) 1%Z) /\
     exists source,
       In source (map DatabaseManager.source window) /\
       SourceBreakdown.name e = SourceBreakdown.title source /\
       SourceBreakdown.count e = List.length (SourceBreakdown.source_group source window)) /\
  (forall l1 e1 e2 l2, out = (l1 ++ e1 :: e2 :: l2)%list ->
     (SourceBreakdown.count e2 <= SourceBreakdown.count e1)%nat).
Proof.
  cbn zeta. unfold SourceBreakdown.get_source_breakdown.
  cbn [DatabaseManager.select_sentiment_data Py.bind Py.ret].
  destruct (hours_before_cases now hours) as [[_ ->] | [_ ->]];
    cbn [Py.bind Py.ret Py.raise Py.try_except].
  2:{ split; [congruence |]. split; [intros e [] |].
      intros [|? ?] ? ? ? Habs; discriminate Habs. }
  set (since := (now - 3600 * hours)%Z).
  set (window := List.filter (fun r => (since <? DatabaseManager.timestamp r)%Z) rows).
  set (query := SourceBreakdown.source_query sql_avg rows since).
  destruct (Py.sequence (map (SourceBreakdown.source_entry_of py_round) query))
    as [err|results] eqn:Hseq; cbn [Py.bind Py.ret Py.try_except].
  { split; [congruence |]. split; [intros e [] |].
    intros [|? ?] ? ? ? Habs; discriminate Habs. }
  apply sequence_ok in Hseq.
  assert (Hcounts : map SourceBreakdown.count results = map SourceBreakdown.row_count query).
  { apply (Forall2_map_eq (fun row e => SourceBreakdown.source_entry_of py_round row = inr e)).
    - intros row e Hentry. apply (source_entry_of_ok py_round row e Hentry).
    - exact Hseq. }
  assert (Htotal : SourceBreakdown.total_of results = List.length window).
  { rewrite total_of_list_sum, Hcounts. apply source_query_total. }
  rewrite Htotal.
  assert (Hout : map SourceBreakdown.count
                     (map (SourceBreakdown.with_percentage py_round (List.length window)) results)
                 = map SourceBreakdown.count results).
  { rewrite List.map_map. apply List.map_ext. intros e. reflexivity. }
  split; [| split].
  - intros _. rewrite Hout, Hcounts. apply source_query_total.
  - intros e He. apply List.in_map_iff in He as (e0 & <- & He0).
    destruct (Forall2_In_r _ _ _ _ Hseq He0) as (row & Hrow & Hentry).
    destruct (source_entry_of_ok py_round row e0 Hentry) as [Hname Hcount].
    destruct (source_query_row sql_avg rows since row Hrow) as (Hsource & Hlen & Hpos).
    cbn [SourceBreakdown.with_percentage SourceBreakdown.count SourceBreakdown.percentage
         SourceBreakdown.name].
    split; [rewrite Hcount; exact Hpos |]. split.
    + assert (Hwindow : (0 < List.length window)%nat).
      { apply List.in_map_iff in Hsource as (r & _ & Hr).
        fold window in Hr. destruct window; [destruct Hr | cbn; lia]. }
      apply Nat.ltb_lt in Hwindow. fold window. rewrite Hwindow. reflexivity.
    + exists (SourceBreakdown.row_source row). fold window in Hsource, Hlen.
      split; [exact Hsource |]. split; [exact Hname | rewrite Hcount; exact Hlen].
  - intros l1 e1 e2 l2 Hsplit.
    assert (Hmap : map SourceBreakdown.row_count query
                   = (map SourceBreakdown.count l1 ++ SourceBreakdown.count e1
                        :: SourceBreakdown.count e2 :: map SourceBreakdown.count l2)%list).
    { rewrite <- Hcounts, <- Hout, Hsplit, List.map_app. reflexivity. }
    pose proof (source_query_Sorted sql_avg rows since) as Hsorted. fold query in Hsorted.
    clear - Hmap Hsorted. revert l1 Hmap.
    induction Hsorted as [|row q Hq IH Hhd]; intros l1 Hmap.
    + destruct l1; discriminate Hmap.
    + destruct l1 as [|e l1]; cbn [map app] in Hmap.
      * injection Hmap as H1 Hrest. destruct q as [|row2 q']; [discriminate Hrest |].
        cbn [map] in Hrest. injection Hrest as H2 _.
        inversion Hhd as [|? ? Hle]; subst. apply Nat.leb_le in Hle. lia.
      * injection Hmap as _ Hrest. apply (IH l1). exact Hrest.
Qed.

Lemma source_breakdown_accounts_for_window_witness :
  let out := SourceBreakdown.get_source_breakdown AlertGenerator.sequential_mean
               Samples.round_decimal (DatabaseManager.Available Samples.table []) 200%Z 1%Z in
  map SourceBreakdown.name out = ["News"; "Twitter"; "Government"] /\
  list_sum (map SourceBreakdown.count out) = 6%nat.
Proof.
  cbn zeta.
  pose proof (source_breakdown_accounts_for_window AlertGenerator.sequential_mean
                Samples.round_decimal Samples.table [] 200%Z 1%Z) as Haccounts.
  cbn zeta in Haccounts. destruct Haccounts as (Htotal & _ & _).
  remember (SourceBreakdown.get_source_breakdown AlertGenerator.sequential_mean
              Samples.round_decimal (DatabaseManager.Available Samples.table []) 200%Z 1%Z)
    as out eqn:Hout.
  assert (Hnames : map SourceBreakdown.name out = ["News"; "Twitter"; "Government"])
    by (rewrite Hout; vm_compute; reflexivity).
  split; [exact Hnames |].
  rewrite Htotal; [reflexivity |]. intros ->. discriminate Hnames.
Defined.

(** ** The overall status beyond the empty window *)

Lemma newest_first_total (r1 r2 : DatabaseManager.sentiment_row) :
  (DatabaseManager.timestamp r2 <=? DatabaseManager.timestamp r1)%Z = false ->
  (DatabaseManager.timestamp r1 <=? DatabaseManager.timestamp r2)%Z = true.
Proof. intros Hle. apply Z.leb_gt in Hle. apply Z.leb_le. lia. Qed.

Lemma newest_first_head (l : list DatabaseManager.sentiment_row)
      (first : DatabaseManager.sentiment_row) (rest : list DatabaseManager.sentiment_row) :
  DatabaseManager.order_by
    (fun r1 r2 => (DatabaseManager.timestamp r2 <=? DatabaseManager.timestamp r1)%Z) l
  = first :: rest ->
  In first l /\
  forall r, In r l -> (DatabaseManager.timestamp r <= DatabaseManager.timestamp first)%Z.
Proof.
  intros Hsorted.
  pose proof (order_by_perm
                (fun r1 r2 => (DatabaseManager.timestamp r2 <=? DatabaseManager.timestamp r1)%Z) l)
    as Hperm.
  pose proof (order_by_Sorted
                (fun r1 r2 => (DatabaseManager.timestamp r2 <=? DatabaseManager.timestamp r1)%Z)
                newest_first_total l) as Hs.
  rewrite Hsorted in Hperm, Hs.
  apply Sorted_StronglySorted in Hs.
  - split.
    + apply (Permutation_in _ Hperm). left. reflexivity.
    + intros r Hr. apply (Permutation_in _ (Permutation_sym Hperm)) in Hr.
      destruct Hr as [<- | Hr]; [lia |].
      apply StronglySorted_inv in Hs as [_ Hall].
      rewrite List.Forall_forall in Hall. specialize (Hall r Hr).
      apply Z.leb_le in Hall. exact Hall.
  - intros a b c Hab Hbc. apply Z.leb_le in Hab, Hbc. apply Z.leb_le. lia.
Qed.

Lemma sequence_error {A B : Type} (f : A -> Py.result B) (l : list A) (e : Py.exn) :
  (exists a, In a l /\ f a = inl e) ->
  (forall a e', In a l -> f a = inl e' -> e' = e) ->
  Py.sequence (map f l) = inl e.
Proof.
  induction l as [|a rest IH]; intros (bad & Hin & Hbad) Hall; [destruct Hin |].
  cbn [map Py.sequence]. destruct (f a) as [e'|b] eqn:Hf.
  - cbn. f_equal. apply (Hall a e'); [left; reflexivity | exact Hf].
  - cbn. destruct Hin as [<- | Hin]; [congruence |].
    rewrite IH; [reflexivity | exists bad; auto |].
    intros a' e' Ha'. apply Hall. right. exact Ha'.
Qed.

(** X24. On a readable store whose 24-hour window holds records, all with
    a confidence, [get_current_status] reports the state "healthy" and no
    error; [total_sources] is the number of records in the window,
    [active_alerts] the number of unresolved alerts of the last 24 hours,
    and [last_update] the latest timestamp in the window.  The window
    starts 24 hours before the clock, an instant that has to be a date
    Python can represent. *)
Theorem healthy_status_counts
  (py_sum : list spec_float -> spec_float) (py_round : spec_float -> Z -> spec_float)
  (rows : list DatabaseManager.sentiment_row) (alerts : list DatabaseManager.alert_row)
  (now : datetime) :
  let since := (now - 86400)%Z in
  let window := List.filter (fun r => (since <? DatabaseManager.timestamp r)%Z) rows in
  let st := SentimentAnalyzer.get_current_status py_sum py_round
              (DatabaseManager.Available rows alerts) now in
  (datetime_min <= since <= datetime_max)%Z ->
  window <> [] ->
  (forall r, In r window -> DatabaseManager.confidence r <> None) ->
  SentimentAnalyzer.status st = "healthy" /\
  SentimentAnalyzer.error st = None /\
  SentimentAnalyzer.total_sources st = List.length window /\
  SentimentAnalyzer.active_alerts st
    = List.length (List.filter (fun a => (since <? DatabaseManager.alert_timestamp a)%Z &&
                                         negb (DatabaseManager.alert_resolved a)) alerts) /\
  exists newest,
    In newest window /\
    SentimentAnalyzer.last_update st = Some (DatabaseManager.timestamp newest) /\
    forall r, In r window ->
      (DatabaseManager.timestamp r <= DatabaseManager.timestamp newest)%Z.
Proof.
  cbn zeta. intros Hrange Hwindow Hrated.
  unfold SentimentAnalyzer.get_current_status. cbn zeta.
  unfold DatabaseManager.get_recent_sentiment, DatabaseManager.get_active_alerts.
  cbn [DatabaseManager.select_sentiment_data DatabaseManager.select_alerts Py.bind Py.ret].
  destruct (hours_before_cases now 24) as [[_ ->] | [Habs _]]; [| exfalso; apply Habs; lia].
  cbn [Py.bind Py.ret Py.try_except].
  replace (now - 3600 * 24)%Z with (now - 86400)%Z by lia.
  set (since := (now - 86400)%Z) in *.
  set (window := List.filter (fun r => (since <? DatabaseManager.timestamp r)%Z) rows) in *.
  set (le := fun r1 r2 : DatabaseManager.sentiment_row =>
               (DatabaseManager.timestamp r2 <=? DatabaseManager.timestamp r1)%Z).
  pose proof (order_by_perm le window) as Hperm.
  destruct (DatabaseManager.order_by le window) as [|first rest] eqn:Hrecent.
  { apply Permutation_nil in Hperm. congruence. }
  destruct (newest_first_head window first rest Hrecent) as [Hfirst Hmax].
  assert (Hsum : exists total,
            SentimentAnalyzer.sum_nullable py_sum
              (map DatabaseManager.confidence (first :: rest)) = inr total).
  { unfold SentimentAnalyzer.sum_nullable.
    destruct (sequence_all_ok
                (fun v : option spec_float =>
                   match v with
                   | Some x => Py.ret x
                   | None => Py.raise Py.TypeError
                   end)
                (map DatabaseManager.confidence (first :: rest))) as [xs Hxs].
    - intros v Hv. apply List.in_map_iff in Hv as (r & <- & Hr).
      apply (Permutation_in _ Hperm) in Hr.
      destruct (DatabaseManager.confidence r) as [x|] eqn:Hc;
        [eexists; reflexivity | exfalso; apply (Hrated r Hr); exact Hc].
    - rewrite Hxs. eexists. reflexivity. }
  destruct Hsum as [total Hsum]. rewrite Hsum.
  cbn [Py.bind Py.ret Py.try_except SentimentAnalyzer.status SentimentAnalyzer.error
       SentimentAnalyzer.total_sources SentimentAnalyzer.active_alerts
       SentimentAnalyzer.last_update].
  split; [reflexivity |]. split; [reflexivity |].
  split; [apply (Permutation_length Hperm) |].
  split; [apply Permutation_length; apply order_by_perm |].
  exists first. auto.
Qed.

Lemma healthy_status_counts_witness :
  let st := SentimentAnalyzer.get_current_status (fun l => fold_left fadd l (dec 0 0))
              Samples.round_decimal (DatabaseManager.Available Samples.table []) 200%Z in
  SentimentAnalyzer.status st = "healthy" /\
  SentimentAnalyzer.total_sources st = 6%nat.
Proof.
  cbn zeta.
  destruct (healthy_status_counts (fun l => fold_left fadd l (dec 0 0)) Samples.round_decimal
              Samples.table [] 200%Z) as (Hstatus & _ & Htotal & _).
  - vm_compute. split; discriminate.
  - vm_compute. discriminate.
  - intros r Hr. apply List.filter_In in Hr as [Hr _].
    unfold Samples.table, Samples.batch in Hr. cbn [map In] in Hr.
    repeat destruct Hr as [<- | Hr]; try (vm_compute; discriminate). destruct Hr.
  - split; [exact Hstatus | rewrite Htotal; reflexivity].
Defined.

(** X25. One record without confidence hides the window: when the
    24-hour window, which starts at a date Python can represent, holds a
    record whose confidence is [NULL],
    [get_current_status] returns the dictionary of the state "error",
    with the [TypeError] of the sum and all figures at zero, whatever the
    other records are. *)
Theorem unrated_record_gives_error
  (py_sum : list spec_float -> spec_float) (py_round : spec_float -> Z -> spec_float)
  (rows : list DatabaseManager.sentiment_row) (alerts : list DatabaseManager.alert_row)
  (now : datetime) (unrated : DatabaseManager.sentiment_row) :
  (datetime_min <= now - 86400 <= datetime_max)%Z ->
  In unrated rows ->
  (now - 86400 < DatabaseManager.timestamp unrated)%Z ->
  DatabaseManager.confidence unrated = None ->
  SentimentAnalyzer.get_current_status py_sum py_round
    (DatabaseManager.Available rows alerts) now
  = {| SentimentAnalyzer.overall_sentiment := dec 0 1;
       SentimentAnalyzer.raw_sentiment := dec 0 1;
       SentimentAnalyzer.confidence := dec 0 1;
       SentimentAnalyzer.total_sources := 0;
       SentimentAnalyzer.active_alerts := 0;
       SentimentAnalyzer.last_update := None;
       SentimentAnalyzer.status := "error";
       SentimentAnalyzer.error := Some Py.TypeError |}.
Proof.
  intros Hrange Hin Hts Hnull.
  assert (Hrecent : In unrated (DatabaseManager.get_recent_sentiment
                                  (DatabaseManager.Available rows alerts) now 24))
    by (apply get_recent_sentiment_In; replace (now - 3600 * 24)%Z with (now - 86400)%Z by lia;
        auto).
  unfold SentimentAnalyzer.get_current_status. cbn zeta.
  destruct (DatabaseManager.get_recent_sentiment _ now 24) as [|first rest] eqn:Hr;
    [destruct Hrecent |].
  assert (Hsum : SentimentAnalyzer.sum_nullable py_sum
                   (map DatabaseManager.confidence (first :: rest)) = inl Py.TypeError).
  { unfold SentimentAnalyzer.sum_nullable.
    rewrite (sequence_error _ _ Py.TypeError); [reflexivity | |].
    - exists None. split; [| reflexivity].
      apply List.in_map_iff. exists unrated. auto.
    - intros [x|] e' _ Heq; unfold Py.ret, Py.raise in Heq;
        [discriminate Heq | injection Heq as <-; reflexivity]. }
  rewrite Hsum. reflexivity.
Qed.

Lemma unrated_record_gives_error_witness :
  SentimentAnalyzer.status
    (SentimentAnalyzer.get_current_status (fun l => fold_left fadd l (dec 0 0))
       Samples.round_decimal
       (DatabaseManager.Available (Samples.table ++ [Samples.unrated_row]) []) 200%Z)
  = "error".
Proof.
  rewrite (unrated_record_gives_error (fun l => fold_left fadd l (dec 0 0))
             Samples.round_decimal (Samples.table ++ [Samples.unrated_row]) [] 200%Z
             Samples.unrated_row).
  - reflexivity.
  - vm_compute. split; discriminate.
  - apply List.in_or_app. right. left. reflexivity.
  - vm_compute. reflexivity.
  - reflexivity.
Defined.

(** ** The analysis cycle *)

Lemma sources_step (acc : gmap string nat) (source s : string) :
  let breakdown :=
    if decide (acc !! source = None) then <[source := 0%nat]> acc else acc in
  default 0%nat ((<[source := (default 0%nat (breakdown !! source) + 1)%nat]> breakdown) !! s)
  = (default 0%nat (acc !! s) + (if String.eqb s source then 1 else 0))%nat /\
  ((<[source := (default 0%nat (breakdown !! source) + 1)%nat]> breakdown) !! s = None <->
   acc !! s = None /\ s <> source).
Proof.
  cbn zeta. destruct (String.eqb_spec s source) as [-> | Hne].
  - rewrite lookup_insert_eq. cbn [default]. split.
    + destruct (decide (acc !! source = None)) as [Hnone | Hsome].
      * rewrite lookup_insert_eq, Hnone. reflexivity.
      * reflexivity.
    + split; [discriminate | intros [_ Habs]; congruence].
  - rewrite lookup_insert_ne by congruence.
    destruct (decide (acc !! source = None)) as [Hnone | Hsome].
    + rewrite lookup_insert_ne by congruence. split; [lia | tauto].
    + split; [lia | tauto].
Qed.

(** X26. [_get_sources_breakdown] maps every source of the batch to the
    number of records that carry it, and holds no other key. *)
Theorem sources_breakdown_counts {F : Type} (data : list (SentimentData.t F)) (s : string) :
  AnalysisCycle._get_sources_breakdown data !! s
  = match Pandas.occurrences s (map SentimentData.source data) with
    | O => None
    | n => Some n
    end.
Proof.
  unfold AnalysisCycle._get_sources_breakdown.
  set (step := fun (breakdown : gmap string nat) (item : SentimentData.t F) => _).
  assert (Hgen : forall (l : list (SentimentData.t F)) (acc : gmap string nat),
            default 0%nat (fold_left step l acc !! s)
              = (default 0%nat (acc !! s) + Pandas.occurrences s (map SentimentData.source l))%nat /\
            (fold_left step l acc !! s = None <->
             acc !! s = None /\ Pandas.occurrences s (map SentimentData.source l) = 0%nat)).
  { induction l as [|item rest IH]; intros acc; cbn [fold_left map].
    - unfold Pandas.occurrences. cbn. split; [lia | tauto].
    - destruct (IH (step acc item)) as [Hcount Hnone].
      destruct (sources_step acc (SentimentData.source item) s) as [Hc Hn].
      cbn zeta in Hc, Hn. fold (step acc item) in Hc, Hn.
      unfold Pandas.occurrences in *. cbn [List.filter].
      destruct (String.eqb_spec s (SentimentData.source item)) as [Heq | Hne];
        cbn [List.length].
      + split; [rewrite Hcount, Hc; lia |].
        rewrite Hnone, Hn. split; [intros [[_ Habs] _]; contradiction | intros [_ Habs]; lia].
      + split; [rewrite Hcount, Hc; lia |].
        rewrite Hnone, Hn. tauto. }
  destruct (Hgen data ∅) as [Hcount Hnone]. rewrite lookup_empty in Hcount, Hnone.
  cbn [default] in Hcount.
  destruct (Pandas.occurrences s (map SentimentData.source data)) as [|n] eqn:Hocc.
  - apply Hnone. split; reflexivity.
  - destruct (fold_left step data ∅ !! s) as [c|] eqn:Hlook.
    + cbn in Hcount. rewrite Hcount. reflexivity.
    + exfalso. destruct Hnone as [Hnone _]. destruct (Hnone eq_refl) as [_ Habs]. discriminate.
Qed.

Lemma gather_data_flat_map {E : Type} (results : list (E + list (SentimentData.t spec_float))) :
  AnalysisCycle.gather_data results
  = flat_map (fun result => match result with inl _ => [] | inr items => items end) results.
Proof.
  unfold AnalysisCycle.gather_data.
  assert (Hgen : forall (l : list (E + list (SentimentData.t spec_float))) acc,
            fold_left (fun all_data result =>
                         match result with
                         | inl _ => all_data
                         | inr items => (all_data ++ items)%list
                         end) l acc
            = (acc ++ flat_map (fun result => match result with
                                              | inl _ => []
                                              | inr items => items
                                              end) l)%list).
  { induction l as [|r rest IH]; intros acc; cbn [fold_left flat_map].
    - rewrite List.app_nil_r. reflexivity.
    - rewrite IH. destruct r as [e|items]; [reflexivity |].
      rewrite <- List.app_assoc. reflexivity. }
  apply (Hgen results []).
Qed.

(** X27. A cycle reports the state "warning" exactly when every collector
    failed or returned no record; it then returns the dictionary of that
    state, with the message 'No data collected', and leaves the database
    as it was, without attempting a write (an unavailable store goes
    unnoticed). *)
Theorem cycle_without_data {E : Type}
  (series_mean : list spec_float -> spec_float) (now : nat -> datetime) (clock : datetime)
  (alert_generator : AlertGenerator.t spec_float) (db : Persistence.database)
  (results : list (E + list (SentimentData.t spec_float))) :
  let outcome := AnalysisCycle.run_analysis_cycle series_mean now clock alert_generator db results in
  (AnalysisCycle.status (fst outcome) = "warning" <->
   forall result, In result results ->
     match result with inl _ => True | inr items => items = [] end) /\
  (AnalysisCycle.status (fst outcome) = "warning" ->
   outcome = ({| AnalysisCycle.processed_items := 0;
                 AnalysisCycle.alerts_generated := 0;
                 AnalysisCycle.timestamp := clock;
                 AnalysisCycle.status := "warning";
                 AnalysisCycle.message := Some "No data collected";
                 AnalysisCycle.error := None;
                 AnalysisCycle.sources_breakdown := None |}, db)).
Proof.
  cbn zeta.
  assert (Hempty : AnalysisCycle.gather_data results = [] <->
            forall result, In result results ->
              match result with inl _ => True | inr items => items = [] end).
  { rewrite gather_data_flat_map. clear. induction results as [|r rest IH]; cbn [flat_map].
    - split; [intros _ ? [] | reflexivity].
    - split.
      + intros Happ. apply List.app_eq_nil in Happ as [Hr Hrest].
        intros result [<- | Hin]; [destruct r; [exact I | exact Hr] | apply IH; assumption].
      + intros Hall.
        assert (Hrest : flat_map (fun result : E + list (SentimentData.t spec_float) =>
                                    match result with inl _ => [] | inr items => items end) rest
                        = []) by (apply IH; intros; apply Hall; right; assumption).
        rewrite Hrest, List.app_nil_r.
        specialize (Hall r (or_introl eq_refl)). destruct r; [reflexivity | exact Hall]. }
  assert (Hstatus : AnalysisCycle.status
                      (fst (AnalysisCycle.run_analysis_cycle series_mean now clock alert_generator
                              db results)) = "warning" ->
                    AnalysisCycle.gather_data results = []).
  { unfold AnalysisCycle.run_analysis_cycle. cbn zeta.
    destruct (AnalysisCycle.gather_data results) as [|item rest]; [reflexivity |].
    destruct (Persistence.save_sentiment_data db (item :: rest)) as [[e|done] db1];
      [cbn; discriminate |].
    destruct (match AlertGenerator.generate_alerts series_mean now alert_generator (item :: rest)
              with [] => (inr tt, db1) | _ :: _ => _ end) as [[e|done'] db2]; cbn; discriminate. }
  assert (Hrun : AnalysisCycle.gather_data results = [] ->
                 AnalysisCycle.run_analysis_cycle series_mean now clock alert_generator db results
                 = ({| AnalysisCycle.processed_items := 0;
                       AnalysisCycle.alerts_generated := 0;
                       AnalysisCycle.timestamp := clock;
                       AnalysisCycle.status := "warning";
                       AnalysisCycle.message := Some "No data collected";
                       AnalysisCycle.error := None;
                       AnalysisCycle.sources_breakdown := None |}, db)).
  { intros Hnil. unfold AnalysisCycle.run_analysis_cycle. cbn zeta. rewrite Hnil. reflexivity. }
  split.
  - rewrite <- Hempty. split; [exact Hstatus |].
    intros Hnil. rewrite (Hrun Hnil). reflexivity.
  - intros Hwarn. apply Hrun. apply Hstatus. exact Hwarn.
Qed.

Lemma cycle_without_data_witness :
  AnalysisCycle.run_analysis_cycle AlertGenerator.sequential_mean (fun n => Z.of_nat n)
    300%Z AlertGenerator.default
    {| Persistence.file := DatabaseManager.Unavailable; Persistence.write_locked := false |}
    [inl "timeout"; inr []; inl "connection refused"]
  = ({| AnalysisCycle.processed_items := 0;
        AnalysisCycle.alerts_generated := 0;
        AnalysisCycle.timestamp := 300%Z;
        AnalysisCycle.status := "warning";
        AnalysisCycle.message := Some "No data collected";
        AnalysisCycle.error := None;
        AnalysisCycle.sources_breakdown := None |},
     {| Persistence.file := DatabaseManager.Unavailable; Persistence.write_locked := false |}).
Proof.
  destruct (cycle_without_data AlertGenerator.sequential_mean (fun n => Z.of_nat n)
              300%Z AlertGenerator.default
              {| Persistence.file := DatabaseManager.Unavailable;
                 Persistence.write_locked := false |}
              [inl "timeout"; inr []; inl "connection refused"]) as [Hiff Hrun].
  apply Hrun. apply Hiff. intros result Hin. cbn [In] in Hin.
  destruct Hin as [<- | [<- | [<- | []]]]; cbn; auto.
Defined.

Lemma save_sentiment_data_available
      (rows : list DatabaseManager.sentiment_row) (alerts : list DatabaseManager.alert_row)
      (data : list (SentimentData.t spec_float)) (new_rows : list DatabaseManager.sentiment_row) :
  data <> [] ->
  Persistence.collect (map Persistence.sentiment_row_of data) = inr new_rows ->
  Persistence.save_sentiment_data
    {| Persistence.file := DatabaseManager.Available rows alerts;
       Persistence.write_locked := false |} data
  = (inr tt, {| Persistence.file := DatabaseManager.Available (rows ++ new_rows) alerts;
                Persistence.write_locked := false |}).
Proof.
  intros Hdata Hrows. unfold Persistence.save_sentiment_data.
  destruct data as [|item rest]; [congruence |].
  cbn [Persistence.file Persistence.write_locked]. rewrite Hrows. reflexivity.
Qed.

Lemma save_alerts_available
      (rows : list DatabaseManager.sentiment_row) (alerts : list DatabaseManager.alert_row)
      (generated : list (SecurityAlert.t spec_float)) :
  match generated with
  | [] => (inr tt, {| Persistence.file := DatabaseManager.Available rows alerts;
                      Persistence.write_locked := false |})
  | _ :: _ =>
      Persistence.save_alerts
        {| Persistence.file := DatabaseManager.Available rows alerts;
           Persistence.write_locked := false |} generated
  end
  = (inr tt,
     {| Persistence.file :=
          DatabaseManager.Available rows (alerts ++ map Persistence.alert_row_of generated);
        Persistence.write_locked := false |}).
Proof.
  destruct generated as [|alert others]; [| reflexivity].
  cbn [map]. rewrite List.app_nil_r. reflexivity.
Qed.

Section CycleFacts.
Context {E : Type}.
Variable series_mean : list spec_float -> spec_float.
Variable now : nat -> datetime.
Variable clock : datetime.
Variable alert_generator : AlertGenerator.t spec_float.

(** A write of the records that fails ends the cycle in the state
    'error', the database being as the writer left it. *)
Lemma cycle_of_failed_write (db db1 : Persistence.database)
      (results : list (E + list (SentimentData.t spec_float))) (e : Persistence.sqlite_error) :
  AnalysisCycle.gather_data results <> [] ->
  Persistence.save_sentiment_data db (AnalysisCycle.gather_data results) = (inl e, db1) ->
  AnalysisCycle.run_analysis_cycle series_mean now clock alert_generator db results
  = (AnalysisCycle.failed clock e, db1).
Proof.
  intros Hdata Hsave. unfold AnalysisCycle.run_analysis_cycle. cbn zeta. rewrite Hsave.
  destruct (AnalysisCycle.gather_data results); [congruence | reflexivity].
Qed.

(** A cycle on a database that is readable and not locked, whose records
    can all be inserted. *)
Lemma cycle_of_clean_batch (rows : list DatabaseManager.sentiment_row)
      (alerts : list DatabaseManager.alert_row)
      (results : list (E + list (SentimentData.t spec_float)))
      (new_rows : list DatabaseManager.sentiment_row) :
  let all_data := AnalysisCycle.gather_data results in
  let generated := AlertGenerator.generate_alerts series_mean now alert_generator all_data in
  all_data <> [] ->
  Persistence.collect (map Persistence.sentiment_row_of all_data) = inr new_rows ->
  AnalysisCycle.run_analysis_cycle series_mean now clock alert_generator
    {| Persistence.file := DatabaseManager.Available rows alerts;
       Persistence.write_locked := false |} results
  = ({| AnalysisCycle.processed_items := List.length all_data;
        AnalysisCycle.alerts_generated := List.length generated;
        AnalysisCycle.timestamp := clock;
        AnalysisCycle.status := "success";
        AnalysisCycle.message := None;
        AnalysisCycle.error := None;
        AnalysisCycle.sources_breakdown :=
          Some (AnalysisCycle._get_sources_breakdown all_data) |},
     {| Persistence.file :=
          DatabaseManager.Available (rows ++ new_rows)
            (alerts ++ map Persistence.alert_row_of generated);
        Persistence.write_locked := false |}).
Proof.
  cbn zeta. intros Hdata Hrows.
  unfold AnalysisCycle.run_analysis_cycle. cbn zeta.
  rewrite (save_sentiment_data_available rows alerts _ new_rows Hdata Hrows).
  rewrite save_alerts_available.
  destruct (AnalysisCycle.gather_data results); [congruence | reflexivity].
Qed.

End CycleFacts.

(** X28. A cycle that collected records and cannot write them returns
    the dictionary of the state "error", with the exception of the
    writer and zero counts, and commits nothing.  When the file cannot
    be opened, or while a connection left open holds the write lock, the
    exception is that of the connection and the database is as it was.
    When the database is readable and not locked and a record has a NaN
    as raw or adjusted score, the exception is that of the [NOT NULL]
    constraint and the cycle leaves the database write-locked: every
    later cycle that collects records then ends in the state "error"
    with the exception of the lock, whatever its records are, and a
    cycle whose records have their scores succeeds again only once the
    connection has been collected. *)
Theorem cycle_persistence_failure {E : Type}
  (series_mean : list spec_float -> spec_float) (now : nat -> datetime) (clock : datetime)
  (alert_generator : AlertGenerator.t spec_float) (db : Persistence.database)
  (results : list (E + list (SentimentData.t spec_float))) :
  let run := AnalysisCycle.run_analysis_cycle (E := E) series_mean now clock alert_generator in
  let error_with := fun e =>
    {| AnalysisCycle.processed_items := 0;
       AnalysisCycle.alerts_generated := 0;
       AnalysisCycle.timestamp := clock;
       AnalysisCycle.status := "error";
       AnalysisCycle.message := None;
       AnalysisCycle.error := Some e;
       AnalysisCycle.sources_breakdown := None |} in
  let scored := fun data : list (SentimentData.t spec_float) =>
    forall item, In item data ->
      SentimentData.raw_sentiment item <> S754_nan /\
      SentimentData.adjusted_sentiment item <> S754_nan in
  AnalysisCycle.gather_data results <> [] ->
  (Persistence.file db = DatabaseManager.Unavailable ->
   run db results = (error_with Persistence.OperationalError, db)) /\
  (forall rows alerts,
     Persistence.file db = DatabaseManager.Available rows alerts ->
     (Persistence.write_locked db = true ->
      run db results = (error_with Persistence.OperationalError, db)) /\
     (Persistence.write_locked db = false ->
      (exists item, In item (AnalysisCycle.gather_data results) /\
         (SentimentData.raw_sentiment item = S754_nan \/
          SentimentData.adjusted_sentiment item = S754_nan)) ->
      let locked := {| Persistence.file := DatabaseManager.Available rows alerts;
                       Persistence.write_locked := true |} in
      run db results = (error_with Persistence.IntegrityError, locked) /\
      forall later, AnalysisCycle.gather_data later <> [] ->
        run locked later = (error_with Persistence.OperationalError, locked) /\
        (scored (AnalysisCycle.gather_data later) ->
         AnalysisCycle.status (fst (run (Persistence.collected locked) later)) = "success"))).
Proof.
  cbn zeta. intros Hdata.
  assert (Hlocked : forall (d : Persistence.database) rows alerts
                           (rs : list (E + list (SentimentData.t spec_float))),
            AnalysisCycle.gather_data rs <> [] ->
            Persistence.file d = DatabaseManager.Available rows alerts ->
            Persistence.write_locked d = true ->
            AnalysisCycle.run_analysis_cycle series_mean now clock alert_generator d rs
            = (AnalysisCycle.failed clock Persistence.OperationalError, d)).
  { intros d rows alerts rs Hrs Hfile Hlock. apply cycle_of_failed_write; [exact Hrs |].
    unfold Persistence.save_sentiment_data. rewrite Hfile, Hlock.
    destruct (AnalysisCycle.gather_data rs); [congruence | reflexivity]. }
  split.
  - intros Hfile. apply cycle_of_failed_write; [exact Hdata |].
    unfold Persistence.save_sentiment_data. rewrite Hfile.
    destruct (AnalysisCycle.gather_data results); [congruence | reflexivity].
  - intros rows alerts Hfile. split; [apply (Hlocked db rows alerts results Hdata Hfile) |].
    intros Hlock Hbad. split.
    + apply cycle_of_failed_write; [exact Hdata |].
      unfold Persistence.save_sentiment_data. rewrite Hfile, Hlock.
      destruct (collect_rows (AnalysisCycle.gather_data results)) as [[_ ->] | [Hgood _]].
      * destruct (AnalysisCycle.gather_data results); [congruence | reflexivity].
      * destruct Hbad as (bad & Hin & Hnan). destruct (Hgood bad Hin). tauto.
    + intros later Hlater. split.
      * apply (Hlocked _ rows alerts later Hlater); reflexivity.
      * intros Hscored.
        destruct (collect_rows (AnalysisCycle.gather_data later))
          as [[(bad & Hin & Hnan) _] | [_ (new_rows & Hrows)]].
        { destruct (Hscored bad Hin). tauto. }
        unfold Persistence.collected. cbn [Persistence.file].
        rewrite (cycle_of_clean_batch series_mean now clock alert_generator rows alerts later
                   new_rows Hlater Hrows).
        reflexivity.
Qed.

Lemma cycle_persistence_failure_witness :
  let run := AnalysisCycle.run_analysis_cycle AlertGenerator.sequential_mean
               (fun n => Z.of_nat n) 300%Z AlertGenerator.default in
  let locked := {| Persistence.file := DatabaseManager.Available Samples.table [];
                   Persistence.write_locked := true |} in
  snd (run {| Persistence.file := DatabaseManager.Available Samples.table [];
              Persistence.write_locked := false |}
           [inl "timeout"; inr Samples.unscored_batch]) = locked /\
  AnalysisCycle.error (fst (run locked [inl "timeout"; inr Samples.batch]))
  = Some Persistence.OperationalError.
Proof.
  cbn zeta.
  destruct (cycle_persistence_failure AlertGenerator.sequential_mean (fun n => Z.of_nat n)
              300%Z AlertGenerator.default
              {| Persistence.file := DatabaseManager.Available Samples.table [];
                 Persistence.write_locked := false |}
              [inl "timeout"; inr Samples.unscored_batch]) as (_ & Hopen).
  - discriminate.
  - destruct (Hopen Samples.table [] eq_refl) as (_ & Hfail).
    destruct Hfail as (Hfirst & Hnext).
    + reflexivity.
    + exists (Samples.report "news" "Yaba" "traffic" "gridlock at Yaba"
                S754_nan S754_nan (dec 9 1) 170%Z).
      split; [right; left; reflexivity | left; reflexivity].
    + cbn zeta in Hfirst, Hnext. split.
      * rewrite Hfirst. reflexivity.
      * destruct (Hnext [inl "timeout"; inr Samples.batch]) as [Hlater _];
          [discriminate |].
        rewrite Hlater. reflexivity.
Defined.

(** What a successful [INSERT INTO alerts] leaves of an alert. *)
Lemma alert_row_of_fields (alert : SecurityAlert.t spec_float) :
  let row := Persistence.alert_row_of alert in
  DatabaseManager.alert_area row = SecurityAlert.area alert /\
  DatabaseManager.alert_message row = SecurityAlert.message alert /\
  DatabaseManager.alert_severity row = SecurityAlert.severity alert /\
  (DatabaseManager.alert_confidence row = None <-> SecurityAlert.confidence alert = S754_nan) /\
  DatabaseManager.alert_type row = Some (SecurityAlert.alert_type alert) /\
  DatabaseManager.alert_timestamp row = SecurityAlert.timestamp alert /\
  DatabaseManager.alert_resolved row = SecurityAlert.resolved alert.
Proof.
  cbn zeta. unfold Persistence.alert_row_of.
  cbn [DatabaseManager.alert_area DatabaseManager.alert_message DatabaseManager.alert_severity
       DatabaseManager.alert_confidence DatabaseManager.alert_type
       DatabaseManager.alert_timestamp DatabaseManager.alert_resolved].
  repeat split; apply stored_real_None.
Qed.

(** X29. A cycle that collected records, none with a NaN as raw or
    adjusted score, on a database that is readable and not write-locked
    succeeds whatever collectors failed beside: [processed_items] is the
    number of records of the collectors that returned,
    [alerts_generated] the number of alerts [generate_alerts] derives
    from them, [sources_breakdown] their breakdown by source, and the
    database afterwards holds the rows it held followed by one row per
    record and one row per alert, and no lock.  A row carries the fields
    of its record or alert; of a score that is a negative zero it
    carries the zero, and of a confidence that is a NaN the [NULL]. *)
Theorem cycle_success {E : Type}
  (series_mean : list spec_float -> spec_float) (now : nat -> datetime) (clock : datetime)
  (alert_generator : AlertGenerator.t spec_float)
  (rows : list DatabaseManager.sentiment_row) (alerts : list DatabaseManager.alert_row)
  (results : list (E + list (SentimentData.t spec_float))) :
  let all_data := AnalysisCycle.gather_data results in
  let generated := AlertGenerator.generate_alerts series_mean now alert_generator all_data in
  let kept := fun x y : spec_float =>
    (x <> S754_zero true -> y = x) /\ (x = S754_zero true -> y = S754_zero false) in
  all_data <> [] ->
  (forall item, In item all_data ->
     SentimentData.raw_sentiment item <> S754_nan /\
     SentimentData.adjusted_sentiment item <> S754_nan) ->
  exists new_rows new_alerts,
    Forall2 (fun item row =>
               DatabaseManager.source row = SentimentData.source item /\
               DatabaseManager.text row = SentimentData.text item /\
               kept (SentimentData.raw_sentiment item) (DatabaseManager.raw_sentiment row) /\
               kept (SentimentData.adjusted_sentiment item)
                    (DatabaseManager.adjusted_sentiment row) /\
               DatabaseManager.location row = Some (SentimentData.location item) /\
               DatabaseManager.timestamp row = SentimentData.timestamp item /\
               (DatabaseManager.confidence row = None <->
                SentimentData.confidence item = S754_nan) /\
               DatabaseManager.category row = Some (SentimentData.category item) /\
               DatabaseManager.language row = Some (SentimentData.language item))
            all_data new_rows /\
    Forall2 (fun alert row =>
               DatabaseManager.alert_area row = SecurityAlert.area alert /\
               DatabaseManager.alert_message row = SecurityAlert.message alert /\
               DatabaseManager.alert_severity row = SecurityAlert.severity alert /\
               (DatabaseManager.alert_confidence row = None <->
                SecurityAlert.confidence alert = S754_nan) /\
               DatabaseManager.alert_type row = Some (SecurityAlert.alert_type alert) /\
               DatabaseManager.alert_timestamp row = SecurityAlert.timestamp alert /\
               DatabaseManager.alert_resolved row = SecurityAlert.resolved alert)
            generated new_alerts /\
    AnalysisCycle.run_analysis_cycle series_mean now clock alert_generator
      {| Persistence.file := DatabaseManager.Available rows alerts;
         Persistence.write_locked := false |} results
    = ({| AnalysisCycle.processed_items := List.length all_data;
          AnalysisCycle.alerts_generated := List.length generated;
          AnalysisCycle.timestamp := clock;
          AnalysisCycle.status := "success";
          AnalysisCycle.message := None;
          AnalysisCycle.error := None;
          AnalysisCycle.sources_breakdown :=
            Some (AnalysisCycle._get_sources_breakdown all_data) |},
       {| Persistence.file :=
            DatabaseManager.Available (rows ++ new_rows) (alerts ++ new_alerts);
          Persistence.write_locked := false |}).
Proof.
  cbn zeta. intros Hdata Hclean.
  destruct (collect_rows (AnalysisCycle.gather_data results))
    as [[(bad & Hbad & Hnan) _] | [_ (new_rows & Hrows)]].
  { destruct (Hclean bad Hbad). tauto. }
  exists new_rows,
    (map Persistence.alert_row_of
         (AlertGenerator.generate_alerts series_mean now alert_generator
            (AnalysisCycle.gather_data results))).
  split; [| split].
  - apply collect_ok in Hrows. revert Hrows. apply List.Forall2_impl. intros item row Hrow.
    destruct (sentiment_row_of_fields item row Hrow)
      as (Hsource & Htext & Hraw1 & Hraw2 & Hadj1 & Hadj2 & Hloc & Htime & Hconf & Hcat & Hlang).
    repeat split; assumption || apply Hconf.
  - induction (AlertGenerator.generate_alerts series_mean now alert_generator
                 (AnalysisCycle.gather_data results)) as [|alert others IH];
      cbn [map]; constructor; [| exact IH].
    apply alert_row_of_fields.
  - apply (cycle_of_clean_batch series_mean now clock alert_generator rows alerts results
             new_rows Hdata Hrows).
Qed.

Lemma cycle_success_witness :
  AnalysisCycle.status
    (fst (AnalysisCycle.run_analysis_cycle AlertGenerator.sequential_mean (fun n => Z.of_nat n)
            300%Z AlertGenerator.default
            {| Persistence.file := DatabaseManager.Available [] [];
               Persistence.write_locked := false |}
            [inl "timeout"; inr Samples.batch]))
  = "success".
Proof.
  destruct (cycle_success AlertGenerator.sequential_mean (fun n => Z.of_nat n)
              300%Z AlertGenerator.default [] [] [inl "timeout"; inr Samples.batch])
    as (new_rows & new_alerts & _ & _ & Hrun).
  - discriminate.
  - intros item Hin. cbn [AnalysisCycle.gather_data fold_left app Samples.batch In] in Hin.
    repeat destruct Hin as [<- | Hin]; try (split; vm_compute; discriminate). destruct Hin.
  - rewrite Hrun. reflexivity.
Defined.

Lemma generated_alert_unresolved
      (series_mean : list spec_float -> spec_float) (now : nat -> datetime)
      (alert_generator : AlertGenerator.t spec_float)
      (data : list (SentimentData.t spec_float)) (alert : SecurityAlert.t spec_float) :
  In alert (AlertGenerator.generate_alerts series_mean now alert_generator data) ->
  SecurityAlert.resolved alert = false.
Proof.
  unfold AlertGenerator.generate_alerts. destruct data as [|item rest] eqn:Hdata; [intros [] |].
  rewrite <- Hdata. intros Hin.
  apply alerts_loop_In in Hin as (k & area & _ & Hk).
  destruct (examine_emit_inv _ _ _ _ _ _ _ Hk) as (_ & _ & _ & _ & _ & _ & _ & _ & Hres).
  exact Hres.
Qed.

(** X30. After a successful cycle every alert it generated is among the
    active alerts of the store, for every reading of the clock less than
    24 hours after the alert's timestamp (and a day or more after the
    first date Python can represent). *)
Theorem generated_alerts_become_active {E : Type}
  (series_mean : list spec_float -> spec_float) (now : nat -> datetime) (clock : datetime)
  (alert_generator : AlertGenerator.t spec_float) (db : Persistence.database)
  (results : list (E + list (SentimentData.t spec_float)))
  (alert : SecurityAlert.t spec_float) (later : datetime) :
  let outcome := AnalysisCycle.run_analysis_cycle series_mean now clock alert_generator db results in
  AnalysisCycle.status (fst outcome) = "success" ->
  In alert (AlertGenerator.generate_alerts series_mean now alert_generator
              (AnalysisCycle.gather_data results)) ->
  (datetime_min <= later - 86400 <= datetime_max)%Z ->
  (later - 86400 < SecurityAlert.timestamp alert)%Z ->
  In (Persistence.alert_row_of alert)
     (DatabaseManager.get_active_alerts (Persistence.file (snd outcome)) later).
Proof.
  cbn zeta. intros Hstatus Hin Hrange Hts.
  pose proof (generated_alert_unresolved _ _ _ _ _ Hin) as Hres.
  unfold AnalysisCycle.run_analysis_cycle in *. cbn zeta in *.
  destruct (AnalysisCycle.gather_data results) as [|item rest] eqn:Hall;
    [cbn in Hstatus; discriminate Hstatus |].
  rewrite <- Hall in *.
  destruct (Persistence.save_sentiment_data db (AnalysisCycle.gather_data results))
    as [[e|[]] db1] eqn:Hsave; [cbn in Hstatus; discriminate Hstatus |].
  destruct (save_sentiment_data_ok db db1 _ Hsave)
    as [[Hnil _] | (rows & alerts & new & _ & _ & _ & ->)]; [congruence |].
  rewrite save_alerts_available. cbn [snd Persistence.file].
  apply get_active_alerts_In. split; [exact Hrange |]. split; [| split].
  - apply List.in_or_app. right. apply List.in_map. exact Hin.
  - cbn [Persistence.alert_row_of DatabaseManager.alert_timestamp]. exact Hts.
  - exact Hres.
Qed.

Lemma generated_alerts_become_active_witness :
  exists row,
    In row (DatabaseManager.get_active_alerts
              (Persistence.file
                 (snd (AnalysisCycle.run_analysis_cycle AlertGenerator.sequential_mean
                         (fun n => Z.of_nat n) 300%Z AlertGenerator.default
                         {| Persistence.file := DatabaseManager.Available [] [];
                            Persistence.write_locked := false |}
                         [inl "timeout"; inr Samples.batch])))
              50%Z) /\
    DatabaseManager.alert_area row = "Ikeja".
Proof.
  remember (AlertGenerator.generate_alerts AlertGenerator.sequential_mean
              (fun n => Z.of_nat n) AlertGenerator.default
              (AnalysisCycle.gather_data [inl "timeout"; inr Samples.batch])) as generated eqn:Hgen.
  pose proof Hgen as Hvalue. vm_compute in Hvalue.
  destruct generated as [|alert others]; [discriminate Hvalue |].
  injection Hvalue as Halert _.
  exists (Persistence.alert_row_of alert). split.
  - apply (generated_alerts_become_active AlertGenerator.sequential_mean
             (fun n => Z.of_nat n) 300%Z AlertGenerator.default
             {| Persistence.file := DatabaseManager.Available [] [];
                Persistence.write_locked := false |}
             [inl "timeout"; inr Samples.batch] alert 50%Z).
    + vm_compute. reflexivity.
    + rewrite <- Hgen. left. reflexivity.
    + vm_compute. split; discriminate.
    + rewrite Halert. vm_compute. reflexivity.
  - rewrite Halert. reflexivity.
Defined.
